(** * Admin user and role management routes: a shallow embedding

    The development follows the four route modules of the repository:

    - [AddNewUserRoute]  : the multi-intent creation route
                           (src/unnamed/part_000: create-role, delete-role,
                           user creation);
    - [EditUser]         : the edit route (src/unnamed/part_001);
    - [AllUsers]         : the listing route (src/unnamed/part_002, first
                           module);
    - [AddNewUserPlain]  : the single-intent creation route
                           (src/unnamed/part_002, second module).

    Handlers are [async] functions that talk to the data store, so they are
    embedded in a small state/exception monad [Async] over a [World] that
    holds the store and the trace of effects performed so far. *)

From Stdlib Require Import Ascii String.
From stdpp Require Import gmap strings list infinite sorting.

Open Scope string_scope.
Open Scope list_scope.

(** ** Strings

    Strings are byte strings.  [String.prototype.toLowerCase] folds every
    cased letter of the string, so it is not fixed here: the routes take it
    from their environment (see [Collaborators] below), with the two facts
    about it that the properties use.  [fold_ascii] is the fold on the ASCII
    letters, which is what [toLowerCase] does to a string of ASCII
    characters; the reference environment runs the handlers with it. *)

Definition lower_ascii (c : ascii) : ascii :=
  let n := nat_of_ascii c in
  if (65 <=? n)%nat && (n <=? 90)%nat then ascii_of_nat (n + 32) else c.

Fixpoint fold_ascii (s : string) : string :=
  match s with
  | EmptyString => EmptyString
  | String c r => String (lower_ascii c) (fold_ascii r)
  end.

(** ** Requests and form data *)

(** [FormDataEntryValue = string | File]. *)
Inductive FormDataEntryValue :=
| FString (s : string)
| FFile (filename : string).

Global Instance FormDataEntryValue_eq_dec : EqDecision FormDataEntryValue.
Proof. solve_decision. Defined.

(** [value.toString()] *)
Definition entry_toString (v : FormDataEntryValue) : string :=
  match v with
  | FString s => s
  | FFile _ => "[object File]"
  end.

(** A form body is the ordered list of its (name, value) entries. *)
Definition FormData := list (string * FormDataEntryValue).

(** [formData.get(name)]: the first value of that name, [null] when absent. *)
Fixpoint get (formData : FormData) (name : string) : option FormDataEntryValue :=
  match formData with
  | [] => None
  | (k, v) :: rest => if decide (k = name) then Some v else get rest name
  end.

(** [formData.getAll(name)]: every value of that name, in order; the empty
    array when there is none. *)
Fixpoint getAll (formData : FormData) (name : string) : list FormDataEntryValue :=
  match formData with
  | [] => []
  | (k, v) :: rest =>
      if decide (k = name) then v :: getAll rest name else getAll rest name
  end.

Record Request := {
  credentials : string;   (* the session cookie the identity is resolved from *)
  body : FormData;
}.

Record Response := {
  status : nat;
  location : option string;
  text : string;
}.

Global Instance Response_eq_dec : EqDecision Response.
Proof. solve_decision. Defined.

(** [redirect(url)] of react-router: a 302 response with a Location header. *)
Definition redirect (url : string) : Response :=
  {| status := 302; location := Some url; text := "" |}.

(** [new Response('Not Found', { status: 404 })] *)
Definition not_found : Response :=
  {| status := 404; location := None; text := "Not Found" |}.

(** ** zod schemas *)

(** The values a schema is applied to. *)
#[warnings="-register-all"]
Inductive JsValue :=
| JUndefined
| JNull
| JString (s : string)
| JFile (filename : string)
| JArray (items : list JsValue).

Definition of_entry (v : FormDataEntryValue) : JsValue :=
  match v with
  | FString s => JString s
  | FFile f => JFile f
  end.

(** The result of [formData.get]: a value or [null]. *)
Definition of_get (v : option FormDataEntryValue) : JsValue :=
  match v with
  | Some v => of_entry v
  | None => JNull
  end.

(** The result of [formData.getAll]: always an array. *)
Definition of_getAll (vs : list FormDataEntryValue) : JsValue :=
  JArray (of_entry <$> vs).

(** [safeParse]: the parsed data, or the messages of the issues found. *)
Inductive SafeParse (A : Type) :=
| ParseOk (data : A)
| ParseError (issues : list string).
Global Arguments ParseOk {A} data.
Global Arguments ParseError {A} issues.

Definition issues_of {A} (r : SafeParse A) : list string :=
  match r with
  | ParseOk _ => []
  | ParseError l => l
  end.

Definition ZodType (A : Type) := JsValue → SafeParse A.

Definition received (v : JsValue) : string :=
  match v with
  | JUndefined => "undefined"
  | JNull => "null"
  | JString _ => "string"
  | JFile _ => "object"
  | JArray _ => "array"
  end.

(** The message of zod's [invalid_type] issue. *)
Definition invalid_type (expected : string) (v : JsValue) : string :=
  match v with
  | JUndefined => "Required"
  | _ => "Expected " ++ expected ++ ", received " ++ received v
  end.

(** [z.string()] *)
Definition z_string : ZodType string := λ v,
  match v with
  | JString s => ParseOk s
  | _ => ParseError [invalid_type "string" v]
  end.

(** [schema.min(n, message)] on a string schema *)
Definition z_min (n : nat) (message : string) (schema : ZodType string)
  : ZodType string := λ v,
  match schema v with
  | ParseOk s =>
      if (String.length s <? n)%nat then ParseError [message] else ParseOk s
  | ParseError l => ParseError l
  end.

(** Parses the items one by one and keeps every issue. *)
Fixpoint parse_items {A} (schema : ZodType A) (items : list JsValue)
  : SafeParse (list A) :=
  match items with
  | [] => ParseOk []
  | v :: rest =>
      match schema v, parse_items schema rest with
      | ParseOk a, ParseOk l => ParseOk (a :: l)
      | r, rs => ParseError (issues_of r ++ issues_of rs)
      end
  end.

(** [z.array(schema)] *)
Definition z_array {A} (schema : ZodType A) : ZodType (list A) := λ v,
  match v with
  | JArray items => parse_items schema items
  | _ => ParseError [invalid_type "array" v]
  end.

(** [schema.default(value)]: the default replaces an [undefined] input, and
    nothing else. *)
Definition z_default {A} (value : JsValue) (schema : ZodType A) : ZodType A :=
  λ v,
  match v with
  | JUndefined => schema value
  | _ => schema v
  end.

(** [error.flatten().fieldErrors]: the issues by field, for the fields that
    have some. *)
Definition fieldErrors (fields : list (string * list string)) : gmap string (list string) :=
  list_to_map (filter (λ p, p.2 ≠ []) fields).

(** ** The data store

    Modelled from the spec: the Prisma schema (prisma/schema.prisma) and the
    client of [#app/utils/db.server.ts] are not among the sources.  Section 3
    of the specification gives the entities: a user with unique [id], [email]
    and [username], a display [name], an owned credential holding a password
    hash, and a many-to-many relation to roles; a role with a unique [name]
    and an optional [description].  The operations follow the Prisma client:
    [findUnique]/[findFirst] return a row or [null]; [create] and [update]
    fail on a unique-constraint violation (P2002); [delete], [update] and
    [connect] fail when the row they need is missing (P2025). *)

Module Role.
Record t := {
  name : string;
  description : option string;
}.
End Role.

Module User.
Record t := {
  id : string;
  email : string;
  username : string;
  name : option string;
  password : option string;    (* the hash of the owned credential *)
  roles : list string;         (* names of the connected roles, in the
                                  order of connection *)
}.
End User.

(** Rows are kept in creation order. *)
Record Store := {
  users : list User.t;
  roles : list Role.t;
}.

Definition set_users (st : Store) (us : list User.t) : Store :=
  {| users := us; roles := roles st |}.

Definition set_roles (st : Store) (rs : list Role.t) : Store :=
  {| users := users st; roles := rs |}.

Inductive Thrown :=
| ThrownResponse (r : Response)
| PrismaError (code : string).

Inductive Outcome (A : Type) :=
| Returned (a : A)
| Threw (t : Thrown).
Global Arguments Returned {A} a.
Global Arguments Threw {A} t.

(** ** What the routes take from their environment

    Modelled from the spec: [#app/utils/permissions.server.ts],
    [#app/utils/auth.server.ts], [#app/utils/user-validation.ts] and the
    Prisma schema are not among the sources.  Section 4.1 gives the role
    check as [requireRole(request, roleName) -> Identity |
    AuthorizationError], section 6 the hash as [hash(plaintext) -> opaque
    digest], and section 4.2 the three shared field rules; they are taken as
    they come.  What becomes of the relation rows of a role that is deleted
    is decided by the schema ([role_deleted name held] is what a user who
    held the roles [held] holds afterwards: [held] itself if the rows are
    left behind, as section 7 (a) has it, [held] without [name] if they go
    with the role); either way a user who did not hold the role is not
    concerned.  [toLowerCase] is the method of the JavaScript strings: it is
    idempotent and maps the empty string, and no other, to the empty
    string. *)

Class Collaborators := {
  toLowerCase : string → string;
  toLowerCase_idempotent s : toLowerCase (toLowerCase s) = toLowerCase s;
  toLowerCase_empty s : toLowerCase s = "" ↔ s = "";
  role_deleted : string → list string → list string;
  role_deleted_other name held : name ∉ held → role_deleted name held = held;
  (** the identity of the caller, or what the role check throws *)
  resolve_role : Request → string → Store → Thrown + string;
  hash : string → string;
  EmailSchema : ZodType string;
  UsernameSchema : ZodType string;
  PasswordSchema : ZodType string;
}.

(** The [where] argument of the user look-ups. *)
Inductive UserWhere :=
| ById (id : string)
| ByEmail (email : string)
| ByUsername (username : string).

Definition matches (w : UserWhere) (u : User.t) : bool :=
  match w with
  | ById i => bool_decide (User.id u = i)
  | ByEmail e => bool_decide (User.email u = e)
  | ByUsername n => bool_decide (User.username u = n)
  end.

Definition role_exists (st : Store) (name : string) : bool :=
  bool_decide (name ∈ Role.name <$> roles st).

(** [prisma.role.findMany({ orderBy: { name: 'asc' } })] *)
Definition role_findMany_by_name (st : Store) : list Role.t :=
  merge_sort (λ a b, String.leb (Role.name a) (Role.name b)) (roles st).

(** [prisma.role.findUnique({ where: { name } })] *)
Definition role_findUnique (st : Store) (name : string) : option Role.t :=
  List.find (λ r, bool_decide (Role.name r = name)) (roles st).

(** [prisma.role.create({ data: { name } })] *)
Definition role_create (st : Store) (name : string) : Outcome Role.t * Store :=
  if role_exists st name then (Threw (PrismaError "P2002"), st)
  else
    let r := {| Role.name := name; Role.description := None |} in
    (Returned r, set_roles st (roles st ++ [r])).

(** A user row once the role [name] has been deleted: its scalar fields
    are kept, its relation rows are what the schema makes of them. *)
Definition disconnect_role `{Collaborators} (name : string) (u : User.t)
  : User.t :=
  {| User.id := User.id u; User.email := User.email u;
     User.username := User.username u; User.name := User.name u;
     User.password := User.password u;
     User.roles := role_deleted name (User.roles u) |}.

(** [prisma.role.delete({ where: { name } })]: the row goes. *)
Definition role_delete `{Collaborators} (st : Store) (name : string)
  : Outcome Role.t * Store :=
  match role_findUnique st name with
  | None => (Threw (PrismaError "P2025"), st)
  | Some r =>
      (Returned r,
       {| users := disconnect_role name <$> users st;
          roles := filter (λ r, Role.name r ≠ name) (roles st) |})
  end.

(** [prisma.user.findMany({ orderBy: { createdAt: 'desc' } })] *)
Definition user_findMany_newest_first (st : Store) : list User.t :=
  reverse (users st).

(** [prisma.user.findUnique({ where })] *)
Definition user_findUnique (st : Store) (w : UserWhere) : option User.t :=
  List.find (matches w) (users st).

(** [prisma.user.findFirst({ where: { ...w, NOT: { id } } })] *)
Definition user_findFirst_not (st : Store) (w : UserWhere) (id : string)
  : option User.t :=
  List.find (λ u, matches w u && negb (bool_decide (User.id u = id))) (users st).

(** The [data] of a user write. *)
Record UserData := {
  data_email : string;
  data_username : string;
  data_name : string;
  data_hash : option string;     (* [password: { create: { hash } }] *)
  data_set : option (list string);  (* [roles: { set: names }], if given *)
  data_connect : list string;    (* [roles: { connect: names.map(...) }] *)
}.

(** [connect]: a relation row is added for a role the user does not hold
    yet; the rows keep the order in which they were added. *)
Definition connect (held : list string) (name : string) : list string :=
  if bool_decide (name ∈ held) then held else held ++ [name].

Definition connect_all (held names : list string) : list string :=
  foldl connect held names.

(** The roles named by a write: those of [set], then those of [connect]. *)
Definition named_roles (d : UserData) : list string :=
  default [] (data_set d) ++ data_connect d.

(** The relation of a row after a write: [set], when given, replaces what
    the row held; [connect] adds to it. *)
Definition related (held : list string) (d : UserData) : list string :=
  connect_all
    (match data_set d with
     | Some names => connect_all [] names
     | None => held
     end)
    (data_connect d).

(** The row that [create] inserts: the store gives it an unused [id]. *)
Definition created (st : Store) (d : UserData) : User.t :=
  {| User.id := fresh (User.id <$> users st);
     User.email := data_email d;
     User.username := data_username d;
     User.name := Some (data_name d);
     User.password := data_hash d;
     User.roles := related [] d |}.

(** [prisma.user.create({ data })] *)
Definition user_create (st : Store) (d : UserData) : Outcome User.t * Store :=
  if bool_decide (is_Some (user_findUnique st (ByEmail (data_email d)))
                  ∨ is_Some (user_findUnique st (ByUsername (data_username d))))
  then (Threw (PrismaError "P2002"), st)
  else if negb (forallb (role_exists st) (named_roles d))
  then (Threw (PrismaError "P2025"), st)
  else (Returned (created st d), set_users st (users st ++ [created st d])).

(** The row [u] after [update]: the scalar fields are overwritten and the
    relation is written as [roles: { set, connect }] says. *)
Definition updated (d : UserData) (u : User.t) : User.t :=
  {| User.id := User.id u;
     User.email := data_email d;
     User.username := data_username d;
     User.name := Some (data_name d);
     User.password := User.password u;
     User.roles := related (User.roles u) d |}.

(** The rows once every row of that [id] has been updated. *)
Definition update_rows (id : string) (d : UserData) (us : list User.t)
  : list User.t :=
  (λ v, if bool_decide (User.id v = id) then updated d v else v) <$> us.

(** [prisma.user.update({ where: { id }, data })] *)
Definition user_update (st : Store) (id : string) (d : UserData)
  : Outcome User.t * Store :=
  match user_findUnique st (ById id) with
  | None => (Threw (PrismaError "P2025"), st)
  | Some u =>
      if bool_decide (is_Some (user_findFirst_not st (ByEmail (data_email d)) id)
                      ∨ is_Some (user_findFirst_not st (ByUsername (data_username d)) id))
      then (Threw (PrismaError "P2002"), st)
      else if negb (forallb (role_exists st) (named_roles d))
      then (Threw (PrismaError "P2025"), st)
      else (Returned (updated d u), set_users st (update_rows id d (users st)))
  end.

(** ** Effects

    Every handler is an [async] function: it reads and writes the store,
    may reject (throw), and performs its effects in program order.  The
    trace records each effect when it is issued. *)

Inductive Event :=
| EvRequireUserWithRole (role : string)
| EvFormData
| EvGetPasswordHash
| EvRoleFindMany
| EvRoleFindUnique (name : string)
| EvRoleCreate (name : string)
| EvRoleDelete (name : string)
| EvUserFindMany
| EvUserFindUnique (w : UserWhere)
| EvUserFindFirst (w : UserWhere) (notId : string)
| EvUserCreate (email username : string)
| EvUserUpdate (id : string).

Global Instance UserWhere_eq_dec : EqDecision UserWhere.
Proof. solve_decision. Defined.

Global Instance Event_eq_dec : EqDecision Event.
Proof. solve_decision. Defined.

Record World := {
  db : Store;
  trace : list Event;
}.

Definition Async (A : Type) := World → Outcome A * World.

Global Instance Async_ret : MRet Async := λ A a w, (Returned a, w).

Global Instance Async_bind : MBind Async := λ A B k m w,
  match m w with
  | (Returned a, w') => k a w'
  | (Threw t, w') => (Threw t, w')
  end.

(** The world once [e] has been issued. *)
Definition logged (e : Event) (w : World) : World :=
  {| db := db w; trace := trace w ++ [e] |}.

Definition emit (e : Event) : Async unit := λ w, (Returned (), logged e w).

Definition read {A} (q : Store → A) : Async A := λ w,
  (Returned (q (db w)), w).

Definition write {A} (op : Store → Outcome A * Store) : Async A := λ w,
  let '(r, st) := op (db w) in (r, {| db := st; trace := trace w |}).

Definition throw {A} (t : Thrown) : Async A := λ w, (Threw t, w).

(** A query: the store is read, not changed. *)
Definition query {A} (e : Event) (q : Store → A) : Async A :=
  emit e;; read q.

(** A mutation: it returns with the new store, or throws and leaves the
    store as it was. *)
Definition mutation {A} (e : Event) (op : Store → Outcome A * Store) : Async A :=
  emit e;; write op.

Module prisma.
Module role.
Definition findMany_by_name : Async (list Role.t) :=
  query EvRoleFindMany role_findMany_by_name.
Definition findUnique (name : string) : Async (option Role.t) :=
  query (EvRoleFindUnique name) (λ st, role_findUnique st name).
Definition create (name : string) : Async Role.t :=
  mutation (EvRoleCreate name) (λ st, role_create st name).
Definition delete `{Collaborators} (name : string) : Async Role.t :=
  mutation (EvRoleDelete name) (λ st, role_delete st name).
End role.
Module user.
Definition findMany_newest_first : Async (list User.t) :=
  query EvUserFindMany user_findMany_newest_first.
Definition findUnique (w : UserWhere) : Async (option User.t) :=
  query (EvUserFindUnique w) (λ st, user_findUnique st w).
Definition findFirst_not (w : UserWhere) (id : string) : Async (option User.t) :=
  query (EvUserFindFirst w id) (λ st, user_findFirst_not st w id).
Definition create (d : UserData) : Async User.t :=
  mutation (EvUserCreate (data_email d) (data_username d))
    (λ st, user_create st d).
Definition update (id : string) (d : UserData) : Async User.t :=
  mutation (EvUserUpdate id) (λ st, user_update st id d).
End user.
End prisma.

(** [await request.formData()] *)
Definition formData (request : Request) : Async FormData :=
  emit EvFormData;; mret (body request).

(** ** The collaborators as effects *)

Section collaborators.
Context `{Collaborators}.

(** [await requireUserWithRole(request, name)] *)
Definition requireUserWithRole (request : Request) (name : string)
  : Async string :=
  emit (EvRequireUserWithRole name);;
  r ← read (resolve_role request name);
  match r with
  | inl t => throw t
  | inr userId => mret userId
  end.

(** [await getPasswordHash(password)] *)
Definition getPasswordHash (password : string) : Async string :=
  emit EvGetPasswordHash;; mret (hash password).

End collaborators.

(** What an action hands back to the router. *)
Inductive FormType := FormRole | FormUser | FormDeleteRole.

Inductive ActionData :=
| Errors400 (errors : gmap string (list string))  (* [{ errors, status: 400 }] *)
| Success (formType : FormType)        (* [{ status: 'success', formType }] *)
| Responded (r : Response)             (* a [Response] *)
| Undefined.                           (* the function ended without [return] *)



(** ** The schemas of the routes *)

(** The result of [schema.safeParse(rawData)] for an object schema:
    [result.data], or [result.error.flatten().fieldErrors]. *)
Inductive ObjectParse (A : Type) :=
| ObjectOk (data : A)
| ObjectError (errors : gmap string (list string)).
Global Arguments ObjectOk {A} data.
Global Arguments ObjectError {A} errors.

(** [rawData], as both creation actions and the edit action build it (the
    edit action has no [password] entry). *)
Module Raw.
Record t := {
  email : JsValue;
  username : JsValue;
  password : JsValue;
  name : JsValue;
  roles : JsValue;
}.
End Raw.

(** [result.data] of [AddNewUserSchema] *)
Module NewUser.
Record t := {
  email : string;
  username : string;
  password : string;
  name : string;
  roles : list string;
}.
End NewUser.

(** [result.data] of [EditUserSchema] *)
Module Edited.
Record t := {
  email : string;
  username : string;
  name : string;
  roles : list string;
}.
End Edited.

(** A user row as the loaders select it: no credential, the roles by name. *)
Module Selected.
Record t := {
  id : string;
  email : string;
  username : string;
  name : option string;
  roles : list string;
}.
End Selected.

Definition select_user (u : User.t) : Selected.t :=
  {| Selected.id := User.id u;
     Selected.email := User.email u;
     Selected.username := User.username u;
     Selected.name := User.name u;
     Selected.roles := User.roles u |}.

Section schemas.
Context `{Collaborators}.

(** [name: z.string().min(1, 'Name is required')] *)
Definition NameSchema : ZodType string := z_min 1 "Name is required" z_string.

(** [roles: z.array(z.string()).default(['user'])] *)
Definition RolesSchema : ZodType (list string) :=
  z_default (JArray [JString "user"]) (z_array z_string).

(** [AddNewUserSchema.safeParse], the same object schema in both creation
    modules. *)
Definition AddNewUserSchema (rawData : Raw.t) : ObjectParse NewUser.t :=
  match EmailSchema (Raw.email rawData), UsernameSchema (Raw.username rawData),
        PasswordSchema (Raw.password rawData), NameSchema (Raw.name rawData),
        RolesSchema (Raw.roles rawData) with
  | ParseOk e, ParseOk u, ParseOk p, ParseOk n, ParseOk r =>
      ObjectOk {| NewUser.email := e; NewUser.username := u;
                  NewUser.password := p; NewUser.name := n;
                  NewUser.roles := r |}
  | e, u, p, n, r =>
      ObjectError (fieldErrors [("email", issues_of e); ("username", issues_of u);
                                ("password", issues_of p); ("name", issues_of n);
                                ("roles", issues_of r)])
  end.

(** [EditUserSchema.safeParse] *)
Definition EditUserSchema (rawData : Raw.t) : ObjectParse Edited.t :=
  match EmailSchema (Raw.email rawData), UsernameSchema (Raw.username rawData),
        NameSchema (Raw.name rawData), RolesSchema (Raw.roles rawData) with
  | ParseOk e, ParseOk u, ParseOk n, ParseOk r =>
      ObjectOk {| Edited.email := e; Edited.username := u;
                  Edited.name := n; Edited.roles := r |}
  | e, u, n, r =>
      ObjectError (fieldErrors [("email", issues_of e); ("username", issues_of u);
                                ("name", issues_of n); ("roles", issues_of r)])
  end.

(** The [rawData] of the creation actions. *)
Definition rawData_create (formData : FormData) : Raw.t :=
  {| Raw.email := of_get (get formData "email");
     Raw.username := of_get (get formData "username");
     Raw.password := of_get (get formData "password");
     Raw.name := of_get (get formData "name");
     Raw.roles := of_getAll (getAll formData "roles") |}.

(** The [rawData] of the edit action: the object has no [password] key. *)
Definition rawData_edit (formData : FormData) : Raw.t :=
  {| Raw.email := of_get (get formData "email");
     Raw.username := of_get (get formData "username");
     Raw.password := JUndefined;
     Raw.name := of_get (get formData "name");
     Raw.roles := of_getAll (getAll formData "roles") |}.

End schemas.

(** ** src/unnamed/part_000: the multi-intent creation route *)

Module AddNewUserRoute.

Record LoaderData := {
  availableRoles : list string;
}.

Section route.
Context `{Collaborators}.

Definition loader (request : Request) : Async LoaderData :=
  requireUserWithRole request "admin";;
  availableRoles ← prisma.role.findMany_by_name;
  mret {| availableRoles := Role.name <$> availableRoles |}.

Definition action (request : Request) : Async ActionData :=
  requireUserWithRole request "admin";;
  formData ← formData request;
  let intent := get formData "intent" in
  if decide (intent = Some (FString "create-role")) then
    let roleName := (toLowerCase ∘ entry_toString) <$> get formData "roleName" in
    match roleName with
    | None | Some "" =>
        mret (Errors400 {[ "role" := ["Role name is required"] ]})
    | Some roleName =>
        (* Check if role already exists *)
        existingRole ← prisma.role.findUnique roleName;
        match existingRole with
        | Some _ => mret (Errors400 {[ "role" := ["This role already exists"] ]})
        | None =>
            (* Create new role *)
            prisma.role.create roleName;;
            mret (Success FormRole)
        end
    end
  else if decide (intent = Some (FString "delete-role")) then
    let roleName := entry_toString <$> get formData "roleName" in
    match roleName with
    | None | Some "" =>
        mret (Errors400 {[ "role" := ["Role name is required"] ]})
    | Some roleName =>
        (* Don't allow deletion of 'admin' and 'user' roles *)
        if bool_decide (roleName = "admin") || bool_decide (roleName = "user")
        then mret (Errors400 {[ "role" := ["Cannot delete system roles"] ]})
        else
          (* Delete the role *)
          prisma.role.delete roleName;;
          mret (Success FormDeleteRole)
    end
  else
    (* Original user creation logic... *)
    match AddNewUserSchema (rawData_create formData) with
    | ObjectError errors => mret (Errors400 errors)
    | ObjectOk d =>
        (* Check if user with email already exists *)
        existingEmail ←
          prisma.user.findUnique (ByEmail (toLowerCase (NewUser.email d)));
        match existingEmail with
        | Some _ =>
            mret (Errors400
                    {[ "email" := ["A user with this email already exists"] ]})
        | None =>
            (* Check if user with username already exists *)
            existingUsername ←
              prisma.user.findUnique
                (ByUsername (toLowerCase (NewUser.username d)));
            match existingUsername with
            | Some _ =>
                mret (Errors400
                        {[ "username" :=
                             ["A user with this username already exists"] ]})
            | None =>
                hashed ← getPasswordHash (NewUser.password d);
                newUser ← prisma.user.create
                  {| data_email := toLowerCase (NewUser.email d);
                     data_username := toLowerCase (NewUser.username d);
                     data_name := NewUser.name d;
                     data_hash := Some hashed;
                     data_set := None;
                     data_connect := NewUser.roles d |};
                (* [redirect('/admin/successful-user-created')] is evaluated
                   and its value dropped: the function ends with no
                   [return] *)
                let _ := redirect "/admin/successful-user-created" in
                mret Undefined
            end
        end
    end.

End route.
End AddNewUserRoute.

(** ** src/unnamed/part_001: the edit route *)

Module EditUser.

Record LoaderData := {
  user : Selected.t;
  availableRoles : list Role.t;
}.

Section route.
Context `{Collaborators}.

Definition loader (request : Request) (userId : string) : Async LoaderData :=
  requireUserWithRole request "admin";;
  (* Fetch all available roles from the database *)
  availableRoles ← prisma.role.findMany_by_name;
  user ← prisma.user.findUnique (ById userId);
  match user with
  | None => throw (ThrownResponse not_found)
  | Some user =>
      mret {| user := select_user user; availableRoles := availableRoles |}
  end.

Definition action (request : Request) (userId : string) : Async ActionData :=
  requireUserWithRole request "admin";;
  formData ← formData request;
  match EditUserSchema (rawData_edit formData) with
  | ObjectError errors => mret (Errors400 errors)
  | ObjectOk d =>
      (* Check if email is taken by another user *)
      existingEmail ←
        prisma.user.findFirst_not (ByEmail (toLowerCase (Edited.email d))) userId;
      match existingEmail with
      | Some _ =>
          mret (Errors400 {[ "email" := ["This email is already taken"] ]})
      | None =>
          (* Check if username is taken by another user *)
          existingUsername ←
            prisma.user.findFirst_not
              (ByUsername (toLowerCase (Edited.username d))) userId;
          match existingUsername with
          | Some _ =>
              mret (Errors400
                      {[ "username" := ["This username is already taken"] ]})
          | None =>
              prisma.user.update userId
                {| data_email := toLowerCase (Edited.email d);
                   data_username := toLowerCase (Edited.username d);
                   data_name := Edited.name d;
                   data_hash := None;
                   data_set := Some [];   (* Remove all current roles *)
                   data_connect := Edited.roles d |};;   (* Add new roles *)
              mret (Responded (redirect "/admin/all-users"))
          end
      end
  end.

End route.
End EditUser.

(** ** src/unnamed/part_002, first module: the listing route *)

Module AllUsers.

Record LoaderData := {
  users : list Selected.t;
}.

Section route.
Context `{Collaborators}.

Definition loader (request : Request) : Async LoaderData :=
  requireUserWithRole request "admin";;
  users ← prisma.user.findMany_newest_first;
  mret {| users := select_user <$> users |}.

End route.
End AllUsers.

(** ** src/unnamed/part_002, second module: the single-intent creation route *)

Module AddNewUserPlain.

Section route.
Context `{Collaborators}.

Definition loader (request : Request) : Async unit :=
  requireUserWithRole request "admin";;
  mret ().

Definition action (request : Request) : Async ActionData :=
  requireUserWithRole request "admin";;
  formData ← formData request;
  match AddNewUserSchema (rawData_create formData) with
  | ObjectError errors => mret (Errors400 errors)
  | ObjectOk d =>
      (* Check if user with email already exists *)
      existingEmail ←
        prisma.user.findUnique (ByEmail (toLowerCase (NewUser.email d)));
      match existingEmail with
      | Some _ =>
          mret (Errors400
                  {[ "email" := ["A user with this email already exists"] ]})
      | None =>
          (* Check if user with username already exists *)
          existingUsername ←
            prisma.user.findUnique
              (ByUsername (toLowerCase (NewUser.username d)));
          match existingUsername with
          | Some _ =>
              mret (Errors400
                      {[ "username" :=
                           ["A user with this username already exists"] ]})
          | None =>
              hashed ← getPasswordHash (NewUser.password d);
              newUser ← prisma.user.create
                {| data_email := toLowerCase (NewUser.email d);
                   data_username := toLowerCase (NewUser.username d);
                   data_name := NewUser.name d;
                   data_hash := Some hashed;
                   data_set := None;
                   data_connect := NewUser.roles d |};
              mret (Responded (redirect "/admin/successful-user-created"))
          end
      end
  end.

End route.
End AddNewUserPlain.

(** ** A reference environment

    Modelled from the spec: the role check resolves the caller from the
    request's credential and confirms that it holds the role (section 4.1);
    the field rules are an e-mail shape, a length rule for user names and a
    minimum strength for passwords (section 4.2); the digest is opaque
    (section 6); the relation rows of a deleted role are left behind
    (section 7 (a)).  Strings are folded on their ASCII letters.  The
    instance serves to run the handlers on concrete requests. *)

Definition unauthorized : Response :=
  {| status := 403; location := None; text := "Unauthorized" |}.

Definition session_role (request : Request) (name : string) (st : Store)
  : Thrown + string :=
  match List.find (λ u, bool_decide (User.id u = credentials request)) (users st) with
  | Some u =>
      if bool_decide (name ∈ User.roles u) then inr (User.id u)
      else inl (ThrownResponse unauthorized)
  | None => inl (ThrownResponse (redirect "/login"))
  end.

Fixpoint contains_at (s : string) : bool :=
  match s with
  | EmptyString => false
  | String c r => bool_decide (c = "@"%char) || contains_at r
  end.

Definition email_rule : ZodType string := λ v,
  match z_string v with
  | ParseOk s => if contains_at s then ParseOk s else ParseError ["Email is invalid"]
  | ParseError l => ParseError l
  end.

#[export, refine] Instance reference : Collaborators := {|
  toLowerCase := fold_ascii;
  role_deleted := λ _ held, held;
  resolve_role := session_role;
  hash := String.append "digest:";
  EmailSchema := email_rule;
  UsernameSchema := z_min 3 "Username is too short" z_string;
  PasswordSchema := z_min 6 "Password is too short" z_string;
|}.
Proof.
  - intros s. induction s as [|c s IH]; cbn; [reflexivity |]. rewrite IH.
    f_equal. destruct c as [[] [] [] [] [] [] [] []]; reflexivity.
  - intros s. destruct s; cbn; split; intros; (reflexivity || discriminate).
  - reflexivity.
Defined.

(** A store with the two system roles and one administrator. *)
Definition admin_row : User.t :=
  {| User.id := "u0"; User.email := "root@example.com";
     User.username := "root"; User.name := Some "Root";
     User.password := Some "digest:secret";
     User.roles := ["admin"] |}.

Definition seed : Store :=
  {| users := [admin_row];
     roles := [ {| Role.name := "admin"; Role.description := None |};
                {| Role.name := "user"; Role.description := None |} ] |}.

Definition start (st : Store) : World := {| db := st; trace := [] |}.

(** A request of the administrator with the given form. *)
Definition post (form : list (string * string)) : Request :=
  {| credentials := "u0"; body := prod_map id FString <$> form |}.

(** ** Vocabulary of the properties *)

(** The world after the events [es], with the store [st]. *)
Definition after (w : World) (st : Store) (es : list Event) : World :=
  {| db := st; trace := trace w ++ es |}.

(** A computation only ever adds to the trace. *)
Definition appends {A} (m : Async A) : Prop :=
  ∀ w, ∃ es : list Event, trace (m w).2 = trace w ++ es.

(** A handler for administrators only: its first effect is the role check,
    and a caller who fails it gets what the check throws and nothing else
    happens. *)
Definition admin_only `{Collaborators} {A} (handler : Request → Async A) : Prop :=
  ∀ request w,
    (∃ es : list Event, trace (handler request w).2
           = trace w ++ EvRequireUserWithRole "admin" :: es) ∧
    (∀ t, resolve_role request "admin" (db w) = inl t →
          handler request w
          = (Threw t, after w (db w) [EvRequireUserWithRole "admin"])).

(** Some user row holds the e-mail [e] / the user name [n]. *)
Definition email_taken (st : Store) (e : string) : Prop :=
  ∃ u, u ∈ users st ∧ User.email u = e.

Definition username_taken (st : Store) (n : string) : Prop :=
  ∃ u, u ∈ users st ∧ User.username u = n.

(** Some row other than [id] holds it. *)
Definition email_taken_by_other (st : Store) (e id : string) : Prop :=
  ∃ u, u ∈ users st ∧ User.email u = e ∧ User.id u ≠ id.

Definition username_taken_by_other (st : Store) (n id : string) : Prop :=
  ∃ u, u ∈ users st ∧ User.username u = n ∧ User.id u ≠ id.

(** The [data] the creation actions pass to [prisma.user.create]. *)
Definition creation_data `{Collaborators} (d : NewUser.t) : UserData :=
  {| data_email := toLowerCase (NewUser.email d);
     data_username := toLowerCase (NewUser.username d);
     data_name := NewUser.name d;
     data_hash := Some (hash (NewUser.password d));
     data_set := None;
     data_connect := NewUser.roles d |}.

(** The [data] the edit action passes to [prisma.user.update]. *)
Definition edit_data `{Collaborators} (d : Edited.t) : UserData :=
  {| data_email := toLowerCase (Edited.email d);
     data_username := toLowerCase (Edited.username d);
     data_name := Edited.name d;
     data_hash := None;
     data_set := Some [];
     data_connect := Edited.roles d |}.

(** Every named role has a row. *)
Definition roles_exist (st : Store) (names : list string) : Prop :=
  ∀ n, n ∈ names → n ∈ Role.name <$> roles st.

(** Some row has the identifier [id]. *)
Definition user_exists (st : Store) (id : string) : Prop :=
  ∃ u, u ∈ users st ∧ User.id u = id.

(** The [roleName] field as submitted: [formData.get('roleName')?.toString()] *)
Definition submitted_roleName (fd : FormData) : option string :=
  entry_toString <$> get fd "roleName".

(** The form is a user-creation form: neither role intent is selected. *)
Definition user_intent (fd : FormData) : Prop :=
  get fd "intent" ≠ Some (FString "create-role") ∧
  get fd "intent" ≠ Some (FString "delete-role").

(** The events a run adds to the trace. *)
Definition issued {A} (m : Async A) (w : World) : list Event :=
  drop (length (trace w)) (trace (m w).2).

(** Stored e-mails and user names are in lower case. *)
Definition lowercase `{Collaborators} (s : string) : Prop := toLowerCase s = s.

Definition normalized `{Collaborators} (st : Store) : Prop :=
  ∀ u, u ∈ users st → lowercase (User.email u) ∧ lowercase (User.username u).

(** No two rows share an e-mail or a user name, even up to case. *)
Definition unique_up_to_case `{Collaborators} (st : Store) : Prop :=
  NoDup ((toLowerCase ∘ User.email) <$> users st) ∧
  NoDup ((toLowerCase ∘ User.username) <$> users st).

(** The identifier is a key. *)
Definition keyed (st : Store) : Prop := NoDup (User.id <$> users st).

Definition consistent `{Collaborators} (st : Store) : Prop :=
  keyed st ∧ normalized st ∧ unique_up_to_case st.

(** A computation keeps a property of the store. *)
Definition preserves {A} (P : Store → Prop) (m : Async A) : Prop :=
  ∀ w, P (db w) → P (db (m w).2).

(** ** Sample requests *)

(** The creation scenario of the specification (section 8). *)
Definition create_bob : Request :=
  post [("email", "A@B.com"); ("username", "Bob");
        ("password", "validpass123"); ("name", "Bob B"); ("roles", "user")].

Definition bob : NewUser.t :=
  {| NewUser.email := "A@B.com"; NewUser.username := "Bob";
     NewUser.password := "validpass123"; NewUser.name := "Bob B";
     NewUser.roles := ["user"] |}.

(** The same form with no [roles] entry at all. *)
Definition create_bob_no_roles : Request :=
  post [("email", "A@B.com"); ("username", "Bob");
        ("password", "validpass123"); ("name", "Bob B")].

(** A second creation that reuses the administrator's e-mail in another
    case. *)
Definition create_clash : Request :=
  post [("email", "Root@Example.com"); ("username", "other");
        ("password", "validpass123"); ("name", "Other")].

Definition clash : NewUser.t :=
  {| NewUser.email := "Root@Example.com"; NewUser.username := "other";
     NewUser.password := "validpass123"; NewUser.name := "Other";
     NewUser.roles := [] |}.

(** An edit of the administrator's own row, with no [roles] entry. *)
Definition edit_root_no_roles : Request :=
  post [("email", "Root@Example.com"); ("username", "ROOT"); ("name", "Root")].

Definition root_edit : Edited.t :=
  {| Edited.email := "Root@Example.com"; Edited.username := "ROOT";
     Edited.name := "Root"; Edited.roles := [] |}.

(** The role scenario of the specification (section 8). *)
Definition create_editor : Request :=
  post [("intent", "create-role"); ("roleName", "Editor")].

Definition delete_editor : Request :=
  post [("intent", "delete-role"); ("roleName", "editor")].

(** A delete for a name that no role row has. *)
Definition delete_ghost : Request :=
  post [("intent", "delete-role"); ("roleName", "ghost")].


(** The seed store with a third role. *)
Definition seed_with_editor : Store :=
  set_roles seed
    (roles seed ++ [{| Role.name := "editor"; Role.description := None |}]).

(** An edit that leaves the administrator with the single role [user]. *)
Definition edit_root_as_user : Request :=
  post [("email", "Root@Example.com"); ("username", "ROOT"); ("name", "Root");
        ("roles", "user")].

Definition root_as_user : Edited.t :=
  {| Edited.email := "Root@Example.com"; Edited.username := "ROOT";
     Edited.name := "Root"; Edited.roles := ["user"] |}.

(** ** Vocabulary of the further properties *)

(** A computation leaves the store as it is. *)
Definition read_only {A} (m : Async A) : Prop :=
  ∀ w, db (m w).2 = db w.

(** A store operation that throws leaves the store as it was. *)
Definition fails_cleanly {A} (op : Store → Outcome A * Store) : Prop :=
  ∀ st t st', op st = (Threw t, st') → st' = st.

(** The action reports a failure: an error object, or a throw. *)
Definition rejected (r : Outcome ActionData) : Prop :=
  match r with
  | Returned (Errors400 _) | Threw _ => True
  | Returned _ => False
  end.

(** A run that ends in a failure has written nothing. *)
Definition all_or_nothing (m : Async ActionData) : Prop :=
  ∀ w, rejected (m w).1 → db (m w).2 = db w.

(** Every role a user holds has a row. *)
Definition referential (st : Store) : Prop :=
  ∀ u n, u ∈ users st → n ∈ User.roles u → n ∈ Role.name <$> roles st.

(** The effects that concern user rows. *)
Definition on_users (e : Event) : bool :=
  match e with
  | EvUserFindMany | EvUserFindUnique _ | EvUserFindFirst _ _
  | EvUserCreate _ _ | EvUserUpdate _ | EvGetPasswordHash => true
  | _ => false
  end.

(** The message that the [name] rule gives for a form value that is no
    accepted name: the empty string, or no entry at all. *)
Definition name_message (v : option FormDataEntryValue) : list string :=
  match v with
  | Some (FString "") => ["Name is required"]
  | None => ["Expected string, received null"]
  | _ => []
  end.


(** The page of the multi-intent route (the component [AddNewUserRoute] of
    src/unnamed/part_000): [isAdmin] is whether the viewer holds the role
    [admin], and next to a role the page renders a delete form, with the
    hidden fields [intent] and [roleName], under the condition
    [isAdmin && role.name !== 'admin' && role.name !== 'user']. *)
Definition isAdmin (viewer_roles : list string) : bool :=
  existsb (λ name, bool_decide (name = "admin")) viewer_roles.

Definition offers_delete (viewer_roles : list string) (name : string) : bool :=
  isAdmin viewer_roles
  && negb (bool_decide (name = "admin"))
  && negb (bool_decide (name = "user")).

Definition delete_form (name : string) : FormData :=
  [("intent", FString "delete-role"); ("roleName", FString name)].

(** The delete forms of the page, for the roles the loader returned. *)
Definition delete_forms (viewer_roles availableRoles : list string)
  : list FormData :=
  delete_form <$> filter (λ name, offers_delete viewer_roles name) availableRoles.

(** ** Further sample requests *)

(** A creation that reuses the administrator's user name in another case,
    with an unused e-mail. *)
Definition create_taken_name : Request :=
  post [("email", "new@example.com"); ("username", "ROOT");
        ("password", "validpass123"); ("name", "New")].

Definition taken_name : NewUser.t :=
  {| NewUser.email := "new@example.com"; NewUser.username := "ROOT";
     NewUser.password := "validpass123"; NewUser.name := "New";
     NewUser.roles := [] |}.

(** A creation that names a role without a row. *)
Definition create_with_ghost_role : Request :=
  post [("email", "new@example.com"); ("username", "newbie");
        ("password", "validpass123"); ("name", "New"); ("roles", "ghost")].

Definition with_ghost_role : NewUser.t :=
  {| NewUser.email := "new@example.com"; NewUser.username := "newbie";
     NewUser.password := "validpass123"; NewUser.name := "New";
     NewUser.roles := ["ghost"] |}.

(** A creation with an empty display name. *)
Definition create_nameless : Request :=
  post [("email", "new@example.com"); ("username", "newbie");
        ("password", "validpass123"); ("name", "")].

(** An edit with fresh values, to be sent for an identifier without a row. *)
Definition edit_fresh : Request :=
  post [("email", "n@example.com"); ("username", "nobody"); ("name", "N");
        ("roles", "user")].

Definition fresh_edit : Edited.t :=
  {| Edited.email := "n@example.com"; Edited.username := "nobody";
     Edited.name := "N"; Edited.roles := ["user"] |}.



(** * Properties *)

Section monad_facts.
Context `{Collaborators}.

Lemma bind_returned {A B} (m : Async A) (k : A → Async B) w a w' :
  m w = (Returned a, w') → (m ≫= k) w = k a w'.
Proof. intros E. unfold mbind, Async_bind. now rewrite E. Qed.

Lemma bind_threw {A B} (m : Async A) (k : A → Async B) w t w' :
  m w = (Threw t, w') → (m ≫= k) w = (Threw t, w').
Proof. intros E. unfold mbind, Async_bind. now rewrite E. Qed.

Lemma run_ret {A} (a : A) w : (mret a : Async A) w = (Returned a, w).
Proof. reflexivity. Qed.

Lemma run_emit e w : emit e w = (Returned (), logged e w).
Proof. reflexivity. Qed.

Lemma run_query {A} e (q : Store → A) w :
  query e q w = (Returned (q (db w)), logged e w).
Proof. reflexivity. Qed.

Lemma run_mutation_returned {A} e (op : Store → Outcome A * Store) w a st :
  op (db w) = (Returned a, st) →
  mutation e op w = (Returned a, {| db := st; trace := trace w ++ [e] |}).
Proof.
  intros E. unfold mutation. erewrite bind_returned by apply run_emit.
  unfold write. cbn. now rewrite E.
Qed.

Lemma run_mutation_threw {A} e (op : Store → Outcome A * Store) w t st :
  op (db w) = (Threw t, st) →
  mutation e op w = (Threw t, {| db := st; trace := trace w ++ [e] |}).
Proof.
  intros E. unfold mutation. erewrite bind_returned by apply run_emit.
  unfold write. cbn. now rewrite E.
Qed.

Lemma run_formData request w :
  formData request w = (Returned (body request), logged EvFormData w).
Proof. reflexivity. Qed.

Lemma run_getPasswordHash p w :
  getPasswordHash p w = (Returned (hash p), logged EvGetPasswordHash w).
Proof. reflexivity. Qed.

Lemma require_returned request name w userId :
  resolve_role request name (db w) = inr userId →
  requireUserWithRole request name w
  = (Returned userId, logged (EvRequireUserWithRole name) w).
Proof.
  intros E. unfold requireUserWithRole.
  erewrite bind_returned by apply run_emit.
  unfold mbind, Async_bind, read. cbn. now rewrite E.
Qed.

Lemma require_threw request name w t :
  resolve_role request name (db w) = inl t →
  requireUserWithRole request name w
  = (Threw t, logged (EvRequireUserWithRole name) w).
Proof.
  intros E. unfold requireUserWithRole.
  erewrite bind_returned by apply run_emit.
  unfold mbind, Async_bind, read. cbn. now rewrite E.
Qed.

End monad_facts.

Create HintDb run discriminated.
#[export] Hint Resolve run_ret run_emit run_query run_formData
  run_getPasswordHash require_returned require_threw
  run_mutation_returned run_mutation_threw : run.

(** One [await]: the awaited computation is run and the rest resumes. *)
Ltac await :=
  first [ erewrite bind_returned; [| solve [eauto with run] ]
        | erewrite bind_threw; [| solve [eauto with run] ] ].

(** ** The role check comes first *)

Section appends_facts.
Context `{Collaborators}.

Lemma appends_ret {A} (a : A) : appends (mret a : Async A).
Proof. intros w. exists []. cbn. now rewrite app_nil_r. Qed.

Lemma appends_throw {A} t : appends (throw t : Async A).
Proof. intros w. exists []. cbn. now rewrite app_nil_r. Qed.

Lemma appends_emit e : appends (emit e).
Proof. intros w. now exists [e]. Qed.

Lemma appends_read {A} (q : Store → A) : appends (read q).
Proof. intros w. exists []. cbn. now rewrite app_nil_r. Qed.

Lemma appends_write {A} (op : Store → Outcome A * Store) : appends (write op).
Proof.
  intros w. exists []. unfold write. destruct (op (db w)). cbn.
  now rewrite app_nil_r.
Qed.

Lemma appends_bind {A B} (m : Async A) (k : A → Async B) :
  appends m → (∀ a, appends (k a)) → appends (m ≫= k).
Proof.
  intros Hm Hk w. unfold mbind, Async_bind.
  destruct (Hm w) as [es1 E1]. destruct (m w) as [[a|t] w1]; cbn in *.
  - destruct (Hk a w1) as [es2 E2]. exists (es1 ++ es2).
    now rewrite E2, E1, app_assoc.
  - now exists es1.
Qed.

Lemma appends_query {A} e (q : Store → A) : appends (query e q).
Proof.
  apply appends_bind; [apply appends_emit | intros; apply appends_read].
Qed.

Lemma appends_mutation {A} e (op : Store → Outcome A * Store) :
  appends (mutation e op).
Proof.
  apply appends_bind; [apply appends_emit | intros; apply appends_write].
Qed.

Lemma appends_formData request : appends (formData request).
Proof.
  apply appends_bind; [apply appends_emit | intros; apply appends_ret].
Qed.

Lemma appends_getPasswordHash p : appends (getPasswordHash p).
Proof.
  apply appends_bind; [apply appends_emit | intros; apply appends_ret].
Qed.

(** Whatever follows the role check, the handler is for administrators only. *)
Lemma admin_only_by_require {A} (k : Request → string → Async A) :
  (∀ request userId, appends (k request userId)) →
  admin_only (λ request, requireUserWithRole request "admin" ≫= k request).
Proof.
  intros Hk request w.
  destruct (resolve_role request "admin" (db w)) as [t|userId] eqn:E.
  - erewrite bind_threw by (apply require_threw; eassumption).
    split; [now exists [] | intros t' [= <-]; reflexivity].
  - erewrite bind_returned by (apply require_returned; eassumption).
    split; [| discriminate].
    destruct (Hk request userId (logged (EvRequireUserWithRole "admin") w))
      as [es E']. exists es. rewrite E'. cbn. now rewrite <- app_assoc.
Qed.

End appends_facts.

Create HintDb appends discriminated.
#[export] Hint Resolve appends_ret appends_throw appends_emit appends_read
  appends_write appends_query appends_mutation appends_formData
  appends_getPasswordHash : appends.

(** Walks through a handler body: binds, then the branch taken. *)
Ltac appends_body :=
  repeat first
    [ progress intros
    | solve [auto with appends]
    | apply appends_bind
    | match goal with
      | |- appends (match ?x with _ => _ end) => destruct x
      | |- appends (if ?b then _ else _) => destruct b
      | |- appends (let _ := _ in _) => cbv zeta
      end ].

Section role_check.
Context `{Collaborators}.

(** C8. Every handler (the listing loader, the loader and the action of each
    creation route, the loader and the action of the edit route) issues the
    admin role check as its first effect, before the form is parsed and
    before any store read or write; when the check fails the handler throws
    what the check threw, the store is untouched and the role check is the
    only effect. *)
Theorem role_check_comes_first :
  admin_only AllUsers.loader ∧
  admin_only AddNewUserRoute.loader ∧
  admin_only AddNewUserRoute.action ∧
  (∀ userId, admin_only (λ request, EditUser.loader request userId)) ∧
  (∀ userId, admin_only (λ request, EditUser.action request userId)) ∧
  admin_only AddNewUserPlain.loader ∧
  admin_only AddNewUserPlain.action.
Proof.
  repeat split; intros;
    (apply (admin_only_by_require (λ request _, _)) + apply admin_only_by_require);
    intros; cbv beta.
  all: unfold prisma.role.findMany_by_name, prisma.role.findUnique,
    prisma.role.create, prisma.role.delete, prisma.user.findMany_newest_first,
    prisma.user.findUnique, prisma.user.findFirst_not, prisma.user.create,
    prisma.user.update.
  all: appends_body.
Qed.

End role_check.

(** ** Look-ups *)

Section lookups.
Context `{Collaborators}.

Lemma find_is_Some {A} (p : A → bool) (l : list A) x :
  x ∈ l → p x = true → is_Some (List.find p l).
Proof.
  intros Hin Hp. destruct (List.find p l) eqn:E; [eauto |].
  apply list_elem_of_In in Hin.
  pose proof (find_none p l E x Hin) as Hn. congruence.
Qed.

Lemma find_Some_elem {A} (p : A → bool) (l : list A) x :
  List.find p l = Some x → x ∈ l ∧ p x = true.
Proof.
  intros E. apply find_some in E as [Hin Hp].
  split; [now apply list_elem_of_In | assumption].
Qed.

Lemma find_None_elem {A} (p : A → bool) (l : list A) :
  List.find p l = None → ∀ x, x ∈ l → p x = false.
Proof.
  intros E x Hin. apply (find_none p l E). now apply list_elem_of_In.
Qed.

Lemma findUnique_email_taken st e :
  email_taken st e ↔ is_Some (user_findUnique st (ByEmail e)).
Proof.
  split.
  - intros (u & Hin & He). eapply find_is_Some; [eassumption |].
    cbn. now apply bool_decide_eq_true.
  - intros [u E]. apply find_Some_elem in E as [Hin Hp].
    exists u. split; [assumption |]. cbn in Hp. now apply bool_decide_eq_true in Hp.
Qed.

Lemma findUnique_username_taken st n :
  username_taken st n ↔ is_Some (user_findUnique st (ByUsername n)).
Proof.
  split.
  - intros (u & Hin & He). eapply find_is_Some; [eassumption |].
    cbn. now apply bool_decide_eq_true.
  - intros [u E]. apply find_Some_elem in E as [Hin Hp].
    exists u. split; [assumption |]. cbn in Hp. now apply bool_decide_eq_true in Hp.
Qed.

Lemma findFirst_email_taken_by_other st e id :
  email_taken_by_other st e id
  ↔ is_Some (user_findFirst_not st (ByEmail e) id).
Proof.
  split.
  - intros (u & Hin & He & Hid). eapply find_is_Some; [eassumption |].
    cbn. apply andb_true_iff. split; [now apply bool_decide_eq_true |].
    apply negb_true_iff. now apply bool_decide_eq_false.
  - intros [u E]. apply find_Some_elem in E as [Hin Hp].
    cbn in Hp. apply andb_true_iff in Hp as [He Hid].
    apply bool_decide_eq_true in He. apply negb_true_iff in Hid.
    apply bool_decide_eq_false in Hid. now exists u.
Qed.

Lemma findFirst_username_taken_by_other st n id :
  username_taken_by_other st n id
  ↔ is_Some (user_findFirst_not st (ByUsername n) id).
Proof.
  split.
  - intros (u & Hin & He & Hid). eapply find_is_Some; [eassumption |].
    cbn. apply andb_true_iff. split; [now apply bool_decide_eq_true |].
    apply negb_true_iff. now apply bool_decide_eq_false.
  - intros [u E]. apply find_Some_elem in E as [Hin Hp].
    cbn in Hp. apply andb_true_iff in Hp as [He Hid].
    apply bool_decide_eq_true in He. apply negb_true_iff in Hid.
    apply bool_decide_eq_false in Hid. now exists u.
Qed.

Lemma not_is_Some_None {A} (o : option A) : ¬ is_Some o → o = None.
Proof. destruct o; [intros []; eauto | reflexivity]. Qed.

End lookups.

(** Brings the world of a run to the form [after w st es]. *)
Ltac tidy :=
  unfold logged, after; cbn [db trace]; rewrite <- ?app_assoc; cbn [app].

(** The two [intent] tests of the multi-intent action, for a user form. *)
Ltac skip_role_intents H :=
  destruct H as [? ?];
  repeat match goal with
         | |- context [decide (?x = ?y)] => destruct (decide (x = y)); [contradiction |]
         end.

Section conflicts.
Context `{Collaborators}.

Lemma create_email_conflict request w caller d :
  resolve_role request "admin" (db w) = inr caller →
  user_intent (body request) →
  AddNewUserSchema (rawData_create (body request)) = ObjectOk d →
  email_taken (db w) (toLowerCase (NewUser.email d)) →
  AddNewUserRoute.action request w
  = (Returned (Errors400
                 {[ "email" := ["A user with this email already exists"] ]}),
     after w (db w)
       [EvRequireUserWithRole "admin"; EvFormData;
        EvUserFindUnique (ByEmail (toLowerCase (NewUser.email d)))]).
Proof.
  intros Hauth Hintent Hparse Htaken.
  apply findUnique_email_taken in Htaken as [u Hu].
  unfold AddNewUserRoute.action. do 2 await. cbv zeta.
  skip_role_intents Hintent. rewrite Hparse.
  unfold prisma.user.findUnique. await. cbn [db logged]. rewrite Hu.
  rewrite run_ret. tidy. reflexivity.
Qed.

End conflicts.

(** ** Store operations *)

Section store_facts.
Context `{Collaborators}.

Lemma role_exists_true st n :
  role_exists st n = true ↔ n ∈ Role.name <$> roles st.
Proof. unfold role_exists. apply bool_decide_eq_true. Qed.

Lemma forallb_roles_exist st names :
  forallb (role_exists st) names = true ↔ roles_exist st names.
Proof.
  unfold roles_exist. rewrite forallb_forall. split; intros Hall n Hn.
  - apply role_exists_true, Hall. now apply list_elem_of_In.
  - apply role_exists_true, Hall. now apply list_elem_of_In.
Qed.

Lemma role_findUnique_exists st n :
  is_Some (role_findUnique st n) ↔ n ∈ Role.name <$> roles st.
Proof.
  unfold role_findUnique. split.
  - intros [r E]. apply find_Some_elem in E as [Hin Hp].
    apply bool_decide_eq_true in Hp. subst n.
    apply list_elem_of_fmap. now exists r.
  - intros Hin. apply list_elem_of_fmap in Hin as (r & -> & Hin).
    eapply find_is_Some; [eassumption |]. now apply bool_decide_eq_true.
Qed.

Lemma role_create_returned st n :
  role_findUnique st n = None →
  role_create st n
  = (Returned {| Role.name := n; Role.description := None |},
     set_roles st (roles st ++ [{| Role.name := n; Role.description := None |}])).
Proof.
  intros E. unfold role_create.
  destruct (role_exists st n) eqn:Ex; [| reflexivity].
  apply role_exists_true, role_findUnique_exists in Ex as [r Hr]. congruence.
Qed.

Lemma role_delete_returned st n r :
  role_findUnique st n = Some r →
  role_delete st n
  = (Returned r,
     {| users := disconnect_role n <$> users st;
        roles := filter (λ r, Role.name r ≠ n) (roles st) |}).
Proof. intros E. unfold role_delete. now rewrite E. Qed.

Lemma role_delete_threw st n :
  role_findUnique st n = None →
  role_delete st n = (Threw (PrismaError "P2025"), st).
Proof. intros E. unfold role_delete. now rewrite E. Qed.

Lemma user_create_returned st d :
  ¬ email_taken st (data_email d) →
  ¬ username_taken st (data_username d) →
  roles_exist st (named_roles d) →
  user_create st d
  = (Returned (created st d), set_users st (users st ++ [created st d])).
Proof.
  intros He Hn Hr. unfold user_create.
  rewrite bool_decide_eq_false_2.
  - apply forallb_roles_exist in Hr. now rewrite Hr.
  - intros [E | E].
    + now apply He, findUnique_email_taken.
    + now apply Hn, findUnique_username_taken.
Qed.

Lemma user_create_missing_role st d :
  ¬ email_taken st (data_email d) →
  ¬ username_taken st (data_username d) →
  ¬ roles_exist st (named_roles d) →
  user_create st d = (Threw (PrismaError "P2025"), st).
Proof.
  intros He Hn Hr. unfold user_create.
  rewrite bool_decide_eq_false_2.
  - destruct (forallb (role_exists st) (named_roles d)) eqn:E; [| reflexivity].
    now apply forallb_roles_exist in E.
  - intros [E | E].
    + now apply He, findUnique_email_taken.
    + now apply Hn, findUnique_username_taken.
Qed.

Lemma findUnique_id_exists st id :
  user_exists st id ↔ is_Some (user_findUnique st (ById id)).
Proof.
  split.
  - intros (u & Hin & He). eapply find_is_Some; [eassumption |].
    cbn. now apply bool_decide_eq_true.
  - intros [u E]. apply find_Some_elem in E as [Hin Hp].
    exists u. split; [assumption |]. cbn in Hp. now apply bool_decide_eq_true in Hp.
Qed.

Lemma user_update_returned st id d :
  user_exists st id →
  ¬ email_taken_by_other st (data_email d) id →
  ¬ username_taken_by_other st (data_username d) id →
  roles_exist st (named_roles d) →
  ∃ u, user_findUnique st (ById id) = Some u ∧
       user_update st id d
       = (Returned (updated d u), set_users st (update_rows id d (users st))).
Proof.
  intros Hx He Hn Hr. apply findUnique_id_exists in Hx as [u Hu].
  exists u. split; [assumption |]. unfold user_update. rewrite Hu.
  rewrite bool_decide_eq_false_2.
  - apply forallb_roles_exist in Hr. now rewrite Hr.
  - intros [E | E].
    + now apply He, findFirst_email_taken_by_other.
    + now apply Hn, findFirst_username_taken_by_other.
Qed.

Lemma user_update_threw st id d :
  ¬ email_taken_by_other st (data_email d) id →
  ¬ username_taken_by_other st (data_username d) id →
  ¬ (user_exists st id ∧ roles_exist st (named_roles d)) →
  user_update st id d = (Threw (PrismaError "P2025"), st).
Proof.
  intros He Hn Hx. unfold user_update.
  destruct (user_findUnique st (ById id)) as [u|] eqn:Hu; [| reflexivity].
  rewrite bool_decide_eq_false_2.
  - destruct (forallb (role_exists st) (named_roles d)) eqn:E; [| reflexivity].
    exfalso. apply Hx. split.
    + apply findUnique_id_exists. eauto.
    + now apply forallb_roles_exist.
  - intros [E | E].
    + now apply He, findFirst_email_taken_by_other.
    + now apply Hn, findFirst_username_taken_by_other.
Qed.

(** The relation rows written by [connect]. *)

Lemma elem_of_connect held name n :
  n ∈ connect held name ↔ n ∈ held ∨ n = name.
Proof.
  unfold connect. destruct (bool_decide (name ∈ held)) eqn:E.
  - apply bool_decide_eq_true in E. split; [now left |].
    intros [? | ->]; assumption.
  - rewrite elem_of_app, list_elem_of_singleton. reflexivity.
Qed.

Lemma elem_of_connect_all names held n :
  n ∈ connect_all held names ↔ n ∈ held ∨ n ∈ names.
Proof.
  unfold connect_all. revert held.
  induction names as [|name names IH]; intros held; cbn.
  - split; [now left | intros [? | Hn]; [assumption |]].
    now apply elem_of_nil in Hn.
  - rewrite IH, elem_of_connect, elem_of_cons. tauto.
Qed.

Lemma NoDup_connect held name : NoDup held → NoDup (connect held name).
Proof.
  intros Hnd. unfold connect. destruct (bool_decide (name ∈ held)) eqn:E;
    [assumption |].
  apply bool_decide_eq_false in E. apply NoDup_app.
  split; [assumption |]. split; [| apply NoDup_singleton].
  intros x Hx Hx'. apply list_elem_of_singleton in Hx'. now subst x.
Qed.

Lemma NoDup_connect_all names held :
  NoDup held → NoDup (connect_all held names).
Proof.
  unfold connect_all. revert held.
  induction names as [|name names IH]; intros held Hnd; cbn; [assumption |].
  now apply IH, NoDup_connect.
Qed.


(** With [set: []] the relation written does not depend on what the row
    held; without [set] the write adds to it. *)
Lemma related_set_nil held held' d :
  data_set d = Some [] → related held d = related held' d.
Proof. unfold related. now intros ->. Qed.

Lemma related_without_set held d :
  data_set d = None → related held d = connect_all held (data_connect d).
Proof. unfold related. now intros ->. Qed.

End store_facts.

(** ** The branches of the user actions *)

Section user_branches.
Context `{Collaborators}.

Implicit Types (request : Request) (w : World) (caller userId : string).

(** Runs a user action up to its first look-up. *)
Ltac enter Hparse := do 2 await; rewrite Hparse.

(** The same past the two role intents of the multi-intent action. *)
Ltac enter_user Hintent Hparse :=
  do 2 await; cbv zeta; skip_role_intents Hintent; rewrite Hparse.

(** A look-up that finds no row. *)
Ltac miss Hfree :=
  await; cbn [db logged]; rewrite (not_is_Some_None _ Hfree).

Lemma create_username_conflict request w caller d :
  resolve_role request "admin" (db w) = inr caller →
  user_intent (body request) →
  AddNewUserSchema (rawData_create (body request)) = ObjectOk d →
  ¬ email_taken (db w) (toLowerCase (NewUser.email d)) →
  username_taken (db w) (toLowerCase (NewUser.username d)) →
  AddNewUserRoute.action request w
  = (Returned (Errors400
                 {[ "username" := ["A user with this username already exists"] ]}),
     after w (db w)
       [EvRequireUserWithRole "admin"; EvFormData;
        EvUserFindUnique (ByEmail (toLowerCase (NewUser.email d)));
        EvUserFindUnique (ByUsername (toLowerCase (NewUser.username d)))]).
Proof.
  intros Hauth Hintent Hparse Hfree Htaken.
  rewrite findUnique_email_taken in Hfree.
  apply findUnique_username_taken in Htaken as [u Hu].
  unfold AddNewUserRoute.action, prisma.user.findUnique.
  enter_user Hintent Hparse. miss Hfree.
  await. cbn [db logged]. rewrite Hu.
  rewrite run_ret. tidy. reflexivity.
Qed.

Lemma create_completes request w caller d :
  resolve_role request "admin" (db w) = inr caller →
  user_intent (body request) →
  AddNewUserSchema (rawData_create (body request)) = ObjectOk d →
  ¬ email_taken (db w) (toLowerCase (NewUser.email d)) →
  ¬ username_taken (db w) (toLowerCase (NewUser.username d)) →
  roles_exist (db w) (NewUser.roles d) →
  AddNewUserRoute.action request w
  = (Returned Undefined,
     after w (set_users (db w)
                (users (db w) ++ [created (db w) (creation_data d)]))
       [EvRequireUserWithRole "admin"; EvFormData;
        EvUserFindUnique (ByEmail (toLowerCase (NewUser.email d)));
        EvUserFindUnique (ByUsername (toLowerCase (NewUser.username d)));
        EvGetPasswordHash;
        EvUserCreate (toLowerCase (NewUser.email d))
                     (toLowerCase (NewUser.username d))]).
Proof.
  intros Hauth Hintent Hparse He Hn Hr.
  pose proof (user_create_returned (db w) (creation_data d) He Hn Hr) as Hc.
  rewrite findUnique_email_taken in He.
  rewrite findUnique_username_taken in Hn.
  unfold AddNewUserRoute.action, prisma.user.findUnique, prisma.user.create.
  enter_user Hintent Hparse. miss He. miss Hn. await.
  erewrite bind_returned by (apply run_mutation_returned; exact Hc).
  cbv zeta. rewrite run_ret. tidy. reflexivity.
Qed.

Lemma create_missing_role request w caller d :
  resolve_role request "admin" (db w) = inr caller →
  user_intent (body request) →
  AddNewUserSchema (rawData_create (body request)) = ObjectOk d →
  ¬ email_taken (db w) (toLowerCase (NewUser.email d)) →
  ¬ username_taken (db w) (toLowerCase (NewUser.username d)) →
  ¬ roles_exist (db w) (NewUser.roles d) →
  AddNewUserRoute.action request w
  = (Threw (PrismaError "P2025"),
     after w (db w)
       [EvRequireUserWithRole "admin"; EvFormData;
        EvUserFindUnique (ByEmail (toLowerCase (NewUser.email d)));
        EvUserFindUnique (ByUsername (toLowerCase (NewUser.username d)));
        EvGetPasswordHash;
        EvUserCreate (toLowerCase (NewUser.email d))
                     (toLowerCase (NewUser.username d))]).
Proof.
  intros Hauth Hintent Hparse He Hn Hr.
  pose proof (user_create_missing_role (db w) (creation_data d) He Hn Hr) as Hc.
  rewrite findUnique_email_taken in He.
  rewrite findUnique_username_taken in Hn.
  unfold AddNewUserRoute.action, prisma.user.findUnique, prisma.user.create.
  enter_user Hintent Hparse. miss He. miss Hn. await.
  erewrite bind_threw by (apply run_mutation_threw; exact Hc).
  tidy. reflexivity.
Qed.

Lemma create_invalid request w caller errors :
  resolve_role request "admin" (db w) = inr caller →
  user_intent (body request) →
  AddNewUserSchema (rawData_create (body request)) = ObjectError errors →
  AddNewUserRoute.action request w
  = (Returned (Errors400 errors),
     after w (db w) [EvRequireUserWithRole "admin"; EvFormData]).
Proof.
  intros Hauth Hintent Hparse. unfold AddNewUserRoute.action.
  enter_user Hintent Hparse. rewrite run_ret. tidy. reflexivity.
Qed.

(** The same branches in the single-intent creation route. *)

Lemma plain_invalid request w caller errors :
  resolve_role request "admin" (db w) = inr caller →
  AddNewUserSchema (rawData_create (body request)) = ObjectError errors →
  AddNewUserPlain.action request w
  = (Returned (Errors400 errors),
     after w (db w) [EvRequireUserWithRole "admin"; EvFormData]).
Proof.
  intros Hauth Hparse. unfold AddNewUserPlain.action.
  enter Hparse. rewrite run_ret. tidy. reflexivity.
Qed.

Lemma plain_email_conflict request w caller d :
  resolve_role request "admin" (db w) = inr caller →
  AddNewUserSchema (rawData_create (body request)) = ObjectOk d →
  email_taken (db w) (toLowerCase (NewUser.email d)) →
  AddNewUserPlain.action request w
  = (Returned (Errors400
                 {[ "email" := ["A user with this email already exists"] ]}),
     after w (db w)
       [EvRequireUserWithRole "admin"; EvFormData;
        EvUserFindUnique (ByEmail (toLowerCase (NewUser.email d)))]).
Proof.
  intros Hauth Hparse Htaken.
  apply findUnique_email_taken in Htaken as [u Hu].
  unfold AddNewUserPlain.action, prisma.user.findUnique.
  enter Hparse. await. cbn [db logged]. rewrite Hu.
  rewrite run_ret. tidy. reflexivity.
Qed.

Lemma plain_username_conflict request w caller d :
  resolve_role request "admin" (db w) = inr caller →
  AddNewUserSchema (rawData_create (body request)) = ObjectOk d →
  ¬ email_taken (db w) (toLowerCase (NewUser.email d)) →
  username_taken (db w) (toLowerCase (NewUser.username d)) →
  AddNewUserPlain.action request w
  = (Returned (Errors400
                 {[ "username" := ["A user with this username already exists"] ]}),
     after w (db w)
       [EvRequireUserWithRole "admin"; EvFormData;
        EvUserFindUnique (ByEmail (toLowerCase (NewUser.email d)));
        EvUserFindUnique (ByUsername (toLowerCase (NewUser.username d)))]).
Proof.
  intros Hauth Hparse Hfree Htaken.
  rewrite findUnique_email_taken in Hfree.
  apply findUnique_username_taken in Htaken as [u Hu].
  unfold AddNewUserPlain.action, prisma.user.findUnique.
  enter Hparse. miss Hfree.
  await. cbn [db logged]. rewrite Hu.
  rewrite run_ret. tidy. reflexivity.
Qed.

Lemma plain_completes request w caller d :
  resolve_role request "admin" (db w) = inr caller →
  AddNewUserSchema (rawData_create (body request)) = ObjectOk d →
  ¬ email_taken (db w) (toLowerCase (NewUser.email d)) →
  ¬ username_taken (db w) (toLowerCase (NewUser.username d)) →
  roles_exist (db w) (NewUser.roles d) →
  AddNewUserPlain.action request w
  = (Returned (Responded (redirect "/admin/successful-user-created")),
     after w (set_users (db w)
                (users (db w) ++ [created (db w) (creation_data d)]))
       [EvRequireUserWithRole "admin"; EvFormData;
        EvUserFindUnique (ByEmail (toLowerCase (NewUser.email d)));
        EvUserFindUnique (ByUsername (toLowerCase (NewUser.username d)));
        EvGetPasswordHash;
        EvUserCreate (toLowerCase (NewUser.email d))
                     (toLowerCase (NewUser.username d))]).
Proof.
  intros Hauth Hparse He Hn Hr.
  pose proof (user_create_returned (db w) (creation_data d) He Hn Hr) as Hc.
  rewrite findUnique_email_taken in He.
  rewrite findUnique_username_taken in Hn.
  unfold AddNewUserPlain.action, prisma.user.findUnique, prisma.user.create.
  enter Hparse. miss He. miss Hn. await.
  erewrite bind_returned by (apply run_mutation_returned; exact Hc).
  rewrite run_ret. tidy. reflexivity.
Qed.

Lemma plain_missing_role request w caller d :
  resolve_role request "admin" (db w) = inr caller →
  AddNewUserSchema (rawData_create (body request)) = ObjectOk d →
  ¬ email_taken (db w) (toLowerCase (NewUser.email d)) →
  ¬ username_taken (db w) (toLowerCase (NewUser.username d)) →
  ¬ roles_exist (db w) (NewUser.roles d) →
  AddNewUserPlain.action request w
  = (Threw (PrismaError "P2025"),
     after w (db w)
       [EvRequireUserWithRole "admin"; EvFormData;
        EvUserFindUnique (ByEmail (toLowerCase (NewUser.email d)));
        EvUserFindUnique (ByUsername (toLowerCase (NewUser.username d)));
        EvGetPasswordHash;
        EvUserCreate (toLowerCase (NewUser.email d))
                     (toLowerCase (NewUser.username d))]).
Proof.
  intros Hauth Hparse He Hn Hr.
  pose proof (user_create_missing_role (db w) (creation_data d) He Hn Hr) as Hc.
  rewrite findUnique_email_taken in He.
  rewrite findUnique_username_taken in Hn.
  unfold AddNewUserPlain.action, prisma.user.findUnique, prisma.user.create.
  enter Hparse. miss He. miss Hn. await.
  erewrite bind_threw by (apply run_mutation_threw; exact Hc).
  tidy. reflexivity.
Qed.

(** The branches of the edit action. *)

Lemma edit_invalid request userId w caller errors :
  resolve_role request "admin" (db w) = inr caller →
  EditUserSchema (rawData_edit (body request)) = ObjectError errors →
  EditUser.action request userId w
  = (Returned (Errors400 errors),
     after w (db w) [EvRequireUserWithRole "admin"; EvFormData]).
Proof.
  intros Hauth Hparse. unfold EditUser.action.
  enter Hparse. rewrite run_ret. tidy. reflexivity.
Qed.

Lemma edit_email_conflict request userId w caller d :
  resolve_role request "admin" (db w) = inr caller →
  EditUserSchema (rawData_edit (body request)) = ObjectOk d →
  email_taken_by_other (db w) (toLowerCase (Edited.email d)) userId →
  EditUser.action request userId w
  = (Returned (Errors400 {[ "email" := ["This email is already taken"] ]}),
     after w (db w)
       [EvRequireUserWithRole "admin"; EvFormData;
        EvUserFindFirst (ByEmail (toLowerCase (Edited.email d))) userId]).
Proof.
  intros Hauth Hparse Htaken.
  apply findFirst_email_taken_by_other in Htaken as [u Hu].
  unfold EditUser.action, prisma.user.findFirst_not.
  enter Hparse. await. cbn [db logged]. rewrite Hu.
  rewrite run_ret. tidy. reflexivity.
Qed.

Lemma edit_username_conflict request userId w caller d :
  resolve_role request "admin" (db w) = inr caller →
  EditUserSchema (rawData_edit (body request)) = ObjectOk d →
  ¬ email_taken_by_other (db w) (toLowerCase (Edited.email d)) userId →
  username_taken_by_other (db w) (toLowerCase (Edited.username d)) userId →
  EditUser.action request userId w
  = (Returned (Errors400 {[ "username" := ["This username is already taken"] ]}),
     after w (db w)
       [EvRequireUserWithRole "admin"; EvFormData;
        EvUserFindFirst (ByEmail (toLowerCase (Edited.email d))) userId;
        EvUserFindFirst (ByUsername (toLowerCase (Edited.username d))) userId]).
Proof.
  intros Hauth Hparse Hfree Htaken.
  rewrite findFirst_email_taken_by_other in Hfree.
  apply findFirst_username_taken_by_other in Htaken as [u Hu].
  unfold EditUser.action, prisma.user.findFirst_not.
  enter Hparse. miss Hfree.
  await. cbn [db logged]. rewrite Hu.
  rewrite run_ret. tidy. reflexivity.
Qed.

Lemma edit_completes request userId w caller d :
  resolve_role request "admin" (db w) = inr caller →
  EditUserSchema (rawData_edit (body request)) = ObjectOk d →
  ¬ email_taken_by_other (db w) (toLowerCase (Edited.email d)) userId →
  ¬ username_taken_by_other (db w) (toLowerCase (Edited.username d)) userId →
  user_exists (db w) userId →
  roles_exist (db w) (Edited.roles d) →
  EditUser.action request userId w
  = (Returned (Responded (redirect "/admin/all-users")),
     after w (set_users (db w) (update_rows userId (edit_data d) (users (db w))))
       [EvRequireUserWithRole "admin"; EvFormData;
        EvUserFindFirst (ByEmail (toLowerCase (Edited.email d))) userId;
        EvUserFindFirst (ByUsername (toLowerCase (Edited.username d))) userId;
        EvUserUpdate userId]).
Proof.
  intros Hauth Hparse He Hn Hx Hr.
  destruct (user_update_returned (db w) userId (edit_data d) Hx He Hn Hr)
    as (u & _ & Hc).
  rewrite findFirst_email_taken_by_other in He.
  rewrite findFirst_username_taken_by_other in Hn.
  unfold EditUser.action, prisma.user.findFirst_not, prisma.user.update.
  enter Hparse. miss He. miss Hn.
  erewrite bind_returned by (apply run_mutation_returned; exact Hc).
  rewrite run_ret. tidy. reflexivity.
Qed.

Lemma edit_update_fails request userId w caller d :
  resolve_role request "admin" (db w) = inr caller →
  EditUserSchema (rawData_edit (body request)) = ObjectOk d →
  ¬ email_taken_by_other (db w) (toLowerCase (Edited.email d)) userId →
  ¬ username_taken_by_other (db w) (toLowerCase (Edited.username d)) userId →
  ¬ (user_exists (db w) userId ∧ roles_exist (db w) (Edited.roles d)) →
  EditUser.action request userId w
  = (Threw (PrismaError "P2025"),
     after w (db w)
       [EvRequireUserWithRole "admin"; EvFormData;
        EvUserFindFirst (ByEmail (toLowerCase (Edited.email d))) userId;
        EvUserFindFirst (ByUsername (toLowerCase (Edited.username d))) userId;
        EvUserUpdate userId]).
Proof.
  intros Hauth Hparse He Hn Hx.
  pose proof (user_update_threw (db w) userId (edit_data d) He Hn Hx) as Hc.
  rewrite findFirst_email_taken_by_other in He.
  rewrite findFirst_username_taken_by_other in Hn.
  unfold EditUser.action, prisma.user.findFirst_not, prisma.user.update.
  enter Hparse. miss He. miss Hn.
  erewrite bind_threw by (apply run_mutation_threw; exact Hc).
  tidy. reflexivity.
Qed.

End user_branches.

(** ** The branches of the role intents *)

Section role_branches.
Context `{Collaborators}.

Implicit Types (request : Request) (w : World) (caller n : string).

Lemma lowered_roleName fd :
  (toLowerCase ∘ entry_toString) <$> get fd "roleName"
  = toLowerCase <$> submitted_roleName fd.
Proof. unfold submitted_roleName. now destruct (get fd "roleName"). Qed.

(** Runs the multi-intent action into the [create-role] branch. *)
Ltac enter_create Hintent :=
  unfold AddNewUserRoute.action; do 2 await; cbv zeta;
  rewrite Hintent, decide_True by reflexivity;
  rewrite lowered_roleName.

(** Runs it into the [delete-role] branch. *)
Ltac enter_delete request Hintent :=
  unfold AddNewUserRoute.action; do 2 await; cbv zeta;
  rewrite Hintent, decide_False by discriminate;
  rewrite decide_True by reflexivity;
  fold (submitted_roleName (body request)).

Lemma create_role_required request w caller :
  resolve_role request "admin" (db w) = inr caller →
  get (body request) "intent" = Some (FString "create-role") →
  toLowerCase <$> submitted_roleName (body request) = None
  ∨ toLowerCase <$> submitted_roleName (body request) = Some "" →
  AddNewUserRoute.action request w
  = (Returned (Errors400 {[ "role" := ["Role name is required"] ]}),
     after w (db w) [EvRequireUserWithRole "admin"; EvFormData]).
Proof.
  intros Hauth Hintent Hname. enter_create Hintent.
  destruct Hname as [-> | ->]; rewrite run_ret; tidy; reflexivity.
Qed.

Lemma create_role_duplicate request w caller n :
  resolve_role request "admin" (db w) = inr caller →
  get (body request) "intent" = Some (FString "create-role") →
  toLowerCase <$> submitted_roleName (body request) = Some n →
  n ≠ "" →
  n ∈ Role.name <$> roles (db w) →
  AddNewUserRoute.action request w
  = (Returned (Errors400 {[ "role" := ["This role already exists"] ]}),
     after w (db w)
       [EvRequireUserWithRole "admin"; EvFormData; EvRoleFindUnique n]).
Proof.
  intros Hauth Hintent Hname Hne Hex. enter_create Hintent. rewrite Hname.
  apply role_findUnique_exists in Hex as [r Hr].
  destruct n as [|c n']; [contradiction |].
  unfold prisma.role.findUnique. await. cbn [db logged]. rewrite Hr.
  rewrite run_ret. tidy. reflexivity.
Qed.

Lemma create_role_inserts request w caller n :
  resolve_role request "admin" (db w) = inr caller →
  get (body request) "intent" = Some (FString "create-role") →
  toLowerCase <$> submitted_roleName (body request) = Some n →
  n ≠ "" →
  n ∉ Role.name <$> roles (db w) →
  AddNewUserRoute.action request w
  = (Returned (Success FormRole),
     after w (set_roles (db w)
                (roles (db w)
                 ++ [{| Role.name := n; Role.description := None |}]))
       [EvRequireUserWithRole "admin"; EvFormData; EvRoleFindUnique n;
        EvRoleCreate n]).
Proof.
  intros Hauth Hintent Hname Hne Hex. enter_create Hintent. rewrite Hname.
  rewrite <- role_findUnique_exists in Hex. apply not_is_Some_None in Hex.
  pose proof (role_create_returned _ _ Hex) as Hc.
  destruct n as [|c n']; [contradiction |].
  unfold prisma.role.findUnique, prisma.role.create.
  await. cbn [db logged]. rewrite Hex.
  erewrite bind_returned by (apply run_mutation_returned; exact Hc).
  rewrite run_ret. tidy. reflexivity.
Qed.

Lemma delete_role_required request w caller :
  resolve_role request "admin" (db w) = inr caller →
  get (body request) "intent" = Some (FString "delete-role") →
  submitted_roleName (body request) = None
  ∨ submitted_roleName (body request) = Some "" →
  AddNewUserRoute.action request w
  = (Returned (Errors400 {[ "role" := ["Role name is required"] ]}),
     after w (db w) [EvRequireUserWithRole "admin"; EvFormData]).
Proof.
  intros Hauth Hintent Hname. enter_delete request Hintent.
  destruct Hname as [-> | ->]; rewrite run_ret; tidy; reflexivity.
Qed.

Lemma delete_role_reserved request w caller n :
  resolve_role request "admin" (db w) = inr caller →
  get (body request) "intent" = Some (FString "delete-role") →
  submitted_roleName (body request) = Some n →
  n = "admin" ∨ n = "user" →
  AddNewUserRoute.action request w
  = (Returned (Errors400 {[ "role" := ["Cannot delete system roles"] ]}),
     after w (db w) [EvRequireUserWithRole "admin"; EvFormData]).
Proof.
  intros Hauth Hintent Hname Hres. enter_delete request Hintent. rewrite Hname.
  destruct Hres as [-> | ->]; cbv iota beta.
  - rewrite bool_decide_eq_true_2 by reflexivity. cbn [orb].
    rewrite run_ret. tidy. reflexivity.
  - rewrite (bool_decide_eq_false_2 ("user" = "admin")) by discriminate.
    rewrite bool_decide_eq_true_2 by reflexivity. cbn [orb].
    rewrite run_ret. tidy. reflexivity.
Qed.

(** Past the guard the action issues the delete, whatever the store holds. *)
Lemma delete_role_attempts request w caller n :
  resolve_role request "admin" (db w) = inr caller →
  get (body request) "intent" = Some (FString "delete-role") →
  submitted_roleName (body request) = Some n →
  n ≠ "" → n ≠ "admin" → n ≠ "user" →
  AddNewUserRoute.action request w
  = match role_findUnique (db w) n with
    | Some _ =>
        (Returned (Success FormDeleteRole),
         after w {| users := disconnect_role n <$> users (db w);
                    roles := filter (λ r, Role.name r ≠ n) (roles (db w)) |}
           [EvRequireUserWithRole "admin"; EvFormData; EvRoleDelete n])
    | None =>
        (Threw (PrismaError "P2025"),
         after w (db w)
           [EvRequireUserWithRole "admin"; EvFormData; EvRoleDelete n])
    end.
Proof.
  intros Hauth Hintent Hname Hne Ha Hu. enter_delete request Hintent. rewrite Hname.
  destruct n as [|c n']; [contradiction |]. cbv iota beta.
  rewrite !bool_decide_eq_false_2 by assumption. cbn [orb].
  unfold prisma.role.delete.
  destruct (role_findUnique (db w) (String c n')) as [r|] eqn:Hr.
  - erewrite bind_returned
      by (apply run_mutation_returned, role_delete_returned; exact Hr).
    rewrite run_ret. tidy. reflexivity.
  - erewrite bind_threw
      by (apply run_mutation_threw, role_delete_threw; exact Hr).
    tidy. reflexivity.
Qed.

End role_branches.

(** ** Schemas *)

Section schema_facts.
Context `{Collaborators}.

Lemma getAll_omitted (fd : FormData) name :
  name ∉ fd.*1 → getAll fd name = [].
Proof.
  induction fd as [|[k v] fd IH]; [reflexivity |].
  cbn. intros Hn. apply not_elem_of_cons in Hn as [Hk Hn].
  rewrite decide_False by congruence. auto.
Qed.

(** The default of [roles] does apply to an [undefined] input... *)
Lemma RolesSchema_undefined : RolesSchema JUndefined = ParseOk ["user"].
Proof. reflexivity. Qed.

(** ...and [getAll] never yields one: for an omitted field it yields the
    empty array, which the schema accepts as it is. *)
Lemma RolesSchema_omitted (fd : FormData) :
  "roles" ∉ fd.*1 → RolesSchema (of_getAll (getAll fd "roles")) = ParseOk [].
Proof. intros Hn. now rewrite getAll_omitted. Qed.

Lemma AddNewUserSchema_ok rawData d :
  AddNewUserSchema rawData = ObjectOk d →
  EmailSchema (Raw.email rawData) = ParseOk (NewUser.email d) ∧
  UsernameSchema (Raw.username rawData) = ParseOk (NewUser.username d) ∧
  PasswordSchema (Raw.password rawData) = ParseOk (NewUser.password d) ∧
  NameSchema (Raw.name rawData) = ParseOk (NewUser.name d) ∧
  RolesSchema (Raw.roles rawData) = ParseOk (NewUser.roles d).
Proof.
  unfold AddNewUserSchema.
  destruct (EmailSchema _), (UsernameSchema _), (PasswordSchema _),
    (NameSchema _), (RolesSchema _); intros [= <-]; cbn; auto.
Qed.

Lemma EditUserSchema_ok rawData d :
  EditUserSchema rawData = ObjectOk d →
  EmailSchema (Raw.email rawData) = ParseOk (Edited.email d) ∧
  UsernameSchema (Raw.username rawData) = ParseOk (Edited.username d) ∧
  NameSchema (Raw.name rawData) = ParseOk (Edited.name d) ∧
  RolesSchema (Raw.roles rawData) = ParseOk (Edited.roles d).
Proof.
  unfold EditUserSchema.
  destruct (EmailSchema _), (UsernameSchema _), (NameSchema _),
    (RolesSchema _); intros [= <-]; cbn; auto.
Qed.

Lemma create_roles_omitted (fd : FormData) d :
  "roles" ∉ fd.*1 →
  AddNewUserSchema (rawData_create fd) = ObjectOk d → NewUser.roles d = [].
Proof.
  intros Hn Hp. apply AddNewUserSchema_ok in Hp as (_ & _ & _ & _ & Hr).
  cbn [Raw.roles rawData_create rawData_edit] in Hr.
  rewrite RolesSchema_omitted in Hr by assumption. congruence.
Qed.

Lemma edit_roles_omitted (fd : FormData) d :
  "roles" ∉ fd.*1 →
  EditUserSchema (rawData_edit fd) = ObjectOk d → Edited.roles d = [].
Proof.
  intros Hn Hp. apply EditUserSchema_ok in Hp as (_ & _ & _ & Hr).
  cbn [Raw.roles rawData_create rawData_edit] in Hr.
  rewrite RolesSchema_omitted in Hr by assumption. congruence.
Qed.

End schema_facts.

Section decisions.
Context `{Collaborators}.

Lemma roles_exist_dec st names : Decision (roles_exist st names).
Proof.
  destruct (forallb (role_exists st) names) eqn:E.
  - left. now apply forallb_roles_exist.
  - right. intros Hr. apply forallb_roles_exist in Hr. congruence.
Qed.

Lemma roles_exist_nil st : roles_exist st [].
Proof. intros n Hn. now apply elem_of_nil in Hn. Qed.

Lemma issued_after {A} (m : Async A) w r st es :
  m w = (r, after w st es) → issued m w = es.
Proof.
  intros E. unfold issued. rewrite E. cbn. now rewrite drop_app_length.
Qed.

Lemma update_rows_elem id d us u' :
  u' ∈ update_rows id d us → User.id u' = id →
  ∃ u, u ∈ us ∧ User.id u = id ∧ u' = updated d u.
Proof.
  unfold update_rows. intros Hin Hid.
  apply list_elem_of_fmap in Hin as (u & -> & Hu).
  destruct (bool_decide (User.id u = id)) eqn:E.
  - apply bool_decide_eq_true in E. now exists u.
  - apply bool_decide_eq_false in E. contradiction.
Qed.

Lemma update_rows_exists id d us :
  (∃ u, u ∈ us ∧ User.id u = id) →
  ∃ u', u' ∈ update_rows id d us ∧ User.id u' = id.
Proof.
  intros (u & Hu & Hid). exists (updated d u). split; [| exact Hid].
  unfold update_rows. apply list_elem_of_fmap. exists u.
  split; [| assumption]. now rewrite bool_decide_eq_true_2.
Qed.

End decisions.

(** Closes the side conditions of a run on a concrete store. *)
Ltac concrete :=
  lazymatch goal with
  | |- user_intent _ => split; vm_compute; discriminate
  | |- ¬ email_taken _ _ =>
      rewrite findUnique_email_taken; vm_compute; intros [? [=]]
  | |- ¬ username_taken _ _ =>
      rewrite findUnique_username_taken; vm_compute; intros [? [=]]
  | |- ¬ email_taken_by_other _ _ _ =>
      rewrite findFirst_email_taken_by_other; vm_compute; intros [? [=]]
  | |- ¬ username_taken_by_other _ _ _ =>
      rewrite findFirst_username_taken_by_other; vm_compute; intros [? [=]]
  | |- email_taken _ _ =>
      apply findUnique_email_taken; vm_compute; eexists; reflexivity
  | |- email_taken_by_other _ _ _ =>
      apply findFirst_email_taken_by_other; vm_compute; eexists; reflexivity
  | |- user_exists _ _ =>
      apply findUnique_id_exists; vm_compute; eexists; reflexivity
  | |- roles_exist _ _ => apply forallb_roles_exist; vm_compute; reflexivity
  | |- _ ∉ _ =>
      let Hin := fresh in
      vm_compute; intros Hin;
      repeat (apply elem_of_cons in Hin as [[=] | Hin]);
      now apply elem_of_nil in Hin
  | |- _ => vm_compute; reflexivity
  end.

(** ** User creation *)

Section creation.
Context `{Collaborators}.

(** C1. In the multi-intent creation route, a user-creation request that
    passes the schema and both uniqueness look-ups never yields a response:
    when the named roles exist the user row is written and the action then
    ends without a [return], so its result is [undefined]; the redirect to
    the confirmation page is built and dropped.  On the same request the
    single-intent route writes the same row and returns the redirect. *)
Theorem creation_ends_without_redirect request w caller d :
  resolve_role request "admin" (db w) = inr caller →
  user_intent (body request) →
  AddNewUserSchema (rawData_create (body request)) = ObjectOk d →
  ¬ email_taken (db w) (toLowerCase (NewUser.email d)) →
  ¬ username_taken (db w) (toLowerCase (NewUser.username d)) →
  (∀ r, (AddNewUserRoute.action request w).1 ≠ Returned (Responded r)) ∧
  (roles_exist (db w) (NewUser.roles d) →
   (AddNewUserRoute.action request w).1 = Returned Undefined ∧
   (AddNewUserPlain.action request w).1
   = Returned (Responded (redirect "/admin/successful-user-created")) ∧
   db (AddNewUserRoute.action request w).2
   = db (AddNewUserPlain.action request w).2).
Proof.
  intros Hauth Hintent Hparse He Hn. split.
  - intros r. destruct (roles_exist_dec (db w) (NewUser.roles d)) as [Hr | Hr].
    + now rewrite (create_completes _ _ _ _ Hauth Hintent Hparse He Hn Hr).
    + now rewrite (create_missing_role _ _ _ _ Hauth Hintent Hparse He Hn Hr).
  - intros Hr.
    rewrite (create_completes _ _ _ _ Hauth Hintent Hparse He Hn Hr).
    rewrite (plain_completes _ _ _ _ Hauth Hparse He Hn Hr).
    repeat split.
Qed.

(** C2. When the form has no [roles] entry the default of the schema is not
    applied: [getAll] hands the schema an empty array, the validated record
    has [roles = []], the created user is connected to no role and the
    edited user is left with none. *)
Theorem omitted_roles_stay_empty request w caller :
  resolve_role request "admin" (db w) = inr caller →
  "roles" ∉ (body request).*1 →
  (∀ d, AddNewUserSchema (rawData_create (body request)) = ObjectOk d →
        NewUser.roles d = [] ∧
        (user_intent (body request) →
         ¬ email_taken (db w) (toLowerCase (NewUser.email d)) →
         ¬ username_taken (db w) (toLowerCase (NewUser.username d)) →
         ∃ u, users (db (AddNewUserRoute.action request w).2)
              = users (db w) ++ [u] ∧ User.roles u = [])) ∧
  (∀ userId d, EditUserSchema (rawData_edit (body request)) = ObjectOk d →
        Edited.roles d = [] ∧
        ((EditUser.action request userId w).1
         = Returned (Responded (redirect "/admin/all-users")) →
         ∀ u, u ∈ users (db (EditUser.action request userId w).2) →
              User.id u = userId → User.roles u = [])).
Proof.
  intros Hauth Homit. split.
  - intros d Hparse.
    pose proof (create_roles_omitted _ _ Homit Hparse) as Hroles.
    split; [assumption |]. intros Hintent He Hn.
    assert (Hr : roles_exist (db w) (NewUser.roles d))
      by (rewrite Hroles; apply roles_exist_nil).
    rewrite (create_completes _ _ _ _ Hauth Hintent Hparse He Hn Hr).
    eexists. split; [reflexivity |]. cbn. unfold related. cbn.
    now rewrite Hroles.
  - intros userId d Hparse.
    pose proof (edit_roles_omitted _ _ Homit Hparse) as Hroles.
    split; [assumption |].
    destruct (decide (is_Some (user_findFirst_not (db w)
                (ByEmail (toLowerCase (Edited.email d))) userId))) as [He | He];
      rewrite <- findFirst_email_taken_by_other in He.
    { now rewrite (edit_email_conflict _ _ _ _ _ Hauth Hparse He). }
    destruct (decide (is_Some (user_findFirst_not (db w)
                (ByUsername (toLowerCase (Edited.username d))) userId)))
      as [Hn | Hn];
      rewrite <- findFirst_username_taken_by_other in Hn.
    { now rewrite (edit_username_conflict _ _ _ _ _ Hauth Hparse He Hn). }
    destruct (decide (is_Some (user_findUnique (db w) (ById userId))))
      as [Hx | Hx]; rewrite <- findUnique_id_exists in Hx.
    + assert (Hr : roles_exist (db w) (Edited.roles d))
        by (rewrite Hroles; apply roles_exist_nil).
      rewrite (edit_completes _ _ _ _ _ Hauth Hparse He Hn Hx Hr).
      intros _ u Hu Hid. cbn in Hu.
      apply update_rows_elem in Hu as (u0 & _ & _ & ->); [| assumption].
      cbn. unfold related. cbn. now rewrite Hroles.
    + rewrite (edit_update_fails _ _ _ _ _ Hauth Hparse He Hn); [discriminate |].
      now intros [? _].
Qed.

End creation.

Lemma creation_of_bob_ends_undefined :
  AddNewUserSchema (rawData_create (body create_bob)) = ObjectOk bob ∧
  (AddNewUserRoute.action create_bob (start seed)).1 = Returned Undefined ∧
  (AddNewUserPlain.action create_bob (start seed)).1
  = Returned (Responded (redirect "/admin/successful-user-created")).
Proof.
  split; [reflexivity |].
  assert (Hr : roles_exist (db (start seed)) (NewUser.roles bob)) by concrete.
  destruct (creation_ends_without_redirect create_bob (start seed) "u0" bob)
    as [_ Hrun]; try concrete.
  destruct (Hrun Hr) as (Hu & Hp & _). now split.
Defined.

Lemma omitted_roles_leave_none :
  ("roles" ∉ (body create_bob_no_roles).*1) ∧
  (∃ u, users (db (AddNewUserRoute.action create_bob_no_roles (start seed)).2)
        = users seed ++ [u] ∧ User.roles u = []) ∧
  (∀ u, u ∈ users (db (EditUser.action edit_root_no_roles "u0" (start seed)).2) →
        User.id u = "u0" → User.roles u = []).
Proof.
  assert (Ho : "roles" ∉ (body create_bob_no_roles).*1) by concrete.
  split; [exact Ho |]. split.
  - destruct (omitted_roles_stay_empty create_bob_no_roles (start seed) "u0")
      as [Hc _]; [concrete | exact Ho |].
    destruct (Hc {| NewUser.email := "A@B.com"; NewUser.username := "Bob";
                    NewUser.password := "validpass123";
                    NewUser.name := "Bob B"; NewUser.roles := [] |})
      as [_ Hrun]; [reflexivity |].
    apply Hrun; concrete.
  - destruct (omitted_roles_stay_empty edit_root_no_roles (start seed) "u0")
      as [_ He]; [concrete | concrete |].
    destruct (He "u0" root_edit) as [_ Hrun]; [reflexivity |].
    apply Hrun. vm_compute. reflexivity.
Defined.

(** ** Uniqueness checks *)

Section uniqueness.
Context `{Collaborators}.

Lemma email_error_is_not_username_error (a b : list string) :
  Returned (Errors400 {[ "email" := a ]})
  ≠ Returned (Errors400 ({[ "username" := b ]} : gmap string (list string))).
Proof.
  intros E.
  assert (E' : ({[ "email" := a ]} : gmap string (list string)) !! "email"
               = ({[ "username" := b ]} : gmap string (list string)) !! "email")
    by congruence.
  rewrite lookup_singleton_eq in E'.
  rewrite lookup_singleton_ne in E'; discriminate.
Qed.

(** The three events of a run stopped by the e-mail look-up hold no user name
    look-up and no write. *)
Ltac no_such_event Hin :=
  repeat (apply elem_of_cons in Hin as [Hin | Hin]; [discriminate Hin |]);
  now apply elem_of_nil in Hin.

(** C3. When the lowercased e-mail of a validated creation or edit request
    is already held by a user (by another user, for an edit), the action
    returns the 400 result whose error map is the single [email] entry; the
    effects of the run are the role check, the form read and the e-mail
    look-up, so there is no user name look-up and no create or update, and
    the store is unchanged.  A user name look-up, or the user name error,
    appears only in runs whose e-mail look-up found nothing. *)
Theorem email_conflict_stops_the_action request w caller :
  resolve_role request "admin" (db w) = inr caller →
  (∀ d, user_intent (body request) →
        AddNewUserSchema (rawData_create (body request)) = ObjectOk d →
        email_taken (db w) (toLowerCase (NewUser.email d)) →
        AddNewUserRoute.action request w
        = (Returned (Errors400
                       {[ "email" := ["A user with this email already exists"] ]}),
           after w (db w)
             [EvRequireUserWithRole "admin"; EvFormData;
              EvUserFindUnique (ByEmail (toLowerCase (NewUser.email d)))])) ∧
  (∀ d, AddNewUserSchema (rawData_create (body request)) = ObjectOk d →
        email_taken (db w) (toLowerCase (NewUser.email d)) →
        AddNewUserPlain.action request w
        = (Returned (Errors400
                       {[ "email" := ["A user with this email already exists"] ]}),
           after w (db w)
             [EvRequireUserWithRole "admin"; EvFormData;
              EvUserFindUnique (ByEmail (toLowerCase (NewUser.email d)))])) ∧
  (∀ userId d,
        EditUserSchema (rawData_edit (body request)) = ObjectOk d →
        email_taken_by_other (db w) (toLowerCase (Edited.email d)) userId →
        EditUser.action request userId w
        = (Returned (Errors400 {[ "email" := ["This email is already taken"] ]}),
           after w (db w)
             [EvRequireUserWithRole "admin"; EvFormData;
              EvUserFindFirst (ByEmail (toLowerCase (Edited.email d))) userId])) ∧
  (∀ d n, user_intent (body request) →
        AddNewUserSchema (rawData_create (body request)) = ObjectOk d →
        EvUserFindUnique (ByUsername n)
          ∈ issued (AddNewUserRoute.action request) w
        ∨ (AddNewUserRoute.action request w).1
          = Returned (Errors400
                        {[ "username" :=
                             ["A user with this username already exists"] ]}) →
        ¬ email_taken (db w) (toLowerCase (NewUser.email d))) ∧
  (∀ d n, AddNewUserSchema (rawData_create (body request)) = ObjectOk d →
        EvUserFindUnique (ByUsername n)
          ∈ issued (AddNewUserPlain.action request) w
        ∨ (AddNewUserPlain.action request w).1
          = Returned (Errors400
                        {[ "username" :=
                             ["A user with this username already exists"] ]}) →
        ¬ email_taken (db w) (toLowerCase (NewUser.email d))) ∧
  (∀ userId d n,
        EditUserSchema (rawData_edit (body request)) = ObjectOk d →
        EvUserFindFirst (ByUsername n) userId
          ∈ issued (EditUser.action request userId) w
        ∨ (EditUser.action request userId w).1
          = Returned (Errors400
                        {[ "username" := ["This username is already taken"] ]}) →
        ¬ email_taken_by_other (db w) (toLowerCase (Edited.email d)) userId).
Proof.
  intros Hauth. repeat apply conj.
  - intros. eapply create_email_conflict; eassumption.
  - intros. eapply plain_email_conflict; eassumption.
  - intros. eapply edit_email_conflict; eassumption.
  - intros d n Hintent Hparse Hseen Htaken.
    pose proof (create_email_conflict _ _ _ _ Hauth Hintent Hparse Htaken) as E.
    destruct Hseen as [Hin | Hres].
    + rewrite (issued_after _ _ _ _ _ E) in Hin. no_such_event Hin.
    + rewrite E in Hres. now apply email_error_is_not_username_error in Hres.
  - intros d n Hparse Hseen Htaken.
    pose proof (plain_email_conflict _ _ _ _ Hauth Hparse Htaken) as E.
    destruct Hseen as [Hin | Hres].
    + rewrite (issued_after _ _ _ _ _ E) in Hin. no_such_event Hin.
    + rewrite E in Hres. now apply email_error_is_not_username_error in Hres.
  - intros userId d n Hparse Hseen Htaken.
    pose proof (edit_email_conflict _ _ _ _ _ Hauth Hparse Htaken) as E.
    destruct Hseen as [Hin | Hres].
    + rewrite (issued_after _ _ _ _ _ E) in Hin. no_such_event Hin.
    + rewrite E in Hres. now apply email_error_is_not_username_error in Hres.
Qed.

End uniqueness.

Lemma clash_with_root_is_stopped :
  email_taken seed (toLowerCase (NewUser.email clash)) ∧
  AddNewUserRoute.action create_clash (start seed)
  = (Returned (Errors400
                 {[ "email" := ["A user with this email already exists"] ]}),
     after (start seed) seed
       [EvRequireUserWithRole "admin"; EvFormData;
        EvUserFindUnique (ByEmail "root@example.com")]).
Proof.
  assert (Ht : email_taken seed (toLowerCase (NewUser.email clash)))
    by concrete.
  split; [exact Ht |].
  destruct (email_conflict_stops_the_action create_clash (start seed) "u0")
    as [Hc _]; [concrete |].
  apply (Hc clash); [concrete | concrete | exact Ht].
Defined.

(** ** Role intents *)

Section role_intents.
Context `{Collaborators}.

(** C4. A [create-role] request: the submitted name is lowercased first; a
    missing or empty name gives the 400 result "Role name is required"; a
    lowercased name that a role row already has gives the 400 result "This
    role already exists" and nothing is inserted; otherwise exactly one row
    with the lowercased name is appended and the result is the success with
    form type [role].  Hence a second creation whose name differs only by
    case is rejected as a duplicate. *)
Theorem create_role_intent request w caller :
  resolve_role request "admin" (db w) = inr caller →
  get (body request) "intent" = Some (FString "create-role") →
  (submitted_roleName (body request) = None
   ∨ submitted_roleName (body request) = Some "" →
   AddNewUserRoute.action request w
   = (Returned (Errors400 {[ "role" := ["Role name is required"] ]}),
      after w (db w) [EvRequireUserWithRole "admin"; EvFormData])) ∧
  (∀ s, submitted_roleName (body request) = Some s → s ≠ "" →
     toLowerCase s ∈ Role.name <$> roles (db w) →
     AddNewUserRoute.action request w
     = (Returned (Errors400 {[ "role" := ["This role already exists"] ]}),
        after w (db w)
          [EvRequireUserWithRole "admin"; EvFormData;
           EvRoleFindUnique (toLowerCase s)])) ∧
  (∀ s, submitted_roleName (body request) = Some s → s ≠ "" →
     toLowerCase s ∉ Role.name <$> roles (db w) →
     AddNewUserRoute.action request w
     = (Returned (Success FormRole),
        after w (set_roles (db w)
                   (roles (db w)
                    ++ [{| Role.name := toLowerCase s;
                           Role.description := None |}]))
          [EvRequireUserWithRole "admin"; EvFormData;
           EvRoleFindUnique (toLowerCase s); EvRoleCreate (toLowerCase s)]) ∧
     ∀ request' caller' s',
       resolve_role request' "admin"
         (db (AddNewUserRoute.action request w).2) = inr caller' →
       get (body request') "intent" = Some (FString "create-role") →
       submitted_roleName (body request') = Some s' →
       toLowerCase s' = toLowerCase s →
       (AddNewUserRoute.action request'
          (AddNewUserRoute.action request w).2).1
       = Returned (Errors400 {[ "role" := ["This role already exists"] ]}) ∧
       db (AddNewUserRoute.action request'
             (AddNewUserRoute.action request w).2).2
       = db (AddNewUserRoute.action request w).2).
Proof.
  intros Hauth Hintent. repeat apply conj.
  - intros Hname. eapply create_role_required; [eassumption .. |].
    destruct Hname as [-> | ->]; [now left | right]. cbn. f_equal.
    now apply toLowerCase_empty.
  - intros s Hs Hne Hex.
    eapply create_role_duplicate; try eassumption.
    + now rewrite Hs.
    + now rewrite toLowerCase_empty.
  - intros s Hs Hne Hex.
    assert (E : AddNewUserRoute.action request w
                = (Returned (Success FormRole),
                   after w (set_roles (db w)
                              (roles (db w)
                               ++ [{| Role.name := toLowerCase s;
                                      Role.description := None |}]))
                     [EvRequireUserWithRole "admin"; EvFormData;
                      EvRoleFindUnique (toLowerCase s);
                      EvRoleCreate (toLowerCase s)])).
    { eapply create_role_inserts; try eassumption.
      - now rewrite Hs.
      - now rewrite toLowerCase_empty. }
    split; [exact E |].
    intros request' caller' s' Hauth' Hintent' Hs' Hsame. rewrite E in *.
    erewrite create_role_duplicate with (n := toLowerCase s); try eassumption.
    + split; reflexivity.
    + rewrite Hs'. cbn. now rewrite Hsame.
    + now rewrite toLowerCase_empty.
    + cbn. rewrite fmap_app. apply elem_of_app. right. cbn. apply list_elem_of_here.
Qed.

(** C5, as amended. A [delete-role] request: the submitted name is used as it
    is; a missing or empty name gives the 400 result "Role name is required";
    the names [admin] and [user] give the 400 result "Cannot delete system
    roles" for every caller and no row is deleted; otherwise, when a role
    row with that exact name exists, that row is deleted and the result is
    the success with form type [delete-role]. *)
Theorem delete_role_intent request w caller :
  resolve_role request "admin" (db w) = inr caller →
  get (body request) "intent" = Some (FString "delete-role") →
  (submitted_roleName (body request) = None
   ∨ submitted_roleName (body request) = Some "" →
   AddNewUserRoute.action request w
   = (Returned (Errors400 {[ "role" := ["Role name is required"] ]}),
      after w (db w) [EvRequireUserWithRole "admin"; EvFormData])) ∧
  (∀ n, submitted_roleName (body request) = Some n →
     n = "admin" ∨ n = "user" →
     AddNewUserRoute.action request w
     = (Returned (Errors400 {[ "role" := ["Cannot delete system roles"] ]}),
        after w (db w) [EvRequireUserWithRole "admin"; EvFormData])) ∧
  (∀ n, submitted_roleName (body request) = Some n →
     n ≠ "" → n ≠ "admin" → n ≠ "user" →
     n ∈ Role.name <$> roles (db w) →
     AddNewUserRoute.action request w
     = (Returned (Success FormDeleteRole),
        after w {| users := disconnect_role n <$> users (db w);
                   roles := filter (λ r, Role.name r ≠ n) (roles (db w)) |}
          [EvRequireUserWithRole "admin"; EvFormData; EvRoleDelete n]) ∧
     (n ∉ Role.name <$> roles (db (AddNewUserRoute.action request w).2)) ∧
     ∀ r, r ∈ roles (db w) → Role.name r ≠ n →
          r ∈ roles (db (AddNewUserRoute.action request w).2)).
Proof.
  intros Hauth Hintent. repeat apply conj.
  - intros Hname. eapply delete_role_required; eassumption.
  - intros n Hn Hres. eapply delete_role_reserved; eassumption.
  - intros n Hn Hne Ha Hu Hex.
    pose proof (delete_role_attempts _ _ _ _ Hauth Hintent Hn Hne Ha Hu) as E.
    apply role_findUnique_exists in Hex as [r Hr]. rewrite Hr in E.
    rewrite E. cbn. repeat apply conj; [reflexivity | |].
    + intros Hin. apply list_elem_of_fmap in Hin as (r' & -> & Hin).
      apply list_elem_of_filter in Hin as [Hin _]. now apply Hin.
    + intros r' Hin Hname. now apply list_elem_of_filter.
Qed.


End role_intents.

Lemma editor_is_created_in_lowercase :
  submitted_roleName (body create_editor) = Some "Editor" ∧
  AddNewUserRoute.action create_editor (start seed)
  = (Returned (Success FormRole),
     after (start seed) seed_with_editor
       [EvRequireUserWithRole "admin"; EvFormData;
        EvRoleFindUnique "editor"; EvRoleCreate "editor"]).
Proof.
  split; [reflexivity |].
  destruct (create_role_intent create_editor (start seed) "u0")
    as (_ & _ & Hc); [concrete | reflexivity |].
  destruct (Hc "Editor") as [E _]; [reflexivity | discriminate | concrete |].
  exact E.
Defined.

(** The claim C5 as stated fails on a name that no role row has: the guard
    lets it through, the store's delete finds no row and throws, and the
    action has no result. *)
Lemma delete_of_missing_role_throws :
  get (body delete_ghost) "intent" = Some (FString "delete-role") ∧
  submitted_roleName (body delete_ghost) = Some "ghost" ∧
  AddNewUserRoute.action delete_ghost (start seed)
  = (Threw (PrismaError "P2025"),
     after (start seed) seed
       [EvRequireUserWithRole "admin"; EvFormData; EvRoleDelete "ghost"]) ∧
  (AddNewUserRoute.action delete_ghost (start seed)).1
  ≠ Returned (Success FormDeleteRole).
Proof. repeat split; try (vm_compute; reflexivity). vm_compute. discriminate. Qed.

Lemma editor_is_deleted :
  "editor" ∈ Role.name <$> roles seed_with_editor ∧
  AddNewUserRoute.action delete_editor (start seed_with_editor)
  = (Returned (Success FormDeleteRole),
     after (start seed_with_editor) seed
       [EvRequireUserWithRole "admin"; EvFormData; EvRoleDelete "editor"]).
Proof.
  assert (Hin : "editor" ∈ Role.name <$> roles seed_with_editor).
  { apply role_exists_true. vm_compute. reflexivity. }
  split; [exact Hin |].
  destruct (delete_role_intent delete_editor (start seed_with_editor) "u0")
    as (_ & _ & Hd); [concrete | reflexivity |].
  destruct (Hd "editor") as [E _];
    [reflexivity | discriminate | discriminate | discriminate | exact Hin |].
  rewrite E. vm_compute. reflexivity.
Defined.


(** ** The edit route *)

Section edit.
Context `{Collaborators}.

Lemma edit_loader_missing request userId w caller :
  resolve_role request "admin" (db w) = inr caller →
  ¬ user_exists (db w) userId →
  EditUser.loader request userId w
  = (Threw (ThrownResponse not_found),
     after w (db w)
       [EvRequireUserWithRole "admin"; EvRoleFindMany;
        EvUserFindUnique (ById userId)]).
Proof.
  intros Hauth Hx. rewrite findUnique_id_exists in Hx.
  unfold EditUser.loader, prisma.role.findMany_by_name, prisma.user.findUnique.
  do 2 await. await. cbn [db logged]. rewrite (not_is_Some_None _ Hx).
  unfold throw. tidy. reflexivity.
Qed.

Lemma edit_loader_found request userId w caller u :
  resolve_role request "admin" (db w) = inr caller →
  user_findUnique (db w) (ById userId) = Some u →
  EditUser.loader request userId w
  = (Returned {| EditUser.user := select_user u;
                 EditUser.availableRoles := role_findMany_by_name (db w) |},
     after w (db w)
       [EvRequireUserWithRole "admin"; EvRoleFindMany;
        EvUserFindUnique (ById userId)]).
Proof.
  intros Hauth Hu.
  unfold EditUser.loader, prisma.role.findMany_by_name, prisma.user.findUnique.
  do 2 await. await. cbn [db logged]. rewrite Hu.
  rewrite run_ret. tidy. reflexivity.
Qed.

(** C9. When the target identifier of an edit-page load matches no user
    row, the loader returns no data at all; for a caller who passed the role
    check it throws the response [Not Found] with status 404, after the role
    list and the user look-up and without any write. *)
Theorem edit_loader_not_found request userId w :
  ¬ user_exists (db w) userId →
  (∀ data, (EditUser.loader request userId w).1 ≠ Returned data) ∧
  (∀ caller, resolve_role request "admin" (db w) = inr caller →
     EditUser.loader request userId w
     = (Threw (ThrownResponse not_found),
        after w (db w)
          [EvRequireUserWithRole "admin"; EvRoleFindMany;
           EvUserFindUnique (ById userId)])) ∧
  status not_found = 404.
Proof.
  intros Hx. repeat apply conj; [| | reflexivity].
  - intros data.
    destruct (resolve_role request "admin" (db w)) as [t | caller] eqn:Hauth.
    + unfold EditUser.loader. erewrite bind_threw; [discriminate |].
      apply require_threw. exact Hauth.
    + now rewrite (edit_loader_missing _ _ _ _ Hauth Hx).
  - intros caller Hauth. now apply edit_loader_missing with caller.
Qed.

(** What a response of the edit action tells about its run. *)
Lemma edit_response_inv request userId w caller d r :
  resolve_role request "admin" (db w) = inr caller →
  EditUserSchema (rawData_edit (body request)) = ObjectOk d →
  (EditUser.action request userId w).1 = Returned (Responded r) →
  user_exists (db w) userId ∧ roles_exist (db w) (Edited.roles d) ∧
  ¬ email_taken_by_other (db w) (toLowerCase (Edited.email d)) userId ∧
  ¬ username_taken_by_other (db w) (toLowerCase (Edited.username d)) userId ∧
  r = redirect "/admin/all-users" ∧
  db (EditUser.action request userId w).2
  = set_users (db w) (update_rows userId (edit_data d) (users (db w))).
Proof.
  intros Hauth Hparse.
  destruct (decide (is_Some (user_findFirst_not (db w)
              (ByEmail (toLowerCase (Edited.email d))) userId))) as [He | He];
    rewrite <- findFirst_email_taken_by_other in He.
  { now rewrite (edit_email_conflict _ _ _ _ _ Hauth Hparse He). }
  destruct (decide (is_Some (user_findFirst_not (db w)
              (ByUsername (toLowerCase (Edited.username d))) userId)))
    as [Hn | Hn];
    rewrite <- findFirst_username_taken_by_other in Hn.
  { now rewrite (edit_username_conflict _ _ _ _ _ Hauth Hparse He Hn). }
  destruct (decide (is_Some (user_findUnique (db w) (ById userId))))
    as [Hx | Hx]; rewrite <- findUnique_id_exists in Hx.
  - destruct (roles_exist_dec (db w) (Edited.roles d)) as [Hr | Hr].
    + rewrite (edit_completes _ _ _ _ _ Hauth Hparse He Hn Hx Hr).
      intros E. cbn [fst snd db after]. repeat split; try assumption.
      cbn in E. congruence.
    + rewrite (edit_update_fails _ _ _ _ _ Hauth Hparse He Hn); [discriminate |].
      now intros [_ ?].
  - rewrite (edit_update_fails _ _ _ _ _ Hauth Hparse He Hn); [discriminate |].
    now intros [? _].
Qed.

(** C6. A validated edit without conflicts, for an existing target and
    existing roles, is written and answered with the redirect to the
    listing.  After every edit that is answered with a response, the rows
    of the target identifier hold exactly the submitted role names ([set:
    []] empties the relation and [connect] adds the names, once each, in the
    order submitted), whatever they held before: no role for [roles = []],
    the single role [admin] for [roles = ["admin"]]. *)
Theorem edit_replaces_the_roles request userId w caller d :
  resolve_role request "admin" (db w) = inr caller →
  EditUserSchema (rawData_edit (body request)) = ObjectOk d →
  (¬ email_taken_by_other (db w) (toLowerCase (Edited.email d)) userId →
   ¬ username_taken_by_other (db w) (toLowerCase (Edited.username d)) userId →
   user_exists (db w) userId →
   roles_exist (db w) (Edited.roles d) →
   (EditUser.action request userId w).1
   = Returned (Responded (redirect "/admin/all-users"))) ∧
  (∀ r, (EditUser.action request userId w).1 = Returned (Responded r) →
     (∃ u, u ∈ users (db (EditUser.action request userId w).2)
           ∧ User.id u = userId) ∧
     (∀ u, u ∈ users (db (EditUser.action request userId w).2) →
           User.id u = userId →
           User.roles u = connect_all [] (Edited.roles d) ∧
           NoDup (User.roles u) ∧
           (∀ n, n ∈ User.roles u ↔ n ∈ Edited.roles d) ∧
           (Edited.roles d = [] → User.roles u = []) ∧
           (Edited.roles d = ["admin"] → User.roles u = ["admin"])) ∧
     (∀ u held,
        u ∈ users (db w) → User.id u = userId →
        related held (edit_data d) = related (User.roles u) (edit_data d))).
Proof.
  intros Hauth Hparse. split.
  { intros He Hn Hx Hr.
    now rewrite (edit_completes _ _ _ _ _ Hauth Hparse He Hn Hx Hr). }
  intros r Hres.
  destruct (edit_response_inv _ _ _ _ _ _ Hauth Hparse Hres)
    as (Hx & _ & _ & _ & _ & ->).
  split; [| split].
  - cbn. now apply update_rows_exists.
  - intros u Hu Hid. cbn in Hu.
    apply update_rows_elem in Hu as (u0 & _ & _ & ->); [| assumption].
    assert (E : User.roles (updated (edit_data d) u0)
                = connect_all [] (Edited.roles d)) by reflexivity.
    rewrite E. split; [reflexivity |]. split; [| split; [| split]].
    + apply NoDup_connect_all, NoDup_nil_2.
    + intros n. rewrite elem_of_connect_all. split; [| now right].
      intros [Hn | Hn]; [now apply elem_of_nil in Hn | assumption].
    + now intros ->.
    + now intros ->.
  - intros u held _ _. now apply related_set_nil.
Qed.

End edit.

Lemma missing_user_is_not_found :
  ¬ user_exists seed "nobody" ∧
  EditUser.loader (post []) "nobody" (start seed)
  = (Threw (ThrownResponse not_found),
     after (start seed) seed
       [EvRequireUserWithRole "admin"; EvRoleFindMany;
        EvUserFindUnique (ById "nobody")]).
Proof.
  assert (Hx : ¬ user_exists seed "nobody").
  { rewrite findUnique_id_exists. vm_compute. intros [? [=]]. }
  split; [exact Hx |].
  destruct (edit_loader_not_found (post []) "nobody" (start seed) Hx)
    as (_ & Hl & _).
  apply (Hl "u0"). concrete.
Defined.

Lemma root_is_left_with_user_only :
  User.roles admin_row = ["admin"] ∧
  (EditUser.action edit_root_as_user "u0" (start seed)).1
  = Returned (Responded (redirect "/admin/all-users")) ∧
  ∀ u, u ∈ users (db (EditUser.action edit_root_as_user "u0" (start seed)).2) →
       User.id u = "u0" → User.roles u = ["user"].
Proof.
  split; [reflexivity |].
  destruct (@edit_replaces_the_roles reference edit_root_as_user "u0"
              (start seed) "u0" root_as_user
              ltac:(concrete) ltac:(concrete)) as [Hgo Hafter].
  assert (Hres : (EditUser.action edit_root_as_user "u0" (start seed)).1
                 = Returned (Responded (redirect "/admin/all-users")))
    by (apply Hgo; concrete).
  split; [exact Hres |]. intros u Hu Hid.
  destruct (Hafter _ Hres) as (_ & Hall & _).
  now destruct (Hall u Hu Hid) as [-> _].
Defined.

(** ** Case-insensitive uniqueness *)

Section lowercase_facts.
Context `{Collaborators}.

Lemma lowercase_toLowerCase s : lowercase (toLowerCase s).
Proof. apply toLowerCase_idempotent. Qed.

Lemma update_rows_absent id d us :
  id ∉ User.id <$> us → update_rows id d us = us.
Proof.
  induction us as [|v us IH]; cbn; [reflexivity |].
  intros Hn. apply not_elem_of_cons in Hn as [Hne Hn].
  rewrite bool_decide_eq_false_2 by congruence. f_equal. now apply IH.
Qed.

Lemma update_rows_ids id d us :
  User.id <$> update_rows id d us = User.id <$> us.
Proof.
  induction us as [|v us IH]; cbn; [reflexivity |].
  f_equal; [| exact IH]. now destruct (bool_decide (User.id v = id)).
Qed.

Lemma NoDup_update_rows (f : User.t → string) x id d us :
  (∀ v, f (updated d v) = x) →
  NoDup (User.id <$> us) →
  NoDup (f <$> us) →
  (∀ v, v ∈ us → User.id v ≠ id → f v ≠ x) →
  NoDup (f <$> update_rows id d us).
Proof.
  intros Hf. induction us as [|v us IH]; intros Hid Hnd Hother;
    [constructor |].
  cbn in Hid, Hnd. apply NoDup_cons in Hid as [Hv Hid].
  apply NoDup_cons in Hnd as [Hfv Hnd].
  cbn. fold (update_rows id d us).
  destruct (bool_decide (User.id v = id)) eqn:E.
  - apply bool_decide_eq_true in E. subst id.
    rewrite update_rows_absent by assumption.
    apply NoDup_cons. split; [| assumption]. rewrite Hf.
    intros Hin. apply list_elem_of_fmap in Hin as (v' & Hx & Hv').
    apply (Hother v').
    + now apply list_elem_of_further.
    + intros Heq. apply Hv. rewrite <- Heq. apply list_elem_of_fmap. eauto.
    + now symmetry.
  - apply bool_decide_eq_false in E. apply NoDup_cons. split.
    + intros Hin. apply list_elem_of_fmap in Hin as (v' & Hx & Hv').
      apply list_elem_of_fmap in Hv' as (v0 & -> & Hv0).
      destruct (bool_decide (User.id v0 = id)).
      * rewrite Hf in Hx. apply (Hother v); [apply list_elem_of_here | | ];
          assumption.
      * apply Hfv. rewrite Hx. apply list_elem_of_fmap. eauto.
    + apply IH; try assumption.
      intros v' Hv'. apply Hother. now apply list_elem_of_further.
Qed.

Lemma consistent_intro st :
  NoDup (User.id <$> users st) →
  (∀ u, u ∈ users st → lowercase (User.email u) ∧ lowercase (User.username u)) →
  NoDup ((toLowerCase ∘ User.email) <$> users st) →
  NoDup ((toLowerCase ∘ User.username) <$> users st) →
  consistent st.
Proof. intros. split; [| split; [| split]]; assumption. Qed.

Lemma consistent_same_users st st' :
  users st' = users st → consistent st → consistent st'.
Proof.
  unfold consistent, keyed, normalized, unique_up_to_case.
  now intros ->.
Qed.

Lemma consistent_role_create st n :
  consistent st → consistent (role_create st n).2.
Proof.
  unfold role_create. destruct (role_exists st n); [easy |].
  now apply consistent_same_users.
Qed.

Lemma consistent_role_delete st n :
  consistent st → consistent (role_delete st n).2.
Proof.
  unfold role_delete. destruct (role_findUnique st n); [| easy].
  intros (Hk & Hnorm & He & Hn). cbn [snd].
  apply consistent_intro; cbn [users]; rewrite <- ?list_fmap_compose;
    try assumption.
  intros u Hu. apply list_elem_of_fmap in Hu as (u0 & -> & Hu0).
  apply (Hnorm u0 Hu0).
Qed.

Lemma consistent_user_create st d :
  lowercase (data_email d) → lowercase (data_username d) →
  consistent st → consistent (user_create st d).2.
Proof.
  intros Le Ln (Hk & Hnorm & Hue & Hun). unfold user_create.
  destruct (bool_decide _) eqn:Hdup; [easy |].
  destruct (negb _); [easy |]. cbn [snd].
  apply bool_decide_eq_false in Hdup.
  assert (He : ¬ email_taken st (data_email d))
    by (rewrite findUnique_email_taken; tauto).
  assert (Hn : ¬ username_taken st (data_username d))
    by (rewrite findUnique_username_taken; tauto).
  apply consistent_intro; cbn [users set_users]; rewrite ?fmap_app.
  - apply NoDup_app. split; [assumption |]. split; [| apply NoDup_singleton].
    intros x Hx Hx'. apply list_elem_of_singleton in Hx'. subst x.
    now apply infinite_is_fresh in Hx.
  - intros u Hu.
    apply elem_of_app in Hu as [Hu | Hu%list_elem_of_singleton];
      [now apply Hnorm | now subst].
  - apply NoDup_app. split; [assumption |]. split; [| apply NoDup_singleton].
    intros x Hx Hx'. apply list_elem_of_singleton in Hx'. subst x.
    apply list_elem_of_fmap in Hx as (u & Hx & Hu). apply He.
    exists u. split; [assumption |]. cbn in Hx.
    destruct (Hnorm u Hu) as [<- _]. now rewrite <- Hx.
  - apply NoDup_app. split; [assumption |]. split; [| apply NoDup_singleton].
    intros x Hx Hx'. apply list_elem_of_singleton in Hx'. subst x.
    apply list_elem_of_fmap in Hx as (u & Hx & Hu). apply Hn.
    exists u. split; [assumption |]. cbn in Hx.
    destruct (Hnorm u Hu) as [_ <-]. now rewrite <- Hx.
Qed.

Lemma consistent_user_update st id d :
  lowercase (data_email d) → lowercase (data_username d) →
  consistent st → consistent (user_update st id d).2.
Proof.
  intros Le Ln (Hk & Hnorm & Hue & Hun). unfold user_update.
  destruct (user_findUnique st (ById id)); [| easy].
  destruct (bool_decide _) eqn:Hdup; [easy |].
  destruct (negb _); [easy |]. cbn [snd].
  apply bool_decide_eq_false in Hdup.
  assert (He : ¬ email_taken_by_other st (data_email d) id)
    by (rewrite findFirst_email_taken_by_other; tauto).
  assert (Hn : ¬ username_taken_by_other st (data_username d) id)
    by (rewrite findFirst_username_taken_by_other; tauto).
  apply consistent_intro; cbn [users set_users].
  - now rewrite update_rows_ids.
  - intros u Hu. apply list_elem_of_fmap in Hu as (u0 & -> & Hu0).
    destruct (bool_decide _); [split; assumption | now apply Hnorm].
  - apply NoDup_update_rows with (x := data_email d); try assumption.
    + intros v. exact Le.
    + intros v Hv Hid Heq. apply He. exists v.
      split; [assumption |]. split; [| assumption].
      destruct (Hnorm v Hv) as [<- _]. exact Heq.
  - apply NoDup_update_rows with (x := data_username d); try assumption.
    + intros v. exact Ln.
    + intros v Hv Hid Heq. apply Hn. exists v.
      split; [assumption |]. split; [| assumption].
      destruct (Hnorm v Hv) as [_ <-]. exact Heq.
Qed.

End lowercase_facts.

Section preserves_facts.
Context `{Collaborators}.

Lemma preserves_ret {A} P (a : A) : preserves P (mret a : Async A).
Proof. now intros w. Qed.

Lemma preserves_throw {A} P t : preserves P (throw t : Async A).
Proof. now intros w. Qed.

Lemma preserves_emit P e : preserves P (emit e).
Proof. now intros w. Qed.

Lemma preserves_read {A} P (q : Store → A) : preserves P (read q).
Proof. now intros w. Qed.

Lemma preserves_write {A} (P : Store → Prop) (op : Store → Outcome A * Store) :
  (∀ st, P st → P (op st).2) → preserves P (write op).
Proof.
  intros Hop w Hw. unfold write. specialize (Hop (db w) Hw).
  now destruct (op (db w)).
Qed.

Lemma preserves_bind {A B} P (m : Async A) (k : A → Async B) :
  preserves P m → (∀ a, preserves P (k a)) → preserves P (m ≫= k).
Proof.
  intros Hm Hk w Hw. unfold mbind, Async_bind. specialize (Hm w Hw).
  destruct (m w) as [[a | t] w1]; cbn in *; [now apply Hk | assumption].
Qed.

Lemma preserves_query {A} P e (q : Store → A) : preserves P (query e q).
Proof.
  apply preserves_bind; [apply preserves_emit | intros; apply preserves_read].
Qed.

Lemma preserves_mutation {A} (P : Store → Prop) e
    (op : Store → Outcome A * Store) :
  (∀ st, P st → P (op st).2) → preserves P (mutation e op).
Proof.
  intros Hop. apply preserves_bind;
    [apply preserves_emit | intros; now apply preserves_write].
Qed.

Lemma preserves_formData P request : preserves P (formData request).
Proof.
  apply preserves_bind; [apply preserves_emit | intros; apply preserves_ret].
Qed.

Lemma preserves_getPasswordHash P p : preserves P (getPasswordHash p).
Proof.
  apply preserves_bind; [apply preserves_emit | intros; apply preserves_ret].
Qed.

Lemma preserves_requireUserWithRole P request name :
  preserves P (requireUserWithRole request name).
Proof.
  apply preserves_bind; [apply preserves_emit | intros _].
  apply preserves_bind; [apply preserves_read | intros [t | userId]].
  - apply preserves_throw.
  - apply preserves_ret.
Qed.

Lemma preserves_role_create n : preserves consistent (prisma.role.create n).
Proof. apply preserves_mutation. intros st. apply consistent_role_create. Qed.

Lemma preserves_role_delete n : preserves consistent (prisma.role.delete n).
Proof. apply preserves_mutation. intros st. apply consistent_role_delete. Qed.

(** The writes of the user actions carry lowercased e-mail and user name. *)
Lemma preserves_user_create e n name digest set names :
  preserves consistent
    (prisma.user.create
       {| data_email := toLowerCase e; data_username := toLowerCase n;
          data_name := name; data_hash := digest; data_set := set;
          data_connect := names |}).
Proof.
  apply preserves_mutation. intros st.
  apply consistent_user_create; apply lowercase_toLowerCase.
Qed.

Lemma preserves_user_update id e n name digest set names :
  preserves consistent
    (prisma.user.update id
       {| data_email := toLowerCase e; data_username := toLowerCase n;
          data_name := name; data_hash := digest; data_set := set;
          data_connect := names |}).
Proof.
  apply preserves_mutation. intros st.
  apply consistent_user_update; apply lowercase_toLowerCase.
Qed.

End preserves_facts.

Create HintDb preserves discriminated.
#[export] Hint Resolve preserves_ret preserves_throw preserves_emit
  preserves_read preserves_query preserves_formData preserves_getPasswordHash
  preserves_requireUserWithRole preserves_role_create preserves_role_delete
  preserves_user_create preserves_user_update : preserves.

(** Walks through a handler body, as [appends_body] does. *)
Ltac preserves_body :=
  repeat first
    [ progress intros
    | solve [auto with preserves]
    | apply preserves_bind
    | match goal with
      | |- preserves _ (match ?x with _ => _ end) => destruct x
      | |- preserves _ (if ?b then _ else _) => destruct b
      | |- preserves _ (let _ := _ in _) => cbv zeta
      end ].

Section case_insensitive.
Context `{Collaborators}.

Lemma actions_keep_consistency request :
  preserves consistent (AddNewUserRoute.action request) ∧
  preserves consistent (AddNewUserPlain.action request) ∧
  ∀ userId, preserves consistent (EditUser.action request userId).
Proof.
  split; [| split; [| intros userId]].
  - unfold AddNewUserRoute.action, prisma.role.findUnique,
      prisma.user.findUnique. preserves_body.
  - unfold AddNewUserPlain.action, prisma.user.findUnique. preserves_body.
  - unfold EditUser.action, prisma.user.findFirst_not. preserves_body.
Qed.

(** What the end of a creation tells about its run. *)
Lemma create_undefined_inv request w caller d :
  resolve_role request "admin" (db w) = inr caller →
  user_intent (body request) →
  AddNewUserSchema (rawData_create (body request)) = ObjectOk d →
  (AddNewUserRoute.action request w).1 = Returned Undefined →
  db (AddNewUserRoute.action request w).2
  = set_users (db w) (users (db w) ++ [created (db w) (creation_data d)]).
Proof.
  intros Hauth Hintent Hparse.
  destruct (decide (is_Some (user_findUnique (db w)
              (ByEmail (toLowerCase (NewUser.email d)))))) as [He | He];
    rewrite <- findUnique_email_taken in He.
  { now rewrite (create_email_conflict _ _ _ _ Hauth Hintent Hparse He). }
  destruct (decide (is_Some (user_findUnique (db w)
              (ByUsername (toLowerCase (NewUser.username d)))))) as [Hn | Hn];
    rewrite <- findUnique_username_taken in Hn.
  { now rewrite (create_username_conflict _ _ _ _ Hauth Hintent Hparse He Hn). }
  destruct (roles_exist_dec (db w) (NewUser.roles d)) as [Hr | Hr].
  - now rewrite (create_completes _ _ _ _ Hauth Hintent Hparse He Hn Hr).
  - now rewrite (create_missing_role _ _ _ _ Hauth Hintent Hparse He Hn Hr).
Qed.

Lemma plain_response_inv request w caller d r :
  resolve_role request "admin" (db w) = inr caller →
  AddNewUserSchema (rawData_create (body request)) = ObjectOk d →
  (AddNewUserPlain.action request w).1 = Returned (Responded r) →
  db (AddNewUserPlain.action request w).2
  = set_users (db w) (users (db w) ++ [created (db w) (creation_data d)]).
Proof.
  intros Hauth Hparse.
  destruct (decide (is_Some (user_findUnique (db w)
              (ByEmail (toLowerCase (NewUser.email d)))))) as [He | He];
    rewrite <- findUnique_email_taken in He.
  { now rewrite (plain_email_conflict _ _ _ _ Hauth Hparse He). }
  destruct (decide (is_Some (user_findUnique (db w)
              (ByUsername (toLowerCase (NewUser.username d)))))) as [Hn | Hn];
    rewrite <- findUnique_username_taken in Hn.
  { now rewrite (plain_username_conflict _ _ _ _ Hauth Hparse He Hn). }
  destruct (roles_exist_dec (db w) (NewUser.roles d)) as [Hr | Hr].
  - now rewrite (plain_completes _ _ _ _ Hauth Hparse He Hn Hr).
  - now rewrite (plain_missing_role _ _ _ _ Hauth Hparse He Hn Hr).
Qed.

(** In a normalized store, a row whose e-mail equals [e] up to case holds
    the lowercase of [e]. *)
Lemma held_up_to_case st u e :
  normalized st → u ∈ users st →
  toLowerCase (User.email u) = toLowerCase e →
  User.email u = toLowerCase e.
Proof. intros Hnorm Hu <-. symmetry. apply (Hnorm u Hu). Qed.

End case_insensitive.

Section stored_in_lowercase.
Context `{Collaborators}.

(** C7. In a store whose e-mails and user names are lowercase and pairwise
    distinct: a validated creation with an unused e-mail and user name and
    existing roles is written, and the row it appends holds the lowercase
    foldings of the validated e-mail and user name; a validated edit without
    conflicts, for an existing target and existing roles, is written and
    leaves the target rows with the lowercase foldings; conversely every
    creation or edit that reports success has written just that.  A
    creation whose e-mail equals a stored e-mail up to case (an edit whose
    e-mail equals that of another user up to case) is rejected with the
    e-mail conflict error and writes nothing.  After every run of the three
    actions the store is again lowercase and free of duplicates up to
    case. *)
Theorem stored_lowercase_and_unique request w caller :
  resolve_role request "admin" (db w) = inr caller →
  consistent (db w) →
  (∀ d, AddNewUserSchema (rawData_create (body request)) = ObjectOk d →
     ¬ email_taken (db w) (toLowerCase (NewUser.email d)) →
     ¬ username_taken (db w) (toLowerCase (NewUser.username d)) →
     roles_exist (db w) (NewUser.roles d) →
     (user_intent (body request) →
      (AddNewUserRoute.action request w).1 = Returned Undefined ∧
      ∃ u, users (db (AddNewUserRoute.action request w).2)
           = users (db w) ++ [u]
           ∧ User.email u = toLowerCase (NewUser.email d)
           ∧ User.username u = toLowerCase (NewUser.username d)) ∧
     (AddNewUserPlain.action request w).1
     = Returned (Responded (redirect "/admin/successful-user-created")) ∧
     ∃ u, users (db (AddNewUserPlain.action request w).2) = users (db w) ++ [u]
          ∧ User.email u = toLowerCase (NewUser.email d)
          ∧ User.username u = toLowerCase (NewUser.username d)) ∧
  (∀ userId d,
     EditUserSchema (rawData_edit (body request)) = ObjectOk d →
     ¬ email_taken_by_other (db w) (toLowerCase (Edited.email d)) userId →
     ¬ username_taken_by_other (db w) (toLowerCase (Edited.username d)) userId →
     user_exists (db w) userId →
     roles_exist (db w) (Edited.roles d) →
     (EditUser.action request userId w).1
     = Returned (Responded (redirect "/admin/all-users")) ∧
     (∃ u, u ∈ users (db (EditUser.action request userId w).2)
           ∧ User.id u = userId) ∧
     ∀ u, u ∈ users (db (EditUser.action request userId w).2) →
          User.id u = userId →
          User.email u = toLowerCase (Edited.email d)
          ∧ User.username u = toLowerCase (Edited.username d)) ∧
  (∀ d, user_intent (body request) →
     AddNewUserSchema (rawData_create (body request)) = ObjectOk d →
     (AddNewUserRoute.action request w).1 = Returned Undefined →
     ∃ u, users (db (AddNewUserRoute.action request w).2) = users (db w) ++ [u]
          ∧ User.email u = toLowerCase (NewUser.email d)
          ∧ User.username u = toLowerCase (NewUser.username d)) ∧
  (∀ d r,
     AddNewUserSchema (rawData_create (body request)) = ObjectOk d →
     (AddNewUserPlain.action request w).1 = Returned (Responded r) →
     ∃ u, users (db (AddNewUserPlain.action request w).2) = users (db w) ++ [u]
          ∧ User.email u = toLowerCase (NewUser.email d)
          ∧ User.username u = toLowerCase (NewUser.username d)) ∧
  (∀ userId d r,
     EditUserSchema (rawData_edit (body request)) = ObjectOk d →
     (EditUser.action request userId w).1 = Returned (Responded r) →
     (∃ u, u ∈ users (db (EditUser.action request userId w).2)
           ∧ User.id u = userId) ∧
     ∀ u, u ∈ users (db (EditUser.action request userId w).2) →
          User.id u = userId →
          User.email u = toLowerCase (Edited.email d)
          ∧ User.username u = toLowerCase (Edited.username d)) ∧
  (∀ d u,
     AddNewUserSchema (rawData_create (body request)) = ObjectOk d →
     u ∈ users (db w) →
     toLowerCase (User.email u) = toLowerCase (NewUser.email d) →
     (user_intent (body request) →
      AddNewUserRoute.action request w
      = (Returned (Errors400
                     {[ "email" := ["A user with this email already exists"] ]}),
         after w (db w)
           [EvRequireUserWithRole "admin"; EvFormData;
            EvUserFindUnique (ByEmail (toLowerCase (NewUser.email d)))])) ∧
     AddNewUserPlain.action request w
     = (Returned (Errors400
                    {[ "email" := ["A user with this email already exists"] ]}),
        after w (db w)
          [EvRequireUserWithRole "admin"; EvFormData;
           EvUserFindUnique (ByEmail (toLowerCase (NewUser.email d)))])) ∧
  (∀ userId d u,
     EditUserSchema (rawData_edit (body request)) = ObjectOk d →
     u ∈ users (db w) → User.id u ≠ userId →
     toLowerCase (User.email u) = toLowerCase (Edited.email d) →
     EditUser.action request userId w
     = (Returned (Errors400 {[ "email" := ["This email is already taken"] ]}),
        after w (db w)
          [EvRequireUserWithRole "admin"; EvFormData;
           EvUserFindFirst (ByEmail (toLowerCase (Edited.email d))) userId])) ∧
  consistent (db (AddNewUserRoute.action request w).2) ∧
  consistent (db (AddNewUserPlain.action request w).2) ∧
  (∀ userId, consistent (db (EditUser.action request userId w).2)).
Proof.
  intros Hauth Hcons.
  destruct (actions_keep_consistency request) as (Hk1 & Hk2 & Hk3).
  pose proof Hcons as (_ & Hnorm & _).
  split; [| split; [| split; [| split; [| split;
    [| split; [| split; [| split; [| split]]]]]]]].
  - intros d Hparse He Hn Hr. split; [intros Hintent; split | split].
    + now rewrite (create_completes _ _ _ _ Hauth Hintent Hparse He Hn Hr).
    + rewrite (create_completes _ _ _ _ Hauth Hintent Hparse He Hn Hr).
      eexists. split; [reflexivity |]. split; reflexivity.
    + now rewrite (plain_completes _ _ _ _ Hauth Hparse He Hn Hr).
    + rewrite (plain_completes _ _ _ _ Hauth Hparse He Hn Hr).
      eexists. split; [reflexivity |]. split; reflexivity.
  - intros userId d Hparse He Hn Hx Hr.
    rewrite (edit_completes _ _ _ _ _ Hauth Hparse He Hn Hx Hr).
    split; [reflexivity |]. split.
    + cbn. now apply update_rows_exists.
    + intros u Hu Hid. cbn in Hu.
      apply update_rows_elem in Hu as (u0 & _ & _ & ->); [| assumption].
      split; reflexivity.
  - intros d Hintent Hparse Hres.
    rewrite (create_undefined_inv _ _ _ _ Hauth Hintent Hparse Hres).
    eexists. split; [reflexivity |]. split; reflexivity.
  - intros d r Hparse Hres.
    rewrite (plain_response_inv _ _ _ _ _ Hauth Hparse Hres).
    eexists. split; [reflexivity |]. split; reflexivity.
  - intros userId d r Hparse Hres.
    destruct (edit_response_inv _ _ _ _ _ _ Hauth Hparse Hres)
      as (Hx & _ & _ & _ & _ & ->).
    split.
    + cbn. now apply update_rows_exists.
    + intros u Hu Hid. cbn in Hu.
      apply update_rows_elem in Hu as (u0 & _ & _ & ->); [| assumption].
      split; reflexivity.
  - intros d u Hparse Hu Hsame.
    assert (Htaken : email_taken (db w) (toLowerCase (NewUser.email d))).
    { exists u. split; [assumption |]. now apply held_up_to_case with (db w). }
    split.
    + intros Hintent. eapply create_email_conflict; eassumption.
    + eapply plain_email_conflict; eassumption.
  - intros userId d u Hparse Hu Hother Hsame.
    eapply edit_email_conflict; try eassumption.
    exists u. split; [assumption |]. split; [| assumption].
    now apply held_up_to_case with (db w).
  - now apply Hk1.
  - now apply Hk2.
  - intros userId. now apply Hk3.
Qed.

End stored_in_lowercase.

Lemma seed_is_consistent : consistent seed.
Proof.
  apply consistent_intro; cbn; try apply NoDup_singleton.
  intros u Hu. apply list_elem_of_singleton in Hu. subst u. split; reflexivity.
Qed.

Lemma bob_is_stored_in_lowercase :
  NewUser.email bob = "A@B.com" ∧ NewUser.username bob = "Bob" ∧
  (AddNewUserPlain.action create_bob (start seed)).1
  = Returned (Responded (redirect "/admin/successful-user-created")) ∧
  (∃ u, users (db (AddNewUserPlain.action create_bob (start seed)).2)
        = [admin_row; u]
        ∧ User.email u = "a@b.com" ∧ User.username u = "bob") ∧
  (toLowerCase (User.email admin_row) = toLowerCase (NewUser.email clash) ∧
   AddNewUserPlain.action create_clash (start seed)
   = (Returned (Errors400
                  {[ "email" := ["A user with this email already exists"] ]}),
      after (start seed) seed
        [EvRequireUserWithRole "admin"; EvFormData;
         EvUserFindUnique (ByEmail "root@example.com")])) ∧
  consistent (db (AddNewUserPlain.action create_bob (start seed)).2).
Proof.
  split; [reflexivity |]. split; [reflexivity |].
  destruct (@stored_lowercase_and_unique reference create_bob (start seed)
              "u0" ltac:(concrete) seed_is_consistent)
    as (Hgo & _ & _ & _ & _ & _ & _ & _ & Hk & _).
  destruct (Hgo bob) as (_ & Hres & Hrow); try concrete.
  split; [exact Hres |]. split; [exact Hrow |]. split; [| exact Hk].
  split; [reflexivity |].
  destruct (@stored_lowercase_and_unique reference create_clash (start seed)
              "u0" ltac:(concrete) seed_is_consistent)
    as (_ & _ & _ & _ & _ & Hrej & _).
  destruct (Hrej clash admin_row) as [_ E];
    [concrete | apply list_elem_of_here | reflexivity |].
  exact E.
Defined.

(** * Further properties of the routes *)

(** ** Reads and failed writes *)

Section read_only_facts.
Context `{Collaborators}.

Lemma read_only_ret {A} (a : A) : read_only (mret a : Async A).
Proof. now intros w. Qed.

Lemma read_only_throw {A} t : read_only (throw t : Async A).
Proof. now intros w. Qed.

Lemma read_only_emit e : read_only (emit e).
Proof. now intros w. Qed.

Lemma read_only_read {A} (q : Store → A) : read_only (read q).
Proof. now intros w. Qed.

Lemma read_only_bind {A B} (m : Async A) (k : A → Async B) :
  read_only m → (∀ a, read_only (k a)) → read_only (m ≫= k).
Proof.
  intros Hm Hk w. unfold mbind, Async_bind. specialize (Hm w).
  destruct (m w) as [[a | t] w1]; cbn in *; [| assumption].
  now rewrite Hk.
Qed.

Lemma read_only_query {A} e (q : Store → A) : read_only (query e q).
Proof.
  apply read_only_bind; [apply read_only_emit | intros; apply read_only_read].
Qed.

Lemma read_only_formData request : read_only (formData request).
Proof.
  apply read_only_bind; [apply read_only_emit | intros; apply read_only_ret].
Qed.

Lemma read_only_getPasswordHash p : read_only (getPasswordHash p).
Proof.
  apply read_only_bind; [apply read_only_emit | intros; apply read_only_ret].
Qed.

Lemma read_only_requireUserWithRole request name :
  read_only (requireUserWithRole request name).
Proof.
  apply read_only_bind; [apply read_only_emit | intros _].
  apply read_only_bind; [apply read_only_read | intros [t | userId]].
  - apply read_only_throw.
  - apply read_only_ret.
Qed.

Lemma all_or_nothing_ret r : all_or_nothing (mret r).
Proof. now intros w. Qed.

Lemma all_or_nothing_bind {A} (m : Async A) (k : A → Async ActionData) :
  read_only m → (∀ a, all_or_nothing (k a)) → all_or_nothing (m ≫= k).
Proof.
  intros Hm Hk w. unfold mbind, Async_bind. specialize (Hm w).
  destruct (m w) as [[a | t] w1]; cbn in *; [| now intros _].
  intros Hr. now rewrite Hk.
Qed.

(** A write followed by the return of a result that is no failure. *)
Lemma all_or_nothing_write {A} e (op : Store → Outcome A * Store) r :
  fails_cleanly op → ¬ rejected (Returned r) →
  all_or_nothing (mutation e op ≫= λ _, mret r).
Proof.
  intros Hop Hr w. unfold mutation, write, emit, mbind, Async_bind, mret,
    Async_ret. cbn.
  destruct (op (db w)) as [[a | t] st] eqn:E; cbn.
  - intros Hrej. now destruct Hr.
  - intros _. now apply Hop in E.
Qed.

Lemma role_create_fails_cleanly n : fails_cleanly (λ st, role_create st n).
Proof.
  intros st t st'. unfold role_create.
  destruct (role_exists st n); now intros [= <- <-] || intros [=].
Qed.

Lemma role_delete_fails_cleanly n : fails_cleanly (λ st, role_delete st n).
Proof.
  intros st t st'. unfold role_delete.
  destruct (role_findUnique st n); [intros [=] | now intros [= <- <-]].
Qed.

Lemma user_create_fails_cleanly d : fails_cleanly (λ st, user_create st d).
Proof.
  intros st t st'. unfold user_create.
  destruct (bool_decide _); [now intros [= <- <-] |].
  destruct (negb _); [now intros [= <- <-] | intros [=]].
Qed.

Lemma user_update_fails_cleanly id d :
  fails_cleanly (λ st, user_update st id d).
Proof.
  intros st t st'. unfold user_update.
  destruct (user_findUnique st (ById id)); [| now intros [= <- <-]].
  destruct (bool_decide _); [now intros [= <- <-] |].
  destruct (negb _); [now intros [= <- <-] | intros [=]].
Qed.

End read_only_facts.

Create HintDb read_only discriminated.
#[export] Hint Resolve read_only_ret read_only_throw read_only_emit
  read_only_read read_only_query read_only_formData read_only_getPasswordHash
  read_only_requireUserWithRole : read_only.

Create HintDb clean discriminated.
#[export] Hint Resolve role_create_fails_cleanly role_delete_fails_cleanly
  user_create_fails_cleanly user_update_fails_cleanly all_or_nothing_ret
  : clean.

(** Walks through a loader body. *)
Ltac read_only_body :=
  repeat first
    [ progress intros
    | solve [auto with read_only]
    | apply read_only_bind
    | match goal with
      | |- read_only (match ?x with _ => _ end) => destruct x
      | |- read_only (if ?b then _ else _) => destruct b
      end ].

(** Walks through an action body: reads, then at most one write ahead of
    the final result. *)
Ltac all_or_nothing_body :=
  repeat first
    [ progress intros
    | solve [auto with clean]
    | apply all_or_nothing_write; [solve [auto with clean] | now cbn]
    | apply all_or_nothing_bind; [solve [auto with read_only] |]
    | match goal with
      | |- all_or_nothing (match ?x with _ => _ end) => destruct x
      | |- all_or_nothing (if ?b then _ else _) => destruct b
      end ].

Section reads_and_failures.
Context `{Collaborators}.

(** X1. No loader writes: whatever the request and whoever the caller, the
    store after the listing loader, either creation loader or the edit
    loader is the store before it. *)
Theorem loaders_are_read_only :
  (∀ request, read_only (AllUsers.loader request)) ∧
  (∀ request, read_only (AddNewUserRoute.loader request)) ∧
  (∀ request, read_only (AddNewUserPlain.loader request)) ∧
  (∀ request userId, read_only (EditUser.loader request userId)).
Proof.
  repeat apply conj; intros;
    unfold AllUsers.loader, AddNewUserRoute.loader, AddNewUserPlain.loader,
      EditUser.loader, prisma.role.findMany_by_name,
      prisma.user.findMany_newest_first, prisma.user.findUnique;
    read_only_body.
Qed.

(** X2. The three actions are all-or-nothing: a run that answers with an
    error object or that throws (failed role check, invalid form, conflict,
    reserved role, a row the store misses) leaves the store exactly as it
    was. *)
Theorem actions_are_all_or_nothing :
  (∀ request, all_or_nothing (AddNewUserRoute.action request)) ∧
  (∀ request, all_or_nothing (AddNewUserPlain.action request)) ∧
  (∀ request userId, all_or_nothing (EditUser.action request userId)).
Proof.
  repeat apply conj; intros;
    unfold AddNewUserRoute.action, AddNewUserPlain.action, EditUser.action,
      prisma.role.findUnique, prisma.role.create, prisma.role.delete,
      prisma.user.findUnique, prisma.user.findFirst_not, prisma.user.create,
      prisma.user.update;
    cbv zeta; all_or_nothing_body.
Qed.

End reads_and_failures.

(** ** Validation failures *)

Section validation.
Context `{Collaborators}.

Lemma create_errors_name (e u p n r : list string) :
  fieldErrors [("email", e); ("username", u); ("password", p); ("name", n);
               ("roles", r)] !! "name"
  = match n with [] => None | _ => Some n end.
Proof. destruct e, u, p, n, r; vm_compute; reflexivity. Qed.

Lemma edit_errors_name (e u n r : list string) :
  fieldErrors [("email", e); ("username", u); ("name", n); ("roles", r)]
    !! "name"
  = match n with [] => None | _ => Some n end.
Proof. destruct e, u, n, r; vm_compute; reflexivity. Qed.

Lemma create_errors_roles (e u p n r : list string) :
  fieldErrors [("email", e); ("username", u); ("password", p); ("name", n);
               ("roles", r)] !! "roles"
  = match r with [] => None | _ => Some r end.
Proof. destruct e, u, p, n, r; vm_compute; reflexivity. Qed.

Lemma edit_errors_roles (e u n r : list string) :
  fieldErrors [("email", e); ("username", u); ("name", n); ("roles", r)]
    !! "roles"
  = match r with [] => None | _ => Some r end.
Proof. destruct e, u, n, r; vm_compute; reflexivity. Qed.

(** The schema of [name] accepts the non-empty strings, unchanged, and
    nothing else. *)
Lemma NameSchema_accepts v s :
  NameSchema v = ParseOk s ↔ v = JString s ∧ s ≠ "".
Proof.
  unfold NameSchema, z_min, z_string. split.
  - destruct v as [| | s0 | |]; try discriminate.
    destruct s0; cbn; [discriminate |]. intros [= <-]. now split.
  - intros [-> Hs]. destruct s; [contradiction | reflexivity].
Qed.

Lemma create_rejects_name rawData l :
  NameSchema (Raw.name rawData) = ParseError l → l ≠ [] →
  ∃ errors, AddNewUserSchema rawData = ObjectError errors
            ∧ errors !! "name" = Some l.
Proof.
  intros Hn Hl. unfold AddNewUserSchema. rewrite Hn.
  destruct (EmailSchema _), (UsernameSchema _), (PasswordSchema _),
    (RolesSchema _); eexists; (split; [reflexivity |]);
    rewrite create_errors_name; cbn [issues_of]; now destruct l.
Qed.

Lemma edit_rejects_name rawData l :
  NameSchema (Raw.name rawData) = ParseError l → l ≠ [] →
  ∃ errors, EditUserSchema rawData = ObjectError errors
            ∧ errors !! "name" = Some l.
Proof.
  intros Hn Hl. unfold EditUserSchema. rewrite Hn.
  destruct (EmailSchema _), (UsernameSchema _), (RolesSchema _);
    eexists; (split; [reflexivity |]);
    rewrite edit_errors_name; cbn [issues_of]; now destruct l.
Qed.

Lemma NameSchema_rejects v :
  v = Some (FString "") ∨ v = None →
  NameSchema (of_get v) = ParseError (name_message v) ∧ name_message v ≠ [].
Proof. intros [-> | ->]; now split. Qed.

(** X3. A user form whose [name] is empty or missing is rejected by all
    three actions before any look-up: the result is the 400 error object, its
    [name] entry is "Name is required" for the empty string (the type
    message for a missing entry), the effects are the role check and the
    form read only, and the store is unchanged, whatever the other fields
    hold. *)
Theorem unnamed_user_is_rejected request w caller :
  resolve_role request "admin" (db w) = inr caller →
  get (body request) "name" = Some (FString "")
  ∨ get (body request) "name" = None →
  (user_intent (body request) →
   ∃ errors,
     AddNewUserRoute.action request w
     = (Returned (Errors400 errors),
        after w (db w) [EvRequireUserWithRole "admin"; EvFormData])
     ∧ errors !! "name" = Some (name_message (get (body request) "name"))) ∧
  (∃ errors,
     AddNewUserPlain.action request w
     = (Returned (Errors400 errors),
        after w (db w) [EvRequireUserWithRole "admin"; EvFormData])
     ∧ errors !! "name" = Some (name_message (get (body request) "name"))) ∧
  (∀ userId, ∃ errors,
     EditUser.action request userId w
     = (Returned (Errors400 errors),
        after w (db w) [EvRequireUserWithRole "admin"; EvFormData])
     ∧ errors !! "name" = Some (name_message (get (body request) "name"))).
Proof.
  intros Hauth Hname.
  destruct (NameSchema_rejects _ Hname) as [Hrej Hne].
  destruct (create_rejects_name (rawData_create (body request)) _ Hrej Hne)
    as (ec & Hc & Hcn).
  destruct (edit_rejects_name (rawData_edit (body request)) _ Hrej Hne)
    as (ee & He & Hen).
  repeat apply conj.
  - intros Hintent. exists ec. split; [| exact Hcn].
    eapply create_invalid; eassumption.
  - exists ec. split; [| exact Hcn]. eapply plain_invalid; eassumption.
  - intros userId. exists ee. split; [| exact Hen].
    eapply edit_invalid; eassumption.
Qed.

Lemma parse_items_strings (l : list string) :
  parse_items z_string (JString <$> l) = ParseOk l.
Proof. induction l as [|s l IH]; cbn; [reflexivity |]. now rewrite IH. Qed.

Lemma parse_items_file (items : list JsValue) f :
  JFile f ∈ items →
  ∃ l, parse_items z_string items = ParseError l ∧ l ≠ [].
Proof.
  induction items as [|v items IH]; intros Hin;
    [now apply elem_of_nil in Hin |].
  apply elem_of_cons in Hin as [<- | Hin].
  - cbn. destruct (parse_items z_string items); eexists;
      (split; [reflexivity | discriminate]).
  - destruct (IH Hin) as (l & El & Hl). cbn. rewrite El.
    destruct (z_string v); eexists; (split; [reflexivity |]); cbn.
    + assumption.
    + intros E. apply app_eq_nil in E as [_ E]. contradiction.
Qed.

Lemma RolesSchema_strings (fd : FormData) (l : list string) :
  getAll fd "roles" = FString <$> l →
  RolesSchema (of_getAll (getAll fd "roles")) = ParseOk l.
Proof.
  intros ->. unfold of_getAll. rewrite <- list_fmap_compose.
  apply parse_items_strings.
Qed.

Lemma RolesSchema_file (fd : FormData) f :
  FFile f ∈ getAll fd "roles" →
  ∃ l, RolesSchema (of_getAll (getAll fd "roles")) = ParseError l ∧ l ≠ [].
Proof.
  intros Hin. apply (parse_items_file _ f).
  apply list_elem_of_fmap. now exists (FFile f).
Qed.

(** X4. The [roles] entries of a form reach the write as submitted: when
    they are all strings, the validated record of either schema holds them
    in order and with their repetitions, whether or not a role of that name
    exists; when one of them is a file, either schema fails with an entry
    for [roles]. *)
Theorem roles_are_validated_as_submitted (fd : FormData) :
  (∀ l, getAll fd "roles" = FString <$> l →
     (∀ d, AddNewUserSchema (rawData_create fd) = ObjectOk d →
           NewUser.roles d = l) ∧
     (∀ d, EditUserSchema (rawData_edit fd) = ObjectOk d →
           Edited.roles d = l)) ∧
  (∀ f, FFile f ∈ getAll fd "roles" →
     (∃ errors, AddNewUserSchema (rawData_create fd) = ObjectError errors
                ∧ is_Some (errors !! "roles")) ∧
     (∃ errors, EditUserSchema (rawData_edit fd) = ObjectError errors
                ∧ is_Some (errors !! "roles"))).
Proof.
  split.
  - intros l Hl. pose proof (RolesSchema_strings fd l Hl) as Hr. split.
    + intros d Hp. apply AddNewUserSchema_ok in Hp as (_ & _ & _ & _ & Hd).
      cbn [Raw.roles rawData_create] in Hd. congruence.
    + intros d Hp. apply EditUserSchema_ok in Hp as (_ & _ & _ & Hd).
      cbn [Raw.roles rawData_edit] in Hd. congruence.
  - intros f Hin. destruct (RolesSchema_file fd f Hin) as (l & Hr & Hl). split.
    + unfold AddNewUserSchema. cbn [Raw.roles rawData_create]. rewrite Hr.
      destruct (EmailSchema _), (UsernameSchema _), (PasswordSchema _),
        (NameSchema _); eexists; (split; [reflexivity |]);
        rewrite create_errors_roles; cbn [issues_of]; now destruct l.
    + unfold EditUserSchema. cbn [Raw.roles rawData_edit]. rewrite Hr.
      destruct (EmailSchema _), (UsernameSchema _), (NameSchema _);
        eexists; (split; [reflexivity |]);
        rewrite edit_errors_roles; cbn [issues_of]; now destruct l.
Qed.

End validation.

Lemma nameless_creation_is_rejected :
  get (body create_nameless) "name" = Some (FString "") ∧
  ∃ errors,
    AddNewUserPlain.action create_nameless (start seed)
    = (Returned (Errors400 errors),
       after (start seed) seed [EvRequireUserWithRole "admin"; EvFormData])
    ∧ errors !! "name" = Some ["Name is required"].
Proof.
  split; [reflexivity |].
  destruct (unnamed_user_is_rejected create_nameless (start seed) "u0")
    as (_ & Hp & _); [concrete | now left |]. exact Hp.
Defined.

(** ** The user writes *)

Section user_writes.
Context `{Collaborators}.

(** X5. With an unused e-mail and a user name that a user already holds (held
    by another user, for an edit), the action returns the 400 error object
    whose only entry is [username]; the run is the role check, the form read
    and the two look-ups, and nothing is written. *)
Theorem username_conflict_stops_the_write request w caller :
  resolve_role request "admin" (db w) = inr caller →
  (∀ d, user_intent (body request) →
     AddNewUserSchema (rawData_create (body request)) = ObjectOk d →
     ¬ email_taken (db w) (toLowerCase (NewUser.email d)) →
     username_taken (db w) (toLowerCase (NewUser.username d)) →
     AddNewUserRoute.action request w
     = (Returned (Errors400
                    {[ "username" :=
                         ["A user with this username already exists"] ]}),
        after w (db w)
          [EvRequireUserWithRole "admin"; EvFormData;
           EvUserFindUnique (ByEmail (toLowerCase (NewUser.email d)));
           EvUserFindUnique (ByUsername (toLowerCase (NewUser.username d)))])) ∧
  (∀ d, AddNewUserSchema (rawData_create (body request)) = ObjectOk d →
     ¬ email_taken (db w) (toLowerCase (NewUser.email d)) →
     username_taken (db w) (toLowerCase (NewUser.username d)) →
     AddNewUserPlain.action request w
     = (Returned (Errors400
                    {[ "username" :=
                         ["A user with this username already exists"] ]}),
        after w (db w)
          [EvRequireUserWithRole "admin"; EvFormData;
           EvUserFindUnique (ByEmail (toLowerCase (NewUser.email d)));
           EvUserFindUnique (ByUsername (toLowerCase (NewUser.username d)))])) ∧
  (∀ userId d,
     EditUserSchema (rawData_edit (body request)) = ObjectOk d →
     ¬ email_taken_by_other (db w) (toLowerCase (Edited.email d)) userId →
     username_taken_by_other (db w) (toLowerCase (Edited.username d)) userId →
     EditUser.action request userId w
     = (Returned (Errors400
                    {[ "username" := ["This username is already taken"] ]}),
        after w (db w)
          [EvRequireUserWithRole "admin"; EvFormData;
           EvUserFindFirst (ByEmail (toLowerCase (Edited.email d))) userId;
           EvUserFindFirst (ByUsername (toLowerCase (Edited.username d)))
             userId])).
Proof.
  intros Hauth. repeat apply conj; intros.
  - eapply create_username_conflict; eassumption.
  - eapply plain_username_conflict; eassumption.
  - eapply edit_username_conflict; eassumption.
Qed.





(** X7. A creation that passes the schema and both look-ups but names a
    role without a row throws the store's "record not found" error in both
    routes, after the password has been hashed, and writes no user row. *)
Theorem creation_with_unknown_role_throws request w caller d :
  resolve_role request "admin" (db w) = inr caller →
  AddNewUserSchema (rawData_create (body request)) = ObjectOk d →
  ¬ email_taken (db w) (toLowerCase (NewUser.email d)) →
  ¬ username_taken (db w) (toLowerCase (NewUser.username d)) →
  ¬ roles_exist (db w) (NewUser.roles d) →
  (user_intent (body request) →
   AddNewUserRoute.action request w
   = (Threw (PrismaError "P2025"),
      after w (db w)
        [EvRequireUserWithRole "admin"; EvFormData;
         EvUserFindUnique (ByEmail (toLowerCase (NewUser.email d)));
         EvUserFindUnique (ByUsername (toLowerCase (NewUser.username d)));
         EvGetPasswordHash;
         EvUserCreate (toLowerCase (NewUser.email d))
                      (toLowerCase (NewUser.username d))])) ∧
  AddNewUserPlain.action request w
  = (Threw (PrismaError "P2025"),
     after w (db w)
       [EvRequireUserWithRole "admin"; EvFormData;
        EvUserFindUnique (ByEmail (toLowerCase (NewUser.email d)));
        EvUserFindUnique (ByUsername (toLowerCase (NewUser.username d)));
        EvGetPasswordHash;
        EvUserCreate (toLowerCase (NewUser.email d))
                     (toLowerCase (NewUser.username d))]).
Proof.
  intros Hauth Hparse He Hn Hr. split.
  - intros Hintent. eapply create_missing_role; eassumption.
  - eapply plain_missing_role; eassumption.
Qed.

(** X8. The edit action has no not-found answer of its own: for valid data
    without conflicts, when the target identifier has no row, or when a
    submitted role has none, the update throws the store's "record not
    found" error and no row is changed. *)
Theorem edit_of_missing_row_throws request userId w caller d :
  resolve_role request "admin" (db w) = inr caller →
  EditUserSchema (rawData_edit (body request)) = ObjectOk d →
  ¬ email_taken_by_other (db w) (toLowerCase (Edited.email d)) userId →
  ¬ username_taken_by_other (db w) (toLowerCase (Edited.username d)) userId →
  ¬ user_exists (db w) userId ∨ ¬ roles_exist (db w) (Edited.roles d) →
  EditUser.action request userId w
  = (Threw (PrismaError "P2025"),
     after w (db w)
       [EvRequireUserWithRole "admin"; EvFormData;
        EvUserFindFirst (ByEmail (toLowerCase (Edited.email d))) userId;
        EvUserFindFirst (ByUsername (toLowerCase (Edited.username d))) userId;
        EvUserUpdate userId]).
Proof.
  intros Hauth Hparse He Hn Hmiss.
  eapply edit_update_fails; try eassumption. tauto.
Qed.

(** X9. On a user form the two creation routes do the same thing: same
    effects in the same order and same store afterwards; their results are
    equal too, except that where the single-intent route returns the
    redirect to the confirmation page the multi-intent route returns
    [undefined]. *)
Theorem creation_routes_agree request w :
  user_intent (body request) →
  (AddNewUserRoute.action request w).2 = (AddNewUserPlain.action request w).2 ∧
  ((AddNewUserRoute.action request w).1 = (AddNewUserPlain.action request w).1
   ∨ ((AddNewUserRoute.action request w).1 = Returned Undefined
      ∧ (AddNewUserPlain.action request w).1
        = Returned (Responded (redirect "/admin/successful-user-created")))).
Proof.
  intros Hintent.
  destruct (resolve_role request "admin" (db w)) as [t | caller] eqn:Hauth.
  { unfold AddNewUserRoute.action, AddNewUserPlain.action.
    rewrite !(bind_threw _ _ _ _ _ (require_threw _ _ _ _ Hauth)). auto. }
  destruct (AddNewUserSchema (rawData_create (body request)))
    as [d | errors] eqn:Hparse.
  2: { rewrite (create_invalid _ _ _ _ Hauth Hintent Hparse),
         (plain_invalid _ _ _ _ Hauth Hparse). auto. }
  destruct (decide (is_Some (user_findUnique (db w)
              (ByEmail (toLowerCase (NewUser.email d)))))) as [He | He];
    rewrite <- findUnique_email_taken in He.
  { rewrite (create_email_conflict _ _ _ _ Hauth Hintent Hparse He),
      (plain_email_conflict _ _ _ _ Hauth Hparse He). auto. }
  destruct (decide (is_Some (user_findUnique (db w)
              (ByUsername (toLowerCase (NewUser.username d)))))) as [Hn | Hn];
    rewrite <- findUnique_username_taken in Hn.
  { rewrite (create_username_conflict _ _ _ _ Hauth Hintent Hparse He Hn),
      (plain_username_conflict _ _ _ _ Hauth Hparse He Hn). auto. }
  destruct (roles_exist_dec (db w) (NewUser.roles d)) as [Hr | Hr].
  - rewrite (create_completes _ _ _ _ Hauth Hintent Hparse He Hn Hr),
      (plain_completes _ _ _ _ Hauth Hparse He Hn Hr). auto.
  - rewrite (create_missing_role _ _ _ _ Hauth Hintent Hparse He Hn Hr),
      (plain_missing_role _ _ _ _ Hauth Hparse He Hn Hr). auto.
Qed.

End user_writes.

Lemma taken_name_is_reported :
  username_taken seed (toLowerCase (NewUser.username taken_name)) ∧
  AddNewUserPlain.action create_taken_name (start seed)
  = (Returned (Errors400
                 {[ "username" :=
                      ["A user with this username already exists"] ]}),
     after (start seed) seed
       [EvRequireUserWithRole "admin"; EvFormData;
        EvUserFindUnique (ByEmail "new@example.com");
        EvUserFindUnique (ByUsername "root")]).
Proof.
  assert (Ht : username_taken seed (toLowerCase (NewUser.username taken_name))).
  { apply findUnique_username_taken. vm_compute. eexists. reflexivity. }
  split; [exact Ht |].
  destruct (username_conflict_stops_the_write create_taken_name (start seed)
              "u0") as (_ & Hp & _); [concrete |].
  apply (Hp taken_name); [concrete | concrete | exact Ht].
Defined.


Lemma ghost_role_makes_creation_throw :
  ¬ roles_exist seed (NewUser.roles with_ghost_role) ∧
  (AddNewUserPlain.action create_with_ghost_role (start seed)).1
  = Threw (PrismaError "P2025").
Proof.
  assert (Hr : ¬ roles_exist seed (NewUser.roles with_ghost_role)).
  { rewrite <- forallb_roles_exist. vm_compute. discriminate. }
  split; [exact Hr |].
  destruct (@creation_with_unknown_role_throws reference
              create_with_ghost_role (start seed) "u0" with_ghost_role
              ltac:(concrete) ltac:(concrete) ltac:(concrete)
              ltac:(concrete) Hr) as [_ E].
  now rewrite E.
Defined.

Lemma edit_of_nobody_throws :
  ¬ user_exists seed "nobody" ∧
  (EditUser.action edit_fresh "nobody" (start seed)).1
  = Threw (PrismaError "P2025").
Proof.
  assert (Hx : ¬ user_exists seed "nobody").
  { rewrite findUnique_id_exists. vm_compute. intros [? [=]]. }
  split; [exact Hx |].
  rewrite (@edit_of_missing_row_throws reference edit_fresh "nobody"
             (start seed) "u0" fresh_edit ltac:(concrete) ltac:(concrete)
             ltac:(concrete) ltac:(concrete) (or_introl Hx)).
  reflexivity.
Defined.

Lemma routes_agree_on_bob :
  user_intent (body create_bob) ∧
  (AddNewUserRoute.action create_bob (start seed)).2
  = (AddNewUserPlain.action create_bob (start seed)).2.
Proof.
  assert (Hi : user_intent (body create_bob)) by concrete.
  split; [exact Hi |].
  exact (proj1 (@creation_routes_agree reference create_bob (start seed) Hi)).
Defined.

(** ** Edits *)

Section edits.
Context `{Collaborators}.

Lemma NoDup_fmap_eq {A B} (f : A → B) (l : list A) x y :
  NoDup (f <$> l) → x ∈ l → y ∈ l → f x = f y → x = y.
Proof.
  intros Hnd Hx Hy Hf.
  apply list_elem_of_lookup in Hx as [i Hi].
  apply list_elem_of_lookup in Hy as [j Hj].
  assert (Hfi : (f <$> l) !! i = Some (f x))
    by (now rewrite list_lookup_fmap, Hi).
  assert (Hfj : (f <$> l) !! j = Some (f x))
    by (now rewrite list_lookup_fmap, Hj, Hf).
  pose proof (NoDup_lookup _ _ _ _ Hnd Hfi Hfj) as ->. congruence.
Qed.

(** X10. Saving a user with their own e-mail and user name, in any case, is no
    conflict: the two look-ups leave out the target row, so when e-mails and
    user names are unique up to case and the submitted roles exist, the edit
    goes through and redirects to the listing. *)
Theorem edit_accepts_own_values request userId w caller d u :
  resolve_role request "admin" (db w) = inr caller →
  EditUserSchema (rawData_edit (body request)) = ObjectOk d →
  unique_up_to_case (db w) →
  u ∈ users (db w) → User.id u = userId →
  toLowerCase (User.email u) = toLowerCase (Edited.email d) →
  toLowerCase (User.username u) = toLowerCase (Edited.username d) →
  roles_exist (db w) (Edited.roles d) →
  EditUser.action request userId w
  = (Returned (Responded (redirect "/admin/all-users")),
     after w (set_users (db w) (update_rows userId (edit_data d) (users (db w))))
       [EvRequireUserWithRole "admin"; EvFormData;
        EvUserFindFirst (ByEmail (toLowerCase (Edited.email d))) userId;
        EvUserFindFirst (ByUsername (toLowerCase (Edited.username d))) userId;
        EvUserUpdate userId]).
Proof.
  intros Hauth Hparse [Hue Hun] Hu Hid He Hn Hr.
  apply edit_completes with caller; try assumption.
  - intros (v & Hv & Hev & Hother). apply Hother. rewrite <- Hid. f_equal.
    apply (NoDup_fmap_eq _ _ _ _ Hue Hv Hu). cbn.
    now rewrite Hev, toLowerCase_idempotent.
  - intros (v & Hv & Hnv & Hother). apply Hother. rewrite <- Hid. f_equal.
    apply (NoDup_fmap_eq _ _ _ _ Hun Hv Hu). cbn.
    now rewrite Hnv, toLowerCase_idempotent.
  - now exists u.
Qed.

(** X11. A successful edit touches only the rows of the target identifier:
    the role rows, the number of user rows and every row of another
    identifier stay as they were and where they were; a target row keeps its
    identifier and its credential and takes the validated display name. *)
Theorem edit_touches_only_the_target request userId w caller d r :
  resolve_role request "admin" (db w) = inr caller →
  EditUserSchema (rawData_edit (body request)) = ObjectOk d →
  (EditUser.action request userId w).1 = Returned (Responded r) →
  roles (db (EditUser.action request userId w).2) = roles (db w) ∧
  length (users (db (EditUser.action request userId w).2))
  = length (users (db w)) ∧
  ∀ i v, users (db w) !! i = Some v →
    (User.id v ≠ userId →
     users (db (EditUser.action request userId w).2) !! i = Some v) ∧
    (User.id v = userId →
     ∃ v', users (db (EditUser.action request userId w).2) !! i = Some v'
           ∧ User.id v' = userId
           ∧ User.password v' = User.password v
           ∧ User.name v' = Some (Edited.name d)).
Proof.
  intros Hauth Hparse Hres.
  destruct (edit_response_inv _ _ _ _ _ _ Hauth Hparse Hres)
    as (_ & _ & _ & _ & _ & ->).
  cbn [users roles set_users]. unfold update_rows.
  split; [reflexivity |]. split; [apply length_fmap |].
  intros i v Hi. rewrite list_lookup_fmap, Hi. cbn. split.
  - intros Hne. now rewrite bool_decide_eq_false_2.
  - intros He. rewrite bool_decide_eq_true_2 by assumption.
    eexists. split; [reflexivity |]. now repeat split.
Qed.

End edits.

Lemma root_may_keep_its_own_values :
  toLowerCase (User.email admin_row) = toLowerCase (Edited.email root_as_user) ∧
  (EditUser.action edit_root_as_user "u0" (start seed)).1
  = Returned (Responded (redirect "/admin/all-users")).
Proof.
  split; [reflexivity |].
  rewrite (@edit_accepts_own_values reference edit_root_as_user "u0"
             (start seed) "u0" root_as_user admin_row);
    [reflexivity | concrete | concrete | | apply list_elem_of_here
     | reflexivity | reflexivity | reflexivity | concrete].
  destruct seed_is_consistent as (_ & _ & Hu). exact Hu.
Defined.

Lemma edit_of_root_keeps_the_credential :
  (EditUser.action edit_root_as_user "u0" (start seed)).1
  = Returned (Responded (redirect "/admin/all-users")) ∧
  ∃ v', users (db (EditUser.action edit_root_as_user "u0" (start seed)).2) !! 0
        = Some v'
        ∧ User.id v' = "u0"
        ∧ User.password v' = Some "digest:secret"
        ∧ User.name v' = Some "Root".
Proof.
  assert (Hres : (EditUser.action edit_root_as_user "u0" (start seed)).1
                 = Returned (Responded (redirect "/admin/all-users")))
    by (vm_compute; reflexivity).
  split; [exact Hres |].
  destruct (@edit_touches_only_the_target reference edit_root_as_user "u0"
              (start seed) "u0" root_as_user _
              ltac:(concrete) ltac:(concrete) Hres) as (_ & _ & Hrows).
  destruct (Hrows 0 admin_row eq_refl) as [_ Htarget].
  exact (Htarget eq_refl).
Defined.

(** ** Listings *)

Section listings.
Context `{Collaborators}.



Instance role_order_total :
  Total (λ a b : Role.t, String.leb (Role.name a) (Role.name b) : Prop).
Proof.
  intros a b.
  destruct (String.leb_total (Role.name a) (Role.name b)) as [E | E];
    rewrite E; [now left | now right].
Qed.

Lemma role_findMany_sorted st :
  Sorted (λ a b : Role.t, String.leb (Role.name a) (Role.name b) : Prop)
    (role_findMany_by_name st)
  ∧ role_findMany_by_name st ≡ₚ roles st.
Proof.
  split; [apply Sorted_merge_sort; apply _ | apply merge_sort_Permutation].
Qed.

(** X13. The role lists of the creation page and of the edit page hold
    every role row exactly once (they are a permutation of the rows) and
    are in ascending order of name, byte-wise; the loaders read them
    without changing the store. *)
Theorem available_roles_are_sorted request w caller :
  resolve_role request "admin" (db w) = inr caller →
  (∃ names,
     AddNewUserRoute.loader request w
     = (Returned {| AddNewUserRoute.availableRoles := names |},
        after w (db w) [EvRequireUserWithRole "admin"; EvRoleFindMany])
     ∧ names ≡ₚ Role.name <$> roles (db w)
     ∧ Sorted (λ a b : string, String.leb a b : Prop) names) ∧
  (∀ userId data,
     (EditUser.loader request userId w).1 = Returned data →
     EditUser.availableRoles data ≡ₚ roles (db w)
     ∧ Sorted (λ a b : Role.t, String.leb (Role.name a) (Role.name b) : Prop)
         (EditUser.availableRoles data)).
Proof.
  intros Hauth. destruct (role_findMany_sorted (db w)) as [Hs Hp]. split.
  - exists (Role.name <$> role_findMany_by_name (db w)). repeat apply conj.
    + unfold AddNewUserRoute.loader, prisma.role.findMany_by_name.
      do 2 await. rewrite run_ret. tidy. reflexivity.
    + now rewrite Hp.
    + eapply Sorted_fmap; [| exact Hs]. auto.
  - intros userId data.
    destruct (user_findUnique (db w) (ById userId)) as [u |] eqn:Hu.
    + rewrite (edit_loader_found _ _ _ _ _ Hauth Hu). intros [= <-].
      now split.
    + rewrite (edit_loader_missing _ _ _ _ Hauth); [discriminate |].
      rewrite findUnique_id_exists, Hu. now intros [? ?].
Qed.

End listings.


Lemma seed_roles_are_listed_in_order :
  ∃ names,
    (AddNewUserRoute.loader (post []) (start seed)).1
    = Returned {| AddNewUserRoute.availableRoles := names |}
    ∧ names ≡ₚ ["admin"; "user"]
    ∧ Sorted (λ a b : string, String.leb a b : Prop) names.
Proof.
  destruct (@available_roles_are_sorted reference (post []) (start seed) "u0"
              ltac:(concrete)) as [(names & E & Hp & Hs) _].
  exists names. rewrite E. now repeat split.
Defined.

(** ** Roles *)

Section roles.
Context `{Collaborators}.

Lemma disconnect_absent n u : n ∉ User.roles u → disconnect_role n u = u.
Proof.
  intros Hn. destruct u as [i e un nm p rs]. unfold disconnect_role. cbn in *.
  f_equal. now apply role_deleted_other.
Qed.

Lemma filter_keeps {A} (P : A → Prop) `{∀ x, Decision (P x)} (l : list A) :
  (∀ x, x ∈ l → P x) → filter P l = l.
Proof.
  induction l as [|x l IH]; intros Hall; [reflexivity |].
  rewrite filter_cons_True by (apply Hall, list_elem_of_here).
  f_equal. apply IH. intros y Hy. now apply Hall, list_elem_of_further.
Qed.

(** The store once the role [n] has been inserted and deleted again. *)
Lemma insert_then_delete_role st n :
  n ∉ Role.name <$> roles st → referential st →
  {| users := disconnect_role n <$> users st;
     roles := filter (λ r, Role.name r ≠ n)
                (roles st ++ [{| Role.name := n; Role.description := None |}]) |}
  = st.
Proof.
  intros Hn Href. destruct st as [us rs]. cbn in *. f_equal.
  - rewrite <- (list_fmap_id us) at 2. apply list_fmap_ext.
    intros i u Hu. apply disconnect_absent. intros Hin. apply Hn.
    apply (Href u n); [| assumption]. apply list_elem_of_lookup. eauto.
  - rewrite filter_app, filter_cons_False, filter_nil, app_nil_r
      by (cbn; tauto).
    apply filter_keeps. intros r Hr Heq. apply Hn. rewrite <- Heq.
    apply list_elem_of_fmap. eauto.
Qed.

(** X14. Creating a role and then deleting it by its stored (lowercased)
    name gives back the store as it was: when no role row had that name, the
    name is not reserved and every role held by a user has a row, the first
    request succeeds with form type [role], the second with form type
    [delete-role], and the users and roles are exactly those before the two
    requests. *)
Theorem create_then_delete_role_restores request request' w caller caller' s :
  resolve_role request "admin" (db w) = inr caller →
  get (body request) "intent" = Some (FString "create-role") →
  submitted_roleName (body request) = Some s → s ≠ "" →
  toLowerCase s ∉ Role.name <$> roles (db w) →
  toLowerCase s ≠ "admin" → toLowerCase s ≠ "user" →
  referential (db w) →
  resolve_role request' "admin" (db (AddNewUserRoute.action request w).2)
  = inr caller' →
  get (body request') "intent" = Some (FString "delete-role") →
  submitted_roleName (body request') = Some (toLowerCase s) →
  (AddNewUserRoute.action request w).1 = Returned (Success FormRole) ∧
  (AddNewUserRoute.action request' (AddNewUserRoute.action request w).2).1
  = Returned (Success FormDeleteRole) ∧
  db (AddNewUserRoute.action request' (AddNewUserRoute.action request w).2).2
  = db w.
Proof.
  intros Hauth Hintent Hs Hne Hnew Ha Hu Href Hauth' Hintent' Hs'.
  assert (Hn : toLowerCase s ≠ "") by now rewrite toLowerCase_empty.
  assert (E : AddNewUserRoute.action request w
              = (Returned (Success FormRole),
                 after w (set_roles (db w)
                            (roles (db w)
                             ++ [{| Role.name := toLowerCase s;
                                    Role.description := None |}]))
                   [EvRequireUserWithRole "admin"; EvFormData;
                    EvRoleFindUnique (toLowerCase s);
                    EvRoleCreate (toLowerCase s)])).
  { eapply create_role_inserts; try eassumption. now rewrite Hs. }
  rewrite E in *. cbn [fst snd] in *. split; [reflexivity |].
  assert (Hex : is_Some (role_findUnique
                  (set_roles (db w)
                     (roles (db w)
                      ++ [{| Role.name := toLowerCase s;
                             Role.description := None |}]))
                  (toLowerCase s))).
  { apply role_findUnique_exists. cbn. rewrite fmap_app.
    apply elem_of_app. right. apply list_elem_of_here. }
  destruct Hex as [r Hr].
  rewrite (delete_role_attempts _ _ _ _ Hauth' Hintent' Hs' Hn Ha Hu).
  cbn [db after]. rewrite Hr. cbn [fst snd db after users roles set_roles].
  split; [reflexivity |]. now apply insert_then_delete_role.
Qed.

Lemma auth_failure_issues_the_check request w t :
  resolve_role request "admin" (db w) = inl t →
  AddNewUserRoute.action request w
  = (Threw t, after w (db w) [EvRequireUserWithRole "admin"]).
Proof.
  intros Hauth. unfold AddNewUserRoute.action.
  erewrite bind_threw by (apply require_threw; exact Hauth).
  tidy. reflexivity.
Qed.

(** X15. A request with a role intent is never treated as a user form,
    whatever else the form holds: the run has no look-up, hash, create or
    update for users, and every user row keeps its identifier, e-mail, user
    name, display name and credential. *)
Theorem role_intents_leave_users_alone request w :
  get (body request) "intent" = Some (FString "create-role")
  ∨ get (body request) "intent" = Some (FString "delete-role") →
  Forall (λ e, on_users e = false) (issued (AddNewUserRoute.action request) w) ∧
  (λ u, (User.id u, User.email u, User.username u, User.name u,
         User.password u))
    <$> users (db (AddNewUserRoute.action request w).2)
  = (λ u, (User.id u, User.email u, User.username u, User.name u,
           User.password u)) <$> users (db w).
Proof.
  intros Hintent.
  destruct (resolve_role request "admin" (db w)) as [t | caller] eqn:Hauth.
  { pose proof (auth_failure_issues_the_check _ _ _ Hauth) as E.
    rewrite (issued_after _ _ _ _ _ E), E. split; [| reflexivity].
    repeat constructor. }
  destruct Hintent as [Hintent | Hintent].
  - destruct (submitted_roleName (body request)) as [s |] eqn:Hs.
    2: { assert (E := create_role_required _ _ _ Hauth Hintent).
         rewrite Hs in E. specialize (E (or_introl eq_refl)).
         rewrite (issued_after _ _ _ _ _ E), E. split; [| reflexivity].
         repeat constructor. }
    destruct (decide (s = "")) as [-> | Hne].
    { assert (E := create_role_required _ _ _ Hauth Hintent).
      rewrite Hs in E.
      assert (Hl : toLowerCase <$> Some "" = Some "")
        by (cbn; f_equal; now apply toLowerCase_empty).
      specialize (E (or_intror Hl)).
      rewrite (issued_after _ _ _ _ _ E), E. split; [| reflexivity].
      repeat constructor. }
    assert (Hn : toLowerCase s ≠ "") by now rewrite toLowerCase_empty.
    assert (Hl : toLowerCase <$> submitted_roleName (body request)
                 = Some (toLowerCase s)) by now rewrite Hs.
    destruct (decide (toLowerCase s ∈ Role.name <$> roles (db w)))
      as [Hex | Hex].
    + pose proof (create_role_duplicate _ _ _ _ Hauth Hintent Hl Hn Hex) as E.
      rewrite (issued_after _ _ _ _ _ E), E. split; [| reflexivity].
      repeat constructor.
    + pose proof (create_role_inserts _ _ _ _ Hauth Hintent Hl Hn Hex) as E.
      rewrite (issued_after _ _ _ _ _ E), E. split; [| reflexivity].
      repeat constructor.
  - destruct (submitted_roleName (body request)) as [n |] eqn:Hs.
    2: { assert (E := delete_role_required _ _ _ Hauth Hintent).
         rewrite Hs in E. specialize (E (or_introl eq_refl)).
         rewrite (issued_after _ _ _ _ _ E), E. split; [| reflexivity].
         repeat constructor. }
    destruct (decide (n = "")) as [-> | Hne].
    { assert (E := delete_role_required _ _ _ Hauth Hintent).
      rewrite Hs in E. specialize (E (or_intror eq_refl)).
      rewrite (issued_after _ _ _ _ _ E), E. split; [| reflexivity].
      repeat constructor. }
    destruct (decide (n = "admin")) as [Ha | Ha].
    { pose proof (delete_role_reserved _ _ _ _ Hauth Hintent Hs
                    (or_introl Ha)) as E.
      rewrite (issued_after _ _ _ _ _ E), E. split; [| reflexivity].
      repeat constructor. }
    destruct (decide (n = "user")) as [Hu | Hu].
    { pose proof (delete_role_reserved _ _ _ _ Hauth Hintent Hs
                    (or_intror Hu)) as E.
      rewrite (issued_after _ _ _ _ _ E), E. split; [| reflexivity].
      repeat constructor. }
    pose proof (delete_role_attempts _ _ _ _ Hauth Hintent Hs Hne Ha Hu) as E.
    destruct (role_findUnique (db w) n).
    + rewrite (issued_after _ _ _ _ _ E), E. split; [repeat constructor |].
      cbn [snd db after users]. now rewrite <- list_fmap_compose.
    + rewrite (issued_after _ _ _ _ _ E), E. split; [| reflexivity].
      repeat constructor.
Qed.

(** X16. The delete forms that the creation page renders agree with the
    guard of the action: a form is rendered only for a viewer who holds
    [admin] and only for a listed role other than [admin] and [user]; sent
    by an administrator against the store the list was read from, such a
    form deletes that role and succeeds, unless the role's name is the
    empty string, which the action answers with "Role name is required". *)
Theorem offered_deletes_pass_the_guard viewer_roles names request w caller :
  resolve_role request "admin" (db w) = inr caller →
  names ≡ₚ Role.name <$> roles (db w) →
  body request ∈ delete_forms viewer_roles names →
  ∃ n, body request = delete_form n ∧
       isAdmin viewer_roles = true ∧ n ≠ "admin" ∧ n ≠ "user" ∧
       (n ≠ "" →
        AddNewUserRoute.action request w
        = (Returned (Success FormDeleteRole),
           after w {| users := disconnect_role n <$> users (db w);
                      roles := filter (λ r, Role.name r ≠ n) (roles (db w)) |}
             [EvRequireUserWithRole "admin"; EvFormData; EvRoleDelete n])) ∧
       (n = "" →
        AddNewUserRoute.action request w
        = (Returned (Errors400 {[ "role" := ["Role name is required"] ]}),
           after w (db w) [EvRequireUserWithRole "admin"; EvFormData])).
Proof.
  intros Hauth Hnames Hform. unfold delete_forms in Hform.
  apply list_elem_of_fmap in Hform as (n & Hbody & Hn).
  apply list_elem_of_filter in Hn as [Hoffer Hin].
  unfold offers_delete in Hoffer.
  apply Is_true_true in Hoffer.
  apply andb_true_iff in Hoffer as [Hoffer Hu].
  apply andb_true_iff in Hoffer as [Hadmin Ha].
  apply negb_true_iff, bool_decide_eq_false in Ha, Hu.
  assert (Hintent : get (body request) "intent" = Some (FString "delete-role"))
    by now rewrite Hbody.
  assert (Hs : submitted_roleName (body request) = Some n)
    by now rewrite Hbody.
  exists n. repeat apply conj; try assumption.
  - intros Hne.
    rewrite (delete_role_attempts _ _ _ _ Hauth Hintent Hs Hne Ha Hu).
    rewrite Hnames in Hin. apply role_findUnique_exists in Hin as [r Hr].
    now rewrite Hr.
  - intros ->. eapply delete_role_required; [eassumption .. |]. now right.
Qed.

End roles.

Lemma seed_is_referential : referential seed.
Proof.
  intros u n Hu Hn. apply list_elem_of_singleton in Hu. subst u.
  cbn in Hn. apply list_elem_of_singleton in Hn. subst n.
  apply list_elem_of_here.
Qed.

Lemma editor_round_trip :
  (AddNewUserRoute.action create_editor (start seed)).1
  = Returned (Success FormRole) ∧
  db (AddNewUserRoute.action delete_editor
        (AddNewUserRoute.action create_editor (start seed)).2).2
  = seed.
Proof.
  destruct (@create_then_delete_role_restores reference create_editor
              delete_editor (start seed) "u0" "u0" "Editor")
    as (E1 & _ & E2);
    [concrete | reflexivity | reflexivity | discriminate | concrete
    | discriminate | discriminate | exact seed_is_referential | concrete
    | reflexivity | reflexivity |].
  now split.
Defined.

Lemma creating_editor_reads_no_user :
  Forall (λ e, on_users e = false)
    (issued (AddNewUserRoute.action create_editor) (start seed)).
Proof.
  exact (proj1 (@role_intents_leave_users_alone reference create_editor
                  (start seed) (or_introl eq_refl))).
Defined.

Lemma offered_delete_of_editor_succeeds :
  body delete_editor ∈ delete_forms ["admin"] ["admin"; "editor"; "user"] ∧
  AddNewUserRoute.action delete_editor (start seed_with_editor)
  = (Returned (Success FormDeleteRole),
     after (start seed_with_editor) seed
       [EvRequireUserWithRole "admin"; EvFormData; EvRoleDelete "editor"]).
Proof.
  assert (Hin : body delete_editor
                ∈ delete_forms ["admin"] ["admin"; "editor"; "user"]).
  { vm_compute. apply list_elem_of_here. }
  split; [exact Hin |].
  destruct (@offered_deletes_pass_the_guard reference ["admin"]
              ["admin"; "editor"; "user"] delete_editor
              (start seed_with_editor) "u0")
    as (n & Hbody & _ & _ & _ & Hdel & _);
    [concrete | apply perm_skip, perm_swap | exact Hin |].
  assert (n = "editor") as -> by (vm_compute in Hbody; congruence).
  rewrite Hdel by discriminate. vm_compute. reflexivity.
Defined.

(** ** Referential integrity *)

Section references.
Context `{Collaborators}.

Lemma referential_role_create st n :
  referential st → referential (role_create st n).2.
Proof.
  unfold role_create. destruct (role_exists st n); [easy |].
  intros Href u m Hu Hm. cbn in *. rewrite fmap_app. apply elem_of_app.
  left. eauto.
Qed.

Lemma related_exists st held d n :
  roles_exist st (named_roles d) →
  (∀ m, m ∈ held → m ∈ Role.name <$> roles st) →
  n ∈ related held d → n ∈ Role.name <$> roles st.
Proof.
  unfold named_roles, related. intros Hr Hheld Hn.
  apply elem_of_connect_all in Hn as [Hn | Hn].
  - destruct (data_set d) as [names |]; [| now apply Hheld].
    apply elem_of_connect_all in Hn as [Hn | Hn];
      [now apply elem_of_nil in Hn |].
    apply Hr, elem_of_app. now left.
  - apply Hr, elem_of_app. now right.
Qed.

Lemma referential_user_create st d :
  referential st → referential (user_create st d).2.
Proof.
  unfold user_create. destruct (bool_decide _); [easy |].
  destruct (forallb (role_exists st) (named_roles d)) eqn:Hr; [| easy].
  apply forallb_roles_exist in Hr.
  intros Href u m Hu Hm. cbn in *.
  apply elem_of_app in Hu as [Hu | Hu%list_elem_of_singleton]; [eauto |].
  subst u. cbn in Hm. apply (related_exists st [] d); try assumption.
  intros m' Hm'. now apply elem_of_nil in Hm'.
Qed.

Lemma referential_user_update st id d :
  referential st → referential (user_update st id d).2.
Proof.
  unfold user_update. destruct (user_findUnique st (ById id)); [| easy].
  destruct (bool_decide _); [easy |].
  destruct (forallb (role_exists st) (named_roles d)) eqn:Hr; [| easy].
  apply forallb_roles_exist in Hr.
  intros Href u m Hu Hm. cbn in *. unfold update_rows in Hu.
  apply list_elem_of_fmap in Hu as (u0 & -> & Hu0).
  destruct (bool_decide (User.id u0 = id)); [| eauto].
  cbn in Hm. apply (related_exists st (User.roles u0) d); try assumption.
  intros m' Hm'. eauto.
Qed.

Lemma references_role_create n : preserves referential (prisma.role.create n).
Proof. apply preserves_mutation. intros st. apply referential_role_create. Qed.

Lemma references_user_create d : preserves referential (prisma.user.create d).
Proof. apply preserves_mutation. intros st. apply referential_user_create. Qed.

Lemma references_user_update id d :
  preserves referential (prisma.user.update id d).
Proof. apply preserves_mutation. intros st. apply referential_user_update. Qed.

End references.

#[export] Hint Resolve references_role_create references_user_create
  references_user_update : preserves.

Section references_kept.
Context `{Collaborators}.

(** X17. No creation and no edit leaves a user connected to a role without
    a row: when every role held by a user has a row before a request, the
    same holds after it, for every request to the single-intent creation
    action and to the edit action, and for every request to the multi-intent
    action other than a [delete-role] (a created or edited user is connected
    to existing roles only, and a created role takes none away). *)
Theorem actions_keep_references request w :
  referential (db w) →
  (get (body request) "intent" ≠ Some (FString "delete-role") →
   referential (db (AddNewUserRoute.action request w).2)) ∧
  referential (db (AddNewUserPlain.action request w).2) ∧
  (∀ userId, referential (db (EditUser.action request userId w).2)).
Proof.
  intros Href.
  assert (H2 : preserves referential (AddNewUserPlain.action request)).
  { unfold AddNewUserPlain.action, prisma.user.findUnique. preserves_body. }
  assert (H3 : ∀ userId, preserves referential (EditUser.action request userId)).
  { intros userId. unfold EditUser.action, prisma.user.findFirst_not.
    preserves_body. }
  split; [| split; [now apply H2 | intros; now apply H3]].
  intros Hintent.
  destruct (resolve_role request "admin" (db w)) as [t | caller] eqn:Hauth.
  { now rewrite (auth_failure_issues_the_check _ _ _ Hauth). }
  unfold AddNewUserRoute.action. do 2 await. cbv zeta.
  destruct (decide (get (body request) "intent" = Some (FString "create-role"))).
  - match goal with
    | |- referential (db (?m ?w0).2) =>
        assert (Hm : preserves referential m)
          by (unfold prisma.role.findUnique; preserves_body);
        now apply Hm
    end.
  - rewrite decide_False by assumption.
    match goal with
    | |- referential (db (?m ?w0).2) =>
        assert (Hm : preserves referential m)
          by (unfold prisma.user.findUnique; preserves_body);
        now apply Hm
    end.
Qed.

End references_kept.

Lemma creating_bob_keeps_references :
  referential seed ∧
  referential (db (AddNewUserPlain.action create_bob (start seed)).2) ∧
  users (db (AddNewUserPlain.action create_bob (start seed)).2) ≠ users seed.
Proof.
  split; [exact seed_is_referential |]. split.
  - exact (proj1 (proj2 (@actions_keep_references reference create_bob
                           (start seed) seed_is_referential))).
  - vm_compute. discriminate.
Defined.

(** ** Writes followed by reads *)

Section write_then_read.
Context `{Collaborators}.



Lemma creation_loader_returns request w caller :
  resolve_role request "admin" (db w) = inr caller →
  AddNewUserRoute.loader request w
  = (Returned {| AddNewUserRoute.availableRoles :=
                   Role.name <$> role_findMany_by_name (db w) |},
     after w (db w) [EvRequireUserWithRole "admin"; EvRoleFindMany]).
Proof.
  intros Hauth. unfold AddNewUserRoute.loader, prisma.role.findMany_by_name.
  do 2 await. rewrite run_ret. tidy. reflexivity.
Qed.

(** X19. A role created through the [create-role] intent is on the role
    list of the next load of the creation page, under its lowercased name
    and next to every role that was there before. *)
Theorem created_role_is_listed request request' w caller caller' s :
  resolve_role request "admin" (db w) = inr caller →
  get (body request) "intent" = Some (FString "create-role") →
  submitted_roleName (body request) = Some s → s ≠ "" →
  toLowerCase s ∉ Role.name <$> roles (db w) →
  resolve_role request' "admin" (db (AddNewUserRoute.action request w).2)
  = inr caller' →
  ∃ names,
    (AddNewUserRoute.loader request' (AddNewUserRoute.action request w).2).1
    = Returned {| AddNewUserRoute.availableRoles := names |}
    ∧ names ≡ₚ (Role.name <$> roles (db w)) ++ [toLowerCase s].
Proof.
  intros Hauth Hintent Hs Hne Hnew Hauth'.
  assert (Hn : toLowerCase s ≠ "") by now rewrite toLowerCase_empty.
  assert (Hl : toLowerCase <$> submitted_roleName (body request)
               = Some (toLowerCase s)) by now rewrite Hs.
  pose proof (create_role_inserts _ _ _ _ Hauth Hintent Hl Hn Hnew) as E.
  rewrite (creation_loader_returns _ _ _ Hauth').
  eexists. split; [reflexivity |].
  unfold role_findMany_by_name. rewrite merge_sort_Permutation.
  rewrite E. cbn [snd db after roles set_roles]. now rewrite fmap_app.
Qed.

End write_then_read.


Lemma created_editor_is_listed :
  ∃ names,
    (AddNewUserRoute.loader (post [])
       (AddNewUserRoute.action create_editor (start seed)).2).1
    = Returned {| AddNewUserRoute.availableRoles := names |}
    ∧ names ≡ₚ ["admin"; "user"; "editor"].
Proof.
  destruct (@created_role_is_listed reference create_editor (post [])
              (start seed) "u0" "u0" "Editor")
    as (names & E & Hp);
    [concrete | reflexivity | reflexivity | discriminate | concrete
    | concrete |].
  exists names. now split.
Defined.
